(* ===== verification/_CoqProject ===== *)
-Q . S2P
Prelude.v
Dates.v
Numeric.v
Scraper.v
Database.v
DateText.v
Orchestrator.v
Issuers.v
Pipeline.v
SampleData.v
Indicators.v
Resample.v
Technical.v
App.v
Examples.v
TechnicalExamples.v
