(* ===== verification/Prelude.v ===== *)
(** * A verification development of the MSE stock-history pipeline

    The program (src/Website/) keeps a SQLite table [stock_data] of daily
    trading records for the issuers listed on the Macedonian Stock Exchange
    up to date.  [main.py] runs its parts in this order:

    - issuer discovery ([Strategies.py], [IssuerCodeExtractor.py]): a
      strategy scrapes the list of issuer codes, [filter_codes] drops codes
      with a digit;
    - the currency check ([DatabaseManager.check_data_currency] with
      [get_last_date]): for every code, the day after its latest stored date,
      ten years back when nothing is stored, nothing when it is current;
    - the orchestrator ([DataScraper.update_data], [process_queue],
      [scrape_issuer]): a pool of asyncio workers draining one queue, each
      item fetched, re-cleaned and saved, failures appended to a shared list;
    - the windowed fetcher ([MSEStockScraper.scrape_historical_data] and
      [scrape_table], with [clean_numeric]), called by [scrape_issuer]: one
      request per window of at most 366 days, the HTML table turned into
      typed rows, incomplete rows dropped, duplicates dropped per window;
    - the storage writer ([DatabaseManager.save_data]), called by
      [scrape_issuer]: the rows of one code appended in one transaction under
      the primary key (issuer_code, Date).

    Beside the pipeline, [TechnicalAnalysis.py] reads [stock_data] back and
    writes [technical_indicators]: per issuer and per period (daily, the
    weekly bins of [resample('W')], the monthly bins of [resample('ME')])
    the oscillators of the [ta] library (RSI, MACD, stochastic, Williams
    %R, CCI), pandas moving averages and a Buy/Sell/Hold signal.  The Flask
    front end [app.py] runs [main.py] and [TechnicalAnalysis.py] as
    subprocesses and answers JSON queries on both tables;
    [DatabaseManager.fetch_sample_data] prints a sample of the table.

    ** Files, in dependency order

    - [Prelude] (this file): Python exceptions as the values [exn]; the
      result monad [result] ([Ok]/[Err], with stdpp's [mret]/[≫=]) for code
      that raises; [mapM] ([Series.apply]); a Python [dict] as an
      association list in insertion order ([dict_set], [dict_get]); the
      tactics [zlia] and [simpl_result], the hint databases [mse] and
      [mse_rw]; shared list lemmas.
    - [Dates]: [datetime.date] as its proleptic ordinal, kept inside
      [date.min .. date.max]; [date + timedelta] ([date_add]) raises
      [OverflowError] outside, as CPython does; [ymd] is CPython's
      [_ymd2ord] and [ord2ymd] its [_ord2ymd]: the encoding of a date as
      an ordinal that the whole model uses, not code of the repository;
      [check_date_fields] is the check of the constructor [date(y, m, d)]
      that [strptime] runs.
    - [Numeric]: the cells [pd.read_html] yields ([cell]), the floats a
      pandas column holds ([num]: NaN, infinities, finite numbers as exact
      rationals), [clean_numeric] (MSEStockScraper.py) and CPython's
      [float(str)] grammar ([py_float]) that it calls.
    - [Scraper]: [MSEStockScraper.scrape_table] against a [Remote] (a type
      class: the response of the site to one request) and a [DateCoercion]
      (a type class: [pd.to_datetime] on one cell); [scrape_historical_data]
      as the fuel-bounded loop [hist_loop]; the reference sequence [windows]
      of the requests that loop makes.
    - [Database]: the table as a list of [stock_row]s with SQLite's key
      semantics (a NULL key column never collides), [save_data] as an
      all-or-nothing [insert_rows], [get_last_date], [check_data_currency]
      ([currency_loop] is its [for] loop).
    - [DateText]: the dates as the text SQLite holds: [isoformat] (what
      [to_sql] stores), [datetime.strptime(s, "%Y-%m-%d")] as the regex
      CPython's [_strptime] compiles ([re_ymd], its alternatives in the
      engine's order) and the checks after it ([strptime_ymd]), SQLite's
      [MAX] on text ([sql_max_text]), and [get_last_date] at that level
      ([get_last_date_sql]).
    - [Orchestrator]: [fetch_issuer] and [scrape_issuer] on (table, error
      list); the worker pool as the step relation [pool_step] on the record
      [pool] (queue, workers, table, errors, and a log of finished items);
      [update_data_run] is a complete run of [update_data]; [update_seq] is
      the sequential loop it is compared with.  Sections [Pool],
      [PoolFacts], [PoolTheorems], [Refinement], [RefinementTheorems]
      share the remote, the date coercion and [today] as [Context].
    - [Issuers]: the [IssuerCodeStrategy] interface as a type class, the
      dropdown and table strategies as its instances over the fetched page,
      [filter_codes], [dict_fromkeys], [extractor_get_issuer_codes].
    - [Pipeline]: [main] as the relation [main_run] over every run of the
      worker pool and as the function [main_seq]; the lemmas that the
      pipeline does not depend on the order of the table's rows.
    - [SampleData]: [fetch_sample_data] as the relation [sample_result]
      over the row selections SQLite may make, and the number format
      [f"{x:,.2f}"] ([format_value]) it prints.
    - [Indicators]: the float operations of a pandas column on [num], the
      rolling windows, pandas' [ewma] loop ([ewm_loop], state [ewm_state]),
      the [ta] indicators ([ta_rsi], [ta_macd], [ta_stoch],
      [ta_williams_r], [ta_cci]) behind the type class [Oscillators] (with
      its laws [OscillatorLaws], discharged by the instance [ta_lib]), and
      [calculate_indicators] with its signal column ([signals]).
    - [Resample]: [df.resample(rule).agg(...)] for the rules [rule_W] and
      [rule_ME] (a [rule] is a bin index and its label), the NaT bin, the
      empty bins, the skipna aggregations.
    - [Technical]: [analyze_for_time_period], the per-issuer loop
      ([analyze_issuer]), [technical_analysis] ([pd.concat] of every block),
      [pd.unique] and the sort by (code, date).
    - [App]: the routes of [app.py] on a [db] record of both tables; the
      routes whose SQL has no total order ([query_analysis]) are relations.
    - [Examples], [TechnicalExamples]: a small remote site ([demo_remote]) and date coercion, ([demo_remote]) and date coercion,
      concrete runs of the pool, and one witness per theorem with
      hypotheses, evaluated by [vm_compute].

    ** What the theorems show

    - Windows ([Scraper]): the requests are contiguous, disjoint, inside
      [start, end], at most 366 days each, [ceil((end - start)/366)] of
      them; every day before [end] is requested, and [end] itself exactly
      when [(end - start) mod 366 <> 0]; the loop returns the concatenation
      of the non-empty window tables, or raises [OverflowError] near
      [date.max].
    - Storage ([Database]): [save_data] is all-or-nothing and keeps the key
      unique; the codes "", "None", "NULL" are stored with a NULL key;
      [check_data_currency] never raises on valid dates and returns the dict
      the spec describes.
    - Pool ([Orchestrator]): every run terminates (a measure decreases),
      some run completes, every item is processed exactly once, failures are
      isolated per item, and every complete run refines the sequential loop
      up to permutation; a cap <= 0 starts no worker.
    - Pipeline ([Pipeline], [Examples]): every run of [main] refines
      [main_seq] and keeps the key unique; it does nothing when all codes are
      current; a daily run (last stored date yesterday) never requests the
      current day and reports "No data retrieved" for every code.  The
      example [main_rerun_persists] runs [main] twice on one day against a
      small site and stores a row in the second run.
    - Values ([Numeric], [Issuers]): decimals with thousands separators are
      read exactly, blank strings raise [ValueError].  Lemmas of
      [Issuers] state the extractor's filter and [dict.fromkeys].
    - Dates ([Dates], [DateText]): the ordinal encoding is adequate
      ([ord2ymd_roundtrip], a lemma: [ord2ymd] inverts [ymd] on every valid
      date); [strptime] reads [isoformat] back; the text order of ISO dates is the
      date order; so [get_last_date] on the stored text refines the
      date-level [get_last_date] the currency check is modelled with.
    - Sample data ([SampleData]): every printed number reads back through
      [clean_numeric] to the value rounded to cents.
    - Indicators ([Indicators], [Resample], [Technical]): the one-pass
      [ewma] loop equals the weighted mean of its definition (an optimised
      routine against its reference); Williams %R is %K - 100; every RSI
      value [technical_analysis] writes, daily, weekly or monthly, is NaN
      or in [0, 100] (ta's formula is a percentage and the resampled means
      of finite prices are finite).  The lemma [calculate_indicators_rows]
      states the rows against any [Oscillators] that meets its laws; the
      example [signal_rsi_overridden] shows the price/SMA assignments
      overriding the RSI ones.
    - Resampling ([Resample]): the total volume is kept; a 'W' bin ends on
      the Sunday closing its week, an 'ME' bin on the last day of its month.
    - Analysis ([Technical], [App]): [technical_analysis] writes no NULL
      code and its daily rows are the (code, date) keys of the table's
      non-NULL-code rows; it raises on an empty table or a code with only
      NULL dates; [/run_analysis] answers 500 exactly then;
      [/fetch_latest_analysis] and [/fetch_historical_analysis] return
      the [LIMIT] latest matching rows in date order (the stored
      [Timestamp] text sorts as the dates), 400/404, or 500 with pandas'
      "Execution failed on sql" message when [technical_indicators] does
      not exist yet.

    ** Fuel and bounds

    [hist_loop] runs with [hist_fuel start end = 1 + (end - start)] rounds:
    every round but the last advances [current_start] by at least one day,
    so the fuel never runs out ([hist_loop_terminates]).  [windows_from] uses
    the same fuel.  The worker pool needs no fuel: [pool_step] is a relation
    whose runs are finite by the measure [pool_measure].  Dates are bounded
    by [date.min = 1] and [date.max = 3652059]; the theorems that compute
    ten years back assume [date.min + 3650 <= today <= date.max].
    [ord2ymd] needs no fuel (it divides by the 400/100/4/1-year cycles).
    [ewm_loop] and the rolling windows are structural on the series;
    [pd_unique] is structural on the column.

    ** Not modelled

    HTML scraping (BeautifulSoup, [requests], [aiohttp]) is the remote: a
    function from a request to a response.  The rounding of [float()] and
    of pandas' arithmetic to binary64 is not modelled: finite values are
    exact rationals and zero is unsigned, so the theorems on indicators
    hold of the exact computation the code approximates.  pandas computes
    rolling sums incrementally; the model sums each window, which differs
    only by rounding.  The clock is one [today] per run.
    [pd.to_datetime] on a scraped cell is the parameter [DateCoercion],
    with no law: the theorems that need dates inside [date.min ..
    date.max] assume it of the stored table ([table_wf]).  The database
    file and its [stock_data] table are assumed to exist
    ([DatabaseManager()] creates them before any run or route).  The HTML template
    of [app.home] and the timing and progress printing of [main] and
    [TechnicalAnalysis] are output only; printing is modelled as the error
    list and the exception [main] prints.  The [strftime("%Y-%m-%d")] of the
    request parameters is inside the remote, which receives the dates; the
    [\d] of [strptime]'s regex is taken on ASCII digits (Python also
    accepts other Unicode digits, which no stored text holds).  The imports
    and the commented-out [scrape_table] of [MSEStockScraper.py] are not
    code that runs. *)

From stdpp Require Export base list option numbers sets.
From Stdlib Require Export ZArith Lia.

Declare Scope mse_scope.
Delimit Scope mse_scope with mse.
Open Scope mse_scope.

(** ** Python exceptions the modelled code can raise *)

Inductive exn :=
| OverflowError        (** date arithmetic outside [date.min .. date.max] *)
| ValueError           (** [float(s)] on a malformed string, a column-count mismatch *)
| ParserError          (** [pd.to_datetime] on a cell that is no date *)
| IntegrityError       (** SQLite: a primary-key collision *)
| ClientError          (** aiohttp: the request or the response failed *)
| RequestException     (** requests: the request failed or [raise_for_status] *)
| AttributeError       (** an attribute of [None], e.g. [None.find_all] *)
| KeyError.            (** a missing key, e.g. [option['value']] *)

#[export] Instance exn_eq_dec : EqDecision exn.
Proof. solve_decision. Defined.

(** ** The result of code that may raise *)

Inductive result (A : Type) :=
| Ok (a : A)
| Err (e : exn).
Arguments Ok {A} a.
Arguments Err {A} e.

#[export] Instance result_ret : MRet result := fun _ x => Ok x.
#[export] Instance result_bind : MBind result :=
  fun _ _ f r => match r with Ok x => f x | Err e => Err e end.
#[export] Instance result_fmap : FMap result :=
  fun _ _ f r => match r with Ok x => Ok (f x) | Err e => Err e end.

(** [try: ... except Exception: return None] *)
Definition to_option {A} (r : result A) : option A :=
  match r with Ok x => Some x | Err _ => None end.

Notation "'raise' e" := (Err e) (at level 10) : mse_scope.

(** Mapping a fallible function over a list, stopping at the first raise,
    as [Series.apply] does. *)
Fixpoint mapM {A B} (f : A -> result B) (l : list A) : result (list B) :=
  match l with
  | [] => Ok []
  | x :: l' => y ← f x; ys ← mapM f l'; mret (y :: ys)
  end.

Lemma bind_Ok {A B} (r : result A) (f : A -> result B) (b : B) :
  (r ≫= f) = Ok b <-> exists a, r = Ok a /\ f a = Ok b.
Proof. destruct r; simpl; split; naive_solver. Qed.

Lemma mapM_Ok {A B} (f : A -> result B) (l : list A) (l' : list B) :
  mapM f l = Ok l' <-> Forall2 (fun x y => f x = Ok y) l l'.
Proof.
  revert l'; induction l as [|x l IH]; intros l'; simpl.
  - split; [intros [= <-]; constructor | intros H; inversion H; done].
  - rewrite bind_Ok. split.
    + intros (y & Hy & Hr). apply bind_Ok in Hr as (ys & Hys & [= <-]).
      constructor; [done | by apply IH].
    + intros H; inversion H as [|? y ? ys Hy Hys]; subst.
      exists y; split; [done|]. apply bind_Ok. exists ys. by rewrite (proj2 (IH ys)).
Qed.

Lemma mapM_length {A B} (f : A -> result B) (l : list A) (l' : list B) :
  mapM f l = Ok l' -> length l' = length l.
Proof. intros H%mapM_Ok. symmetry. by eapply Forall2_length. Qed.

(** An exception of [mapM] is one of a call. *)
Lemma mapM_Err {A B} (f : A -> result B) (l : list A) (e : exn) :
  mapM f l = Err e -> exists x, x ∈ l /\ f x = Err e.
Proof.
  induction l as [|x l IH]; simpl; [done|].
  destruct (f x) eqn:Hx; simpl; [|intros [= ->]; exists x; split; [left | done]].
  destruct (mapM f l); simpl; [done|]. intros [= ->]. destruct IH as (x' & ? & ?); [done|].
  exists x'. split; [by right | done].
Qed.

(** [mapM] returns when every call returns. *)
Lemma mapM_all_Ok {A B} (f : A -> result B) (l : list A) :
  (forall x, x ∈ l -> exists y, f x = Ok y) -> exists ys, mapM f l = Ok ys.
Proof.
  induction l as [|x l IH]; intros H; simpl; [by exists []|].
  destruct (H x) as [y ->]; [left|]. destruct IH as [ys ->]; [intros; apply H; by right|].
  by exists (y :: ys).
Qed.

(** [mapM] does not return when a call raises. *)
Lemma mapM_Err_elem {A B} (f : A -> result B) (l : list A) x e :
  x ∈ l -> f x = Err e -> exists e', mapM f l = Err e'.
Proof.
  induction l as [|y l IH]; intros Hx He; [set_solver|]. simpl.
  destruct (f y) eqn:Hy; simpl; [|by eexists].
  apply elem_of_cons in Hx as [->|Hx]; [congruence|].
  destruct (IH Hx He) as [e' ->]. by exists e'.
Qed.

Lemma filter_all {A} (P : A -> Prop) `{forall x, Decision (P x)} (l : list A) :
  Forall P l -> filter P l = l.
Proof. induction 1; [done|]. rewrite filter_cons_True by done. by f_equal. Qed.

Lemma filter_none {A} (P : A -> Prop) `{forall x, Decision (P x)} (l : list A) :
  Forall (fun x => ~ P x) l -> filter P l = [].
Proof. induction 1; [done|]. by rewrite filter_cons_False. Qed.

(** A Python [dict] as an association list in insertion order:
    [d[k] = v] replaces the value in place when [k] is a key, and appends
    the pair otherwise; [d.get(k)] is [dict_get]. *)
Fixpoint dict_set {K V} `{EqDecision K} (k : K) (v : V) (d : list (K * V)) : list (K * V) :=
  match d with
  | [] => [(k, v)]
  | (k', v') :: d' => if decide (k = k') then (k, v) :: d' else (k', v') :: dict_set k v d'
  end.

Fixpoint dict_get {K V} `{EqDecision K} (k : K) (d : list (K * V)) : option V :=
  match d with
  | [] => None
  | (k', v') :: d' => if decide (k = k') then Some v' else dict_get k d'
  end.

(** Python's [itertools.dropwhile] on a list. *)
Fixpoint drop_while {A} (p : A -> bool) (l : list A) : list A :=
  match l with x :: l' => if p x then drop_while p l' else l | [] => [] end.

Lemma dict_get_set {K V} `{EqDecision K} (k k' : K) (v : V) (d : list (K * V)) :
  dict_get k' (dict_set k v d) = if decide (k' = k) then Some v else dict_get k' d.
Proof.
  induction d as [|[k1 v1] d IH]; simpl; [by repeat case_decide|].
  destruct (decide (k = k1)); simpl.
  - subst. destruct (decide (k' = k1)); done.
  - rewrite IH. destruct (decide (k' = k)), (decide (k' = k1)); congruence.
Qed.

Lemma dict_set_keys {K V} `{EqDecision K} (k : K) (v : V) (d : list (K * V)) :
  NoDup d.*1 -> NoDup (dict_set k v d).*1.
Proof.
  induction d as [|[k1 v1] d IH]; simpl; intros Hnd; [constructor; [set_solver | constructor]|].
  apply NoDup_cons in Hnd as [Hk1 Hnd]. case_decide; subst; simpl.
  - by constructor.
  - constructor; [|by apply IH].
    assert (Hsub : forall k0, k0 ∈ (dict_set k v d).*1 -> k0 = k \/ k0 ∈ d.*1).
    { clear. induction d as [|[k2 v2] d IH]; simpl; intros k0 Hk0;
        [set_solver|case_decide; set_solver]. }
    intros [->|?]%Hsub; [congruence|done].
Qed.

Lemma dict_get_elem {K V} `{EqDecision K} (k : K) (v : V) (d : list (K * V)) :
  NoDup d.*1 -> (k, v) ∈ d -> dict_get k d = Some v.
Proof.
  induction d as [|[k1 v1] d IH]; simpl; [set_solver|].
  intros [Hk1 Hnd]%NoDup_cons [[= -> ->]|Hin]%elem_of_cons; [by rewrite decide_True|].
  rewrite decide_False; [by apply IH|].
  intros ->. apply Hk1. apply list_elem_of_fmap. by exists (k1, v).
Qed.

Lemma dict_get_nil {K V} `{EqDecision K} (d : list (K * V)) :
  (forall k, dict_get k d = None) -> d = [].
Proof.
  destruct d as [|[k v] d]; [done|]. intros Hd. specialize (Hd k). simpl in Hd.
  by rewrite decide_True in Hd.
Qed.

Lemma dict_get_Some {K V} `{EqDecision K} (k : K) (v : V) (d : list (K * V)) :
  dict_get k d = Some v -> (k, v) ∈ d.
Proof.
  induction d as [|[k1 v1] d IH]; simpl; [done|].
  case_decide; [intros [= <-]; subst; set_solver | set_solver].
Qed.

(** ** Tactics *)

Create HintDb mse discriminated.
Create Rewrite HintDb mse_rw.

(** Linear arithmetic with division and modulo by constants. *)
Ltac zlia := Z.div_mod_to_equations; lia.

(** Split equations on [result]s and options in hypotheses. *)
Ltac simpl_result :=
  repeat match goal with
  | H : (_ ≫= _) = Ok _ |- _ =>
      let a := fresh "a" in let Ha := fresh "Ha" in
      apply bind_Ok in H as (a & Ha & H)
  | H : mret _ = Ok _ |- _ => cbv [mret result_ret] in H
  end; simplify_eq.

(** ** Shared lemmas on lists *)

Lemma Permutation_app_swap_middle {A} (l1 l2 l3 : list A) :
  l1 ++ l2 ++ l3 ≡ₚ l2 ++ l1 ++ l3.
Proof. by rewrite !(assoc app), (comm app l1 l2). Qed.

Lemma NoDup_app3_disjoint {A} (a b c : list A) :
  (forall x, x ∈ b -> x ∈ c -> False) ->
  NoDup (a ++ b ++ c) <-> NoDup (a ++ b) /\ NoDup (a ++ c).
Proof.
  intros Hbc. rewrite !NoDup_app. setoid_rewrite elem_of_app. naive_solver.
Qed.

(** The first result of a [≫=] on lists is the first result of the first
    element, when that one has a result: the first match of a backtracking
    search. *)
Lemma head_bind {A B} (l : list A) (f : A -> list B) x y :
  head l = Some x -> head (f x) = Some y -> head (l ≫= f) = Some y.
Proof. destruct l as [|a l]; [done|]. intros [= ->] Hf. cbn. by destruct (f x); simplify_eq/=. Qed.

(** A property of every integer of a range, from its instances. *)
Lemma Forall_seqZ (P : Z -> Prop) lo n :
  Forall P (seqZ lo n) -> forall k, (lo <= k < lo + n)%Z -> P k.
Proof. rewrite Forall_forall. intros H k Hk. apply H, elem_of_seqZ. lia. Qed.

#[export] Hint Resolve Permutation_app_swap_middle : mse.
#[export] Hint Rewrite @length_app @length_map : mse_rw.
