(* ===== verification/Dates.v ===== *)
(** Python's [datetime.date] as the code uses it: a day is its proleptic
    Gregorian ordinal ([date.toordinal()], 0001-01-01 is day 1), comparisons
    are those of Z, and [d + timedelta(days=n)] raises [OverflowError] when the
    result leaves [date.min .. date.max], as CPython does.  [ymd] is CPython's
    [_ymd2ord], used to write concrete dates in witnesses; [ord2ymd] is
    [_ord2ymd] ([date.fromordinal]), by the 400/100/4/1-year cycles, with
    [weekday] ([date.weekday()]).  The two are proved inverse on the valid
    dates ([ord2ymd_roundtrip]). *)

From S2P Require Import Prelude.

Local Open Scope Z_scope.

Definition date := Z.

Definition date_min : date := 1.
Definition date_max : date := 3652059.

Definition date_ok (d : Z) : bool := (date_min <=? d)%Z && (d <=? date_max)%Z.

(** [d + timedelta(days=n)] (and [d - timedelta(days=-n)]) *)
Definition date_add (d : date) (n : Z) : result date :=
  if date_ok (d + n) then Ok (d + n)%Z else raise OverflowError.

(** CPython's [_days_before_year], [_days_before_month] and [_ymd2ord]. *)
Definition days_before_year (y : Z) : Z :=
  let y' := (y - 1)%Z in (y' * 365 + y' / 4 - y' / 100 + y' / 400)%Z.

Definition is_leap (y : Z) : bool :=
  (y mod 4 =? 0)%Z && (negb (y mod 100 =? 0)%Z || (y mod 400 =? 0)%Z).

Definition days_before_month (y m : Z) : Z :=
  (nth (Z.to_nat (m - 1)) [0; 31; 59; 90; 120; 151; 181; 212; 243; 273; 304; 334]%Z 0
   + if (2 <? m)%Z && is_leap y then 1 else 0)%Z.

Definition ymd (y m d : Z) : date := (days_before_year y + days_before_month y m + d)%Z.

(** CPython's [_DAYS_IN_MONTH] and [_DAYS_BEFORE_MONTH], for month [m] in a
    year that is a leap year or not. *)
Definition dim_tbl (m : Z) (leap : bool) : Z :=
  nth (Z.to_nat (m - 1)) [31; 28; 31; 30; 31; 30; 31; 31; 30; 31; 30; 31]%Z 0
  + if (m =? 2) && leap then 1 else 0.

Definition dbm_tbl (m : Z) (leap : bool) : Z :=
  nth (Z.to_nat (m - 1)) [0; 31; 59; 90; 120; 151; 181; 212; 243; 273; 304; 334]%Z 0
  + if (2 <? m) && leap then 1 else 0.

Definition days_in_month (y m : Z) : Z := dim_tbl m (is_leap y).

(** The end of CPython's [_ord2ymd]: the month and the day of the
    zero-based day [n] of a year, from the estimate [(n + 50) >> 5]. *)
Definition month_day (n : Z) (leapyear : bool) : Z * Z :=
  let month := Z.shiftr (n + 50) 5 in
  let preceding := dbm_tbl month leapyear in
  if n <? preceding then
    let month := month - 1 in
    let preceding := preceding - dim_tbl month leapyear in
    (month, n - preceding + 1)
  else (month, n - preceding + 1).

(** CPython's [_ord2ymd]: [date.fromordinal(n)] as (year, month, day). *)
Definition ord2ymd (n : Z) : Z * Z * Z :=
  let n := n - 1 in
  let n400 := n / 146097 in
  let n := n mod 146097 in
  let year := n400 * 400 + 1 in
  let n100 := n / 36524 in
  let n := n mod 36524 in
  let n4 := n / 1461 in
  let n := n mod 1461 in
  let n1 := n / 365 in
  let n := n mod 365 in
  let year := year + n100 * 100 + n4 * 4 + n1 in
  if (n1 =? 4) || (n100 =? 4) then (year - 1, 12, 31)
  else
    let leapyear := (n1 =? 3) && (negb (n4 =? 24) || (n100 =? 3)) in
    let '(month, day) := month_day n leapyear in
    (year, month, day).

(** [date.weekday()]: Monday is 0, Sunday is 6. *)
Definition weekday (d : date) : Z := (d + 6) mod 7.

(** CPython's [_check_date_fields]: the constructor [date(y, m, d)] raises
    [ValueError] unless [MINYEAR <= y <= MAXYEAR], [1 <= m <= 12] and
    [1 <= d <= _days_in_month(y, m)]. *)
Definition check_date_fields (y m d : Z) : bool :=
  (1 <=? y) && (y <=? 9999) && (1 <=? m) && (m <=? 12) && (1 <=? d) && (d <=? days_in_month y m).

(** Lexicographic comparison of (year, month, day). *)
Definition lex3 (a b : Z * Z * Z) : comparison :=
  let '(y1, m1, d1) := a in
  let '(y2, m2, d2) := b in
  match Z.compare y1 y2 with
  | Eq => match Z.compare m1 m2 with Eq => Z.compare d1 d2 | c => c end
  | c => c
  end.

(** ** Lemmas *)

Lemma date_ok_spec d : date_ok d = true <-> (date_min <= d <= date_max)%Z.
Proof. unfold date_ok. rewrite andb_true_iff, !Z.leb_le. done. Qed.

Lemma date_add_Ok d n d' :
  date_add d n = Ok d' <-> d' = (d + n)%Z /\ (date_min <= d + n <= date_max)%Z.
Proof.
  unfold date_add. rewrite <- date_ok_spec.
  destruct (date_ok _); split; intros H; simplify_eq; naive_solver.
Qed.

Lemma date_add_in_range d n :
  (date_min <= d + n <= date_max)%Z -> date_add d n = Ok (d + n)%Z.
Proof. intros H. by apply date_add_Ok. Qed.

Lemma date_add_overflow d n :
  ~ (date_min <= d + n <= date_max)%Z -> date_add d n = raise OverflowError.
Proof.
  intros H. unfold date_add.
  destruct (date_ok _) eqn:E; [apply date_ok_spec in E; contradiction | done].
Qed.

#[export] Hint Resolve date_add_in_range : mse.

Example ymd_bounds : ymd 1 1 1 = date_min /\ ymd 9999 12 31 = date_max.
Proof. split; reflexivity. Qed.

(** ** The calendar *)

Lemma days_before_month_tbl y m : days_before_month y m = dbm_tbl m (is_leap y).
Proof. done. Qed.

(** The in-year step, checked on every day of a year and every date of a
    month, leap or not. *)
Definition month_day_ok (k : Z) (leap : bool) : bool :=
  let '(m, d) := month_day k leap in
  (1 <=? m) && (m <=? 12) && (1 <=? d) && (d <=? dim_tbl m leap) && (dbm_tbl m leap + d =? k + 1).

Definition month_day_inv_ok (m d : Z) (leap : bool) : bool :=
  implb (d <=? dim_tbl m leap) (bool_decide (month_day (dbm_tbl m leap + d - 1) leap = (m, d))).

Lemma forall_Z_range (P : Z -> bool) (lo n : Z) :
  forallb P (map (fun i => lo + Z.of_nat i) (seq 0 (Z.to_nat n))) = true ->
  forall k, lo <= k < lo + n -> P k = true.
Proof.
  intros H k Hk. rewrite forallb_forall in H. apply H. apply in_map_iff.
  exists (Z.to_nat (k - lo)). split; [lia|]. apply in_seq. lia.
Qed.

Lemma month_day_spec k leap :
  0 <= k <= 364 ->
  let '(m, d) := month_day k leap in
  1 <= m <= 12 /\ 1 <= d <= dim_tbl m leap /\ dbm_tbl m leap + d = k + 1.
Proof.
  intros Hk.
  assert (H : forall k, 0 <= k < 0 + 365 -> month_day_ok k true && month_day_ok k false = true).
  { apply forall_Z_range. vm_compute. reflexivity. }
  specialize (H k ltac:(lia)). apply andb_true_iff in H as [Ht Hf].
  assert (Hok : month_day_ok k leap = true) by (by destruct leap).
  unfold month_day_ok in Hok. destruct (month_day k leap) as [m d].
  repeat rewrite andb_true_iff in Hok. rewrite !Z.leb_le, Z.eqb_eq in Hok. lia.
Qed.

Lemma month_day_inv m d leap :
  1 <= m <= 12 -> 1 <= d <= dim_tbl m leap -> month_day (dbm_tbl m leap + d - 1) leap = (m, d).
Proof.
  intros Hm Hd.
  assert (Hall : forall m, 1 <= m < 1 + 12 ->
            forallb (fun d => month_day_inv_ok m d true && month_day_inv_ok m d false)
              (map (fun i => 1 + Z.of_nat i) (seq 0 (Z.to_nat 31))) = true).
  { apply forall_Z_range. vm_compute. reflexivity. }
  assert (H : forall m, 1 <= m < 1 + 12 -> forall d, 1 <= d < 1 + 31 ->
            month_day_inv_ok m d true && month_day_inv_ok m d false = true).
  { intros m' Hm' d' Hd'.
    exact (forall_Z_range (fun d => month_day_inv_ok m' d true && month_day_inv_ok m' d false) 1 31
             (Hall m' Hm') d' Hd'). }
  assert (Hd31 : d < 1 + 31).
  { assert (Hle : forall m, 1 <= m < 1 + 12 -> (dim_tbl m true <=? 31) && (dim_tbl m false <=? 31) = true)
      by (apply forall_Z_range; vm_compute; reflexivity).
    specialize (Hle m ltac:(lia)). destruct leap; rewrite andb_true_iff, !Z.leb_le in Hle; lia. }
  specialize (H m ltac:(lia) d ltac:(lia)). apply andb_true_iff in H as [Ht Hf].
  assert (Hok : month_day_inv_ok m d leap = true) by (by destruct leap).
  unfold month_day_inv_ok in Hok. rewrite (proj2 (Z.leb_le _ _)) in Hok by lia.
  by apply bool_decide_eq_true in Hok.
Qed.

(** The year [400 a + 100 b + 4 c + e + 1]: the days before it, and whether
    it is a leap year, from its place in the 400-, 100- and 4-year cycles. *)
Lemma days_before_year_cycles a b c e :
  0 <= a -> 0 <= b <= 3 -> 0 <= c <= 24 -> 0 <= e <= 3 ->
  days_before_year (400 * a + 100 * b + 4 * c + e + 1) = 146097 * a + 36524 * b + 1461 * c + 365 * e.
Proof. intros. unfold days_before_year. zlia. Qed.

Lemma is_leap_cycles a b c e :
  0 <= a -> 0 <= b <= 3 -> 0 <= c <= 24 -> 0 <= e <= 3 ->
  is_leap (400 * a + 100 * b + 4 * c + e + 1) = (e =? 3) && (negb (c =? 24) || (b =? 3)).
Proof.
  intros. unfold is_leap.
  set (y := 400 * a + 100 * b + 4 * c + e + 1).
  assert (H4 : y mod 4 = 0 <-> e = 3) by (subst y; zlia).
  assert (H100 : y mod 100 = 0 <-> e = 3 /\ c = 24) by (subst y; zlia).
  assert (H400 : y mod 400 = 0 <-> e = 3 /\ c = 24 /\ b = 3) by (subst y; zlia).
  destruct (Z.eqb_spec (y mod 4) 0), (Z.eqb_spec (y mod 100) 0), (Z.eqb_spec (y mod 400) 0),
    (Z.eqb_spec e 3), (Z.eqb_spec c 24), (Z.eqb_spec b 3); simpl; tauto.
Qed.

(** [_ord2ymd] on a day of a year that is not the 366th of a leap year. *)
Lemma ord2ymd_cycles a b c e k :
  0 <= a -> 0 <= b <= 3 -> 0 <= c <= 24 -> 0 <= e <= 3 -> 0 <= k <= 364 ->
  ord2ymd (146097 * a + 36524 * b + 1461 * c + 365 * e + k + 1) =
    let '(m, d) := month_day k (is_leap (400 * a + 100 * b + 4 * c + e + 1)) in
    (400 * a + 100 * b + 4 * c + e + 1, m, d).
Proof.
  intros. rewrite is_leap_cycles by done. unfold ord2ymd.
  set (n := 146097 * a + 36524 * b + 1461 * c + 365 * e + k + 1).
  replace ((n - 1) / 146097) with a by (subst n; zlia).
  replace ((n - 1) mod 146097) with (36524 * b + 1461 * c + 365 * e + k) by (subst n; zlia).
  replace ((36524 * b + 1461 * c + 365 * e + k) / 36524) with b by zlia.
  replace ((36524 * b + 1461 * c + 365 * e + k) mod 36524) with (1461 * c + 365 * e + k) by zlia.
  replace ((1461 * c + 365 * e + k) / 1461) with c by zlia.
  replace ((1461 * c + 365 * e + k) mod 1461) with (365 * e + k) by zlia.
  replace ((365 * e + k) / 365) with e by zlia.
  replace ((365 * e + k) mod 365) with k by zlia.
  rewrite (proj2 (Z.eqb_neq e 4)), (proj2 (Z.eqb_neq b 4)) by lia. cbn [orb].
  destruct (month_day _ _). f_equal. f_equal. lia.
Qed.

(** [_ord2ymd] on the 366th day of a leap year: December 31. *)
Lemma ord2ymd_dec31 a b c :
  0 <= a -> 0 <= b <= 3 -> 0 <= c <= 24 -> (c <> 24 \/ b = 3) ->
  ord2ymd (146097 * a + 36524 * b + 1461 * c + 365 * 3 + 365 + 1) =
    (400 * a + 100 * b + 4 * c + 3 + 1, 12, 31).
Proof.
  intros Ha Hb Hc Hcb. unfold ord2ymd.
  set (n := 146097 * a + 36524 * b + 1461 * c + 365 * 3 + 365 + 1).
  destruct (decide (b = 3 /\ c = 24)) as [[-> ->]|Hnot].
  - replace ((n - 1) / 146097) with a by (subst n; zlia).
    replace ((n - 1) mod 146097) with 146096 by (subst n; zlia).
    simpl. f_equal. f_equal. zlia.
  - replace ((n - 1) / 146097) with a by (subst n; zlia).
    replace ((n - 1) mod 146097) with (36524 * b + 1461 * c + 1460) by (subst n; zlia).
    replace ((36524 * b + 1461 * c + 1460) / 36524) with b by zlia.
    replace ((36524 * b + 1461 * c + 1460) mod 36524) with (1461 * c + 1460) by zlia.
    replace ((1461 * c + 1460) / 1461) with c by zlia.
    replace ((1461 * c + 1460) mod 1461) with 1460 by zlia.
    simpl. f_equal. f_equal. zlia.
Qed.

(** Days of a valid month date counted from January 1: at most 365, or 366
    on December 31 of a leap year only. *)
Lemma day_of_year_bound m d leap :
  1 <= m <= 12 -> 1 <= d <= dim_tbl m leap ->
  0 <= dbm_tbl m leap /\ dbm_tbl m leap + d <= 365 + (if leap then 1 else 0) /\
  (dbm_tbl m leap + d = 366 -> m = 12 /\ d = 31 /\ leap = true).
Proof.
  intros Hm Hd. pose proof (month_day_inv m d leap Hm Hd) as Hinv.
  assert (Hall : forall m, 1 <= m < 1 + 12 ->
    (0 <=? dbm_tbl m true) && (0 <=? dbm_tbl m false) &&
    (dbm_tbl m true + dim_tbl m true <=? 366) && (dbm_tbl m false + dim_tbl m false <=? 365) &&
    implb (dbm_tbl m true + dim_tbl m true =? 366) (m =? 12) = true)
    by (apply forall_Z_range; vm_compute; reflexivity).
  specialize (Hall m ltac:(lia)). rewrite !andb_true_iff, !Z.leb_le in Hall.
  destruct Hall as [[[[H0t H0f] Ht] Hf] Himp]. destruct leap.
  - split; [lia|]. split; [lia|]. intros H366. destruct (Z.eqb_spec (dbm_tbl m true + dim_tbl m true) 366); [|lia].
    simpl in Himp. apply Z.eqb_eq in Himp as ->. change (dbm_tbl 12 true) with 335 in H366. split_and!; [done | lia | done].
  - split; [lia|]. split; [lia|]. lia.
Qed.

(** The year [y] in its cycles. *)
Lemma year_cycles y :
  1 <= y -> y = 400 * ((y - 1) / 400) + 100 * ((y - 1) mod 400 / 100) + 4 * ((y - 1) mod 100 / 4)
                + (y - 1) mod 4 + 1.
Proof. intros. zlia. Qed.

(** [_ymd2ord] then [_ord2ymd] gives the date back. *)
Lemma ord2ymd_ymd y m d :
  1 <= y -> 1 <= m <= 12 -> 1 <= d <= days_in_month y m -> ord2ymd (ymd y m d) = (y, m, d).
Proof.
  intros Hy Hm Hd. unfold days_in_month in Hd.
  pose proof (year_cycles y Hy) as Hyc.
  set (a := (y - 1) / 400) in Hyc. set (b := (y - 1) mod 400 / 100) in Hyc.
  set (c := (y - 1) mod 100 / 4) in Hyc. set (e := (y - 1) mod 4) in Hyc.
  assert (Hb : 0 <= a /\ 0 <= b <= 3 /\ 0 <= c <= 24 /\ 0 <= e <= 3) by (subst a b c e; zlia).
  destruct Hb as (Ha & Hb & Hc & He). clearbody a b c e.
  destruct (day_of_year_bound m d (is_leap y) Hm Hd) as (Hk0 & Hk & H366).
  unfold ymd. rewrite days_before_month_tbl. rewrite Hyc at 1.
  rewrite days_before_year_cycles by done.
  destruct (decide (dbm_tbl m (is_leap y) + d = 366)) as [Heq|Hne].
  - destruct (H366 Heq) as (-> & -> & Hleap). rewrite Hyc in Hleap.
    rewrite is_leap_cycles in Hleap by done.
    apply andb_true_iff in Hleap as [He3 Hcb]. apply Z.eqb_eq in He3. subst e.
    replace (146097 * a + 36524 * b + 1461 * c + 365 * 3 + dbm_tbl 12 (is_leap y) + 31)
      with (146097 * a + 36524 * b + 1461 * c + 365 * 3 + 365 + 1) by lia.
    rewrite ord2ymd_dec31 by (done || destruct (Z.eqb_spec c 24), (Z.eqb_spec b 3); simpl in Hcb; lia).
    by rewrite Hyc.
  - replace (146097 * a + 36524 * b + 1461 * c + 365 * e + dbm_tbl m (is_leap y) + d)
      with (146097 * a + 36524 * b + 1461 * c + 365 * e + (dbm_tbl m (is_leap y) + d - 1) + 1) by lia.
    rewrite ord2ymd_cycles by (done || destruct (is_leap y); lia).
    rewrite <-Hyc, month_day_inv by done. done.
Qed.

(** December 31 of the fourth year of a four-year cycle that is a leap year
    is a valid date, and [_ymd2ord] gives it the last ordinal of that cycle. *)
Lemma dec31_valid a b c :
  0 <= a -> 0 <= b <= 3 -> 0 <= c <= 24 -> is_leap (400 * a + 100 * b + 4 * c + 3 + 1) = true ->
  31 <= days_in_month (400 * a + 100 * b + 4 * c + 3 + 1) 12 /\
  ymd (400 * a + 100 * b + 4 * c + 3 + 1) 12 31 =
    146097 * a + 36524 * b + 1461 * c + 365 * 3 + 365 + 1.
Proof.
  intros Ha Hb Hc Hl. unfold days_in_month, ymd.
  rewrite days_before_year_cycles, days_before_month_tbl, Hl by lia.
  change (dim_tbl 12 true) with 31. change (dbm_tbl 12 true) with 335. lia.
Qed.

(** Every ordinal from 1 on is [_ymd2ord] of the valid date [_ord2ymd] gives. *)
Lemma ymd_ord2ymd n :
  1 <= n -> let '(y, m, d) := ord2ymd n in
  1 <= y /\ 1 <= m <= 12 /\ 1 <= d <= days_in_month y m /\ ymd y m d = n.
Proof.
  intros Hn.
  set (a := (n - 1) / 146097). set (r1 := (n - 1) mod 146097).
  set (b := r1 / 36524). set (c := r1 mod 36524 / 1461). set (r3 := r1 mod 36524 mod 1461).
  assert (Hr : n = 146097 * a + 36524 * b + 1461 * c + r3 + 1 /\ 0 <= a /\ 0 <= b <= 4 /\
               0 <= c <= 24 /\ 0 <= r3 < 1461 /\ (b = 4 -> c = 0 /\ r3 = 0) /\
               (c = 24 -> r3 < 1460)) by (subst a r1 b c r3; zlia).
  clearbody a r1 b c r3. destruct Hr as (-> & Ha & Hb & Hc & Hr3 & Hb4 & Hc24).
  assert (Hdec : forall b c, 0 <= b <= 3 -> 0 <= c <= 24 -> (c <> 24 \/ b = 3) ->
    let '(y, m, d) := ord2ymd (146097 * a + 36524 * b + 1461 * c + 365 * 3 + 365 + 1) in
    1 <= y /\ 1 <= m <= 12 /\ 1 <= d <= days_in_month y m /\
    ymd y m d = 146097 * a + 36524 * b + 1461 * c + 365 * 3 + 365 + 1).
  { intros b' c' Hb' Hc' Hcb. rewrite ord2ymd_dec31 by done.
    destruct (dec31_valid a b' c'); [lia .. | |].
    - rewrite is_leap_cycles by lia.
      destruct (Z.eqb_spec c' 24), (Z.eqb_spec b' 3); naive_solver lia.
    - split_and!; lia. }
  destruct (decide (b = 4)) as [->|Hb'].
  { destruct (Hb4 eq_refl) as [-> ->].
    replace (146097 * a + 36524 * 4 + 1461 * 0 + 0 + 1)
      with (146097 * a + 36524 * 3 + 1461 * 24 + 365 * 3 + 365 + 1) by lia.
    apply Hdec; lia. }
  destruct (decide (r3 = 1460)) as [->|Hr3'].
  { replace (146097 * a + 36524 * b + 1461 * c + 1460 + 1)
      with (146097 * a + 36524 * b + 1461 * c + 365 * 3 + 365 + 1) by lia.
    apply Hdec; lia. }
  set (e := r3 / 365). set (k := r3 mod 365).
  assert (Hr : r3 = 365 * e + k /\ 0 <= e <= 3 /\ 0 <= k <= 364) by (subst e k; zlia).
  clearbody e k. destruct Hr as (-> & He & Hk).
  replace (146097 * a + 36524 * b + 1461 * c + (365 * e + k) + 1)
    with (146097 * a + 36524 * b + 1461 * c + 365 * e + k + 1) by lia.
  rewrite ord2ymd_cycles by lia.
  pose proof (month_day_spec k (is_leap (400 * a + 100 * b + 4 * c + e + 1)) Hk) as Hmd.
  destruct (month_day _ _) as [m d]. destruct Hmd as (Hm & Hd & Hsum).
  split_and!; [lia | lia | lia | lia | unfold days_in_month; lia |].
  unfold ymd. rewrite days_before_year_cycles, days_before_month_tbl by lia. lia.
Qed.

(** ** The calendar order *)

Lemma check_date_fields_spec y m d :
  check_date_fields y m d = true <-> 1 <= y <= 9999 /\ 1 <= m <= 12 /\ 1 <= d <= days_in_month y m.
Proof. unfold check_date_fields. rewrite !andb_true_iff, !Z.leb_le. tauto. Qed.

Lemma days_before_next_year y :
  1 <= y -> days_before_year (y + 1) = days_before_year y + 365 + (if is_leap y then 1 else 0).
Proof.
  intros Hy. unfold days_before_year, is_leap.
  destruct (Z.eqb_spec (y mod 4) 0), (Z.eqb_spec (y mod 100) 0), (Z.eqb_spec (y mod 400) 0); cbn; zlia.
Qed.

Lemma days_before_year_mono y1 y2 : y1 <= y2 -> days_before_year y1 <= days_before_year y2.
Proof. intros. unfold days_before_year. zlia. Qed.

(** The months of a year follow each other: a month ends before the next
    one begins, and no month has more than 31 days. *)
Lemma dbm_tbl_mono m1 m2 leap :
  1 <= m1 < m2 -> m2 <= 12 -> dbm_tbl m1 leap + dim_tbl m1 leap <= dbm_tbl m2 leap.
Proof.
  intros Hm1 Hm2.
  assert (Hall : forall m1, 1 <= m1 < 1 + 12 ->
    forallb (fun m2 => implb (m1 <? m2) ((dbm_tbl m1 true + dim_tbl m1 true <=? dbm_tbl m2 true) &&
                                         (dbm_tbl m1 false + dim_tbl m1 false <=? dbm_tbl m2 false)))
      (map (fun i => 1 + Z.of_nat i) (seq 0 (Z.to_nat 12))) = true)
    by (apply forall_Z_range; vm_compute; reflexivity).
  pose proof (forall_Z_range _ 1 12 (Hall m1 ltac:(lia)) m2 ltac:(lia)) as H. cbv beta in H.
  rewrite (proj2 (Z.ltb_lt m1 m2)) in H by lia. cbn [implb] in H.
  rewrite andb_true_iff, !Z.leb_le in H. destruct leap; lia.
Qed.

Lemma dim_tbl_le_31 m leap : 1 <= m <= 12 -> dim_tbl m leap <= 31.
Proof.
  intros Hm.
  assert (Hle : forall m, 1 <= m < 1 + 12 -> (dim_tbl m true <=? 31) && (dim_tbl m false <=? 31) = true)
    by (apply forall_Z_range; vm_compute; reflexivity).
  specialize (Hle m ltac:(lia)). destruct leap; rewrite andb_true_iff, !Z.leb_le in Hle; lia.
Qed.

(** A valid date comes after the days of the years before it and before
    those of the next year. *)
Lemma ymd_in_year y m d :
  1 <= y -> 1 <= m <= 12 -> 1 <= d <= days_in_month y m ->
  days_before_year y < ymd y m d <= days_before_year (y + 1).
Proof.
  intros Hy Hm Hd. unfold days_in_month in Hd.
  destruct (day_of_year_bound m d (is_leap y) Hm Hd) as (H0 & H365 & _).
  rewrite days_before_next_year by done. unfold ymd. rewrite days_before_month_tbl.
  destruct (is_leap y); lia.
Qed.

(** [_ymd2ord] is strictly increasing in the (year, month, day) order. *)
Lemma ymd_lex_lt y1 m1 d1 y2 m2 d2 :
  1 <= y1 -> 1 <= m1 <= 12 -> 1 <= d1 <= days_in_month y1 m1 ->
  1 <= y2 -> 1 <= m2 <= 12 -> 1 <= d2 <= days_in_month y2 m2 ->
  lex3 (y1, m1, d1) (y2, m2, d2) = Lt -> ymd y1 m1 d1 < ymd y2 m2 d2.
Proof.
  intros Hy1 Hm1 Hd1 Hy2 Hm2 Hd2. cbn [lex3].
  destruct (Z.compare_spec y1 y2) as [<-|Hy|]; [|intros _|done].
  - destruct (Z.compare_spec m1 m2) as [<-|Hm|]; [|intros _|done].
    + rewrite Z.compare_lt_iff. unfold ymd. lia.
    + unfold ymd. rewrite !days_before_month_tbl. unfold days_in_month in Hd1.
      pose proof (dbm_tbl_mono m1 m2 (is_leap y1) ltac:(lia) ltac:(lia)). lia.
  - pose proof (ymd_in_year y1 m1 d1 Hy1 Hm1 Hd1). pose proof (ymd_in_year y2 m2 d2 Hy2 Hm2 Hd2).
    pose proof (days_before_year_mono (y1 + 1) y2 ltac:(lia)). lia.
Qed.

Lemma lex3_antisym a b : lex3 b a = CompOpp (lex3 a b).
Proof.
  destruct a as [[y1 m1] d1], b as [[y2 m2] d2]. cbn [lex3].
  rewrite (Z.compare_antisym y1 y2), (Z.compare_antisym m1 m2), (Z.compare_antisym d1 d2).
  by destruct (Z.compare y1 y2), (Z.compare m1 m2), (Z.compare d1 d2).
Qed.

Lemma lex3_eq a b : lex3 a b = Eq -> a = b.
Proof.
  destruct a as [[y1 m1] d1], b as [[y2 m2] d2]. cbn [lex3].
  destruct (Z.compare_spec y1 y2), (Z.compare_spec m1 m2), (Z.compare_spec d1 d2);
    cbn; intros E; try discriminate E; by subst.
Qed.

(** On valid dates, the ordinals compare as the (year, month, day) triples. *)
Lemma ymd_compare y1 m1 d1 y2 m2 d2 :
  1 <= y1 -> 1 <= m1 <= 12 -> 1 <= d1 <= days_in_month y1 m1 ->
  1 <= y2 -> 1 <= m2 <= 12 -> 1 <= d2 <= days_in_month y2 m2 ->
  Z.compare (ymd y1 m1 d1) (ymd y2 m2 d2) = lex3 (y1, m1, d1) (y2, m2, d2).
Proof.
  intros. destruct (lex3 _ _) eqn:E.
  - apply lex3_eq in E. simplify_eq. apply Z.compare_refl.
  - apply Z.compare_lt_iff. by apply ymd_lex_lt.
  - apply Z.compare_gt_iff. apply ymd_lex_lt; [done ..|]. by rewrite lex3_antisym, E.
Qed.

(** The year of a date up to [date.max] has at most four digits. *)
Lemma ymd_year_bound y m d :
  1 <= y -> 1 <= m <= 12 -> 1 <= d <= days_in_month y m -> ymd y m d <= date_max -> y <= 9999.
Proof.
  intros Hy Hm Hd Hmax. destruct (Z.le_gt_cases y 9999) as [|Hgt]; [done|].
  pose proof (ymd_in_year y m d Hy Hm Hd). pose proof (days_before_year_mono 10000 y ltac:(lia)).
  change (days_before_year 10000) with 3652059 in *. unfold date_max in Hmax. lia.
Qed.

(** CPython's [_ord2ymd] inverts [_ymd2ord]: [date(y, m, d).toordinal()]
    read back with [date.fromordinal] is [(y, m, d)] for every valid date,
    and every ordinal from 1 on is the ordinal of a valid date. *)
Theorem ord2ymd_roundtrip :
  (forall y m d, 1 <= y -> 1 <= m <= 12 -> 1 <= d <= days_in_month y m ->
     ord2ymd (ymd y m d) = (y, m, d)) /\
  (forall n, 1 <= n -> let '(y, m, d) := ord2ymd n in
     1 <= y /\ 1 <= m <= 12 /\ 1 <= d <= days_in_month y m /\ ymd y m d = n).
Proof. split; [exact ord2ymd_ymd | exact ymd_ord2ymd]. Qed.
