(* ===== verification/Numeric.v ===== *)
(** The values of the scraped table and [clean_numeric]
    (src/Website/MSEStockScraper.py, lines 13-21).

    A cell of the DataFrame [pd.read_html] returns is NaN, a Python int, a
    Python float or a string ([cell]).  A cleaned numeric column holds floats
    ([num]): NaN (pandas' "missing", which is also what [None] becomes in a
    float column), a signed infinity, or a finite number.  Finite numbers are
    kept as exact rationals: the rounding of [float()] to a binary64 double
    (and its overflow to infinity) is not modelled.  [py_float] is CPython's
    [float(str)]: surrounding whitespace, an optional sign, [inf], [infinity]
    or [nan] in any case, digits with single underscores between them, an
    optional fraction and an optional exponent; anything else raises
    [ValueError]. *)

From Stdlib Require Import QArith String Ascii.
From S2P Require Import Prelude.

Close Scope Q_scope.
Local Open Scope Z_scope.

Inductive num :=
| NNaN
| NInf (neg : bool)
| NFin (q : Q).

#[export] Instance Q_eq_dec : EqDecision Q.
Proof. intros [a b] [c d]. unfold Decision. decide equality; [apply Pos.eq_dec | apply Z.eq_dec]. Defined.

#[export] Instance num_eq_dec : EqDecision num.
Proof. solve_decision. Defined.

(** [pd.isna] on a float *)
Definition is_missing (x : num) : bool :=
  match x with NNaN => true | _ => false end.

(** Equality as [drop_duplicates] sees it: by value, and NaN equal to NaN. *)
Definition num_eqb (x y : num) : bool :=
  match x, y with
  | NNaN, NNaN => true
  | NInf a, NInf b => Bool.eqb a b
  | NFin p, NFin q => Qeq_bool p q
  | _, _ => false
  end.

Inductive cell :=
| CNaN
| CInt (z : Z)
| CFloat (x : num)
| CStr (s : string).

(** ** CPython's [float(str)] *)

Definition is_digit (c : ascii) : bool :=
  (48 <=? nat_of_ascii c)%nat && (nat_of_ascii c <=? 57)%nat.

Definition digit_val (c : ascii) : Z := Z.of_nat (nat_of_ascii c) - 48.

(** The digit of [0 <= n < 10], as [str(n)] writes it. *)
Definition digit_char (n : Z) : ascii := ascii_of_nat (Z.to_nat n + 48).

(** [str.strip()] on the ASCII whitespace: \t \n \v \f \r, \x1c-\x1f, space *)
Definition is_space (c : ascii) : bool :=
  let n := nat_of_ascii c in
  ((9 <=? n) && (n <=? 13))%nat || ((28 <=? n) && (n <=? 32))%nat.

Definition strip (l : list ascii) : list ascii :=
  rev (drop_while is_space (rev (drop_while is_space l))).

(** digitpart ::= digit (["_"] digit)*, read into (value, digit count, rest) *)
Fixpoint digitpart_rest (acc : Z) (k : nat) (l : list ascii) : Z * nat * list ascii :=
  match l with
  | c :: l' =>
      if is_digit c then digitpart_rest (10 * acc + digit_val c) (S k) l'
      else if Ascii.eqb c "_" then
        match l' with
        | c2 :: l'' => if is_digit c2 then digitpart_rest (10 * acc + digit_val c2) (S k) l''
                       else (acc, k, l)
        | [] => (acc, k, l)
        end
      else (acc, k, l)
  | [] => (acc, k, [])
  end.

Definition digitpart (l : list ascii) : option (Z * nat * list ascii) :=
  match l with
  | c :: l' => if is_digit c then Some (digitpart_rest (digit_val c) 1 l') else None
  | [] => None
  end.

(** number ::= [digitpart] "." digitpart | digitpart ["."], read into
    (mantissa, power of ten, rest) *)
Definition parse_number (l : list ascii) : option (Z * Z * list ascii) :=
  match digitpart l with
  | Some (m, _, "."%char :: r) =>
      match digitpart r with
      | Some (f, k, r') => Some (m * 10 ^ Z.of_nat k + f, - Z.of_nat k, r')
      | None => Some (m, 0, r)
      end
  | Some (m, _, r) => Some (m, 0, r)
  | None =>
      match l with
      | "."%char :: r =>
          match digitpart r with
          | Some (f, k, r') => Some (f, - Z.of_nat k, r')
          | None => None
          end
      | _ => None
      end
  end.

Definition parse_sign (l : list ascii) : Z * list ascii :=
  match l with
  | "+"%char :: r => (1, r)
  | "-"%char :: r => (-1, r)
  | _ => (1, l)
  end.

(** exponent ::= ("e" | "E") [sign] digitpart, or nothing *)
Definition parse_exponent (l : list ascii) : option (Z * list ascii) :=
  match l with
  | c :: r =>
      if Ascii.eqb c "e" || Ascii.eqb c "E" then
        let '(s, r') := parse_sign r in
        match digitpart r' with Some (e, _, r'') => Some (s * e, r'') | None => None end
      else Some (0, l)
  | [] => Some (0, [])
  end.

Definition lower (c : ascii) : ascii :=
  let n := nat_of_ascii c in
  if ((65 <=? n) && (n <=? 90))%nat then ascii_of_nat (n + 32) else c.

(** The exact value of [m * 10^e]. *)
Definition dec_value (m e : Z) : Q :=
  if 0 <=? e then inject_Z (m * 10 ^ e) else Qmake m (Z.to_pos (10 ^ (- e))).

Definition py_float (s : string) : result num :=
  let '(sg, r) := parse_sign (strip (list_ascii_of_string s)) in
  let w := string_of_list_ascii (map lower r) in
  if String.eqb w "inf" || String.eqb w "infinity" then Ok (NInf (sg <? 0))
  else if String.eqb w "nan" then Ok NNaN
  else match parse_number r with
       | Some (m, e1, r1) =>
           match parse_exponent r1 with
           | Some (e2, []) => Ok (NFin (dec_value (sg * m) (e1 + e2)))
           | _ => raise ValueError
           end
       | None => raise ValueError
       end.

(** [value.replace(c, '')] *)
Definition remove_char (c : ascii) (s : string) : string :=
  string_of_list_ascii (filter (fun a => negb (Ascii.eqb a c)) (list_ascii_of_string s)).

(** [clean_numeric] *)
Definition clean_numeric (v : cell) : result num :=
  match v with
  | CNaN => Ok NNaN
  | CFloat x => if is_missing x then Ok NNaN else Ok x
  | CInt z => Ok (NFin (inject_Z z))
  | CStr s => py_float (remove_char " " (remove_char "," s))
  end.

Example clean_numeric_examples :
  clean_numeric (CStr "1,234.50") = Ok (NFin (Qmake 123450 100)) /\
  clean_numeric (CInt 5) = Ok (NFin 5%Q) /\
  clean_numeric (CStr " -1_0e-1 ") = Ok (NFin (Qmake (-10) 10)) /\
  clean_numeric (CStr "None") = raise ValueError /\
  clean_numeric (CStr "") = raise ValueError /\
  clean_numeric (CStr "-Infinity") = Ok (NInf true) /\
  clean_numeric (CStr "nan") = Ok NNaN /\
  clean_numeric (CStr "1__0") = raise ValueError /\
  clean_numeric (CStr ".5") = Ok (NFin (Qmake 5 10)) /\
  clean_numeric (CStr "5.") = Ok (NFin 5%Q) /\
  clean_numeric (CStr ".") = raise ValueError /\
  clean_numeric (CStr "1e") = raise ValueError.
Proof. vm_compute. repeat split. Qed.

(** ** Decimal strings *)

(** The value of a list of decimal digits. *)
Definition digits_value (ds : list ascii) : Z :=
  fold_left (fun acc c => 10 * acc + digit_val c) ds 0.

Lemma digit_char_spec n :
  0 <= n < 10 -> is_digit (digit_char n) = true /\ digit_val (digit_char n) = n.
Proof.
  intros Hn. unfold is_digit, digit_val, digit_char.
  rewrite nat_ascii_embedding by lia. split; [|lia].
  apply andb_true_intro. split; apply Nat.leb_le; lia.
Qed.

Lemma digit_val_char n : 0 <= n < 10 -> digit_val (digit_char n) = n.
Proof. intros Hn. exact (proj2 (digit_char_spec n Hn)). Qed.

Lemma digits_value_app ds fs :
  digits_value (ds ++ fs) = digits_value ds * 10 ^ Z.of_nat (length fs) + digits_value fs.
Proof.
  unfold digits_value. rewrite fold_left_app.
  assert (Hgen : forall a b, fold_left (fun acc c => 10 * acc + digit_val c) fs (a + b) =
    a * 10 ^ Z.of_nat (length fs) + fold_left (fun acc c => 10 * acc + digit_val c) fs b).
  { induction fs as [|f fs IH]; intros a b; simpl; [lia|].
    replace (10 * (a + b) + digit_val f) with (10 * a + (10 * b + digit_val f)) by lia.
    rewrite IH, Nat2Z.inj_succ, Z.pow_succ_r by lia. lia. }
  rewrite <-(Z.add_0_r (fold_left _ ds 0)) at 1. apply Hgen.
Qed.

Lemma digitpart_rest_digits acc k ds rest :
  Forall (fun c => is_digit c = true) ds ->
  match rest with c :: _ => is_digit c = false /\ Ascii.eqb c "_" = false | [] => True end ->
  digitpart_rest acc k (ds ++ rest) =
    (fold_left (fun a c => 10 * a + digit_val c) ds acc, (k + length ds)%nat, rest).
Proof.
  intros Hds Hrest. revert acc k; induction Hds as [|d ds Hd _ IH]; intros acc k;
    cbn [app fold_left length].
  - destruct rest as [|c rest]; cbn [digitpart_rest]; [by rewrite Nat.add_0_r|].
    destruct Hrest as [-> ->]. by rewrite Nat.add_0_r.
  - cbn [digitpart_rest]. rewrite Hd, IH. f_equal. f_equal. lia.
Qed.

Lemma digitpart_digits ds rest :
  ds <> [] -> Forall (fun c => is_digit c = true) ds ->
  match rest with c :: _ => is_digit c = false /\ Ascii.eqb c "_" = false | [] => True end ->
  digitpart (ds ++ rest) = Some (digits_value ds, length ds, rest).
Proof.
  intros Hne Hds Hrest. destruct ds as [|d ds]; [done|]. apply Forall_cons in Hds as [Hd Hds].
  cbn [app digitpart]. rewrite Hd, digitpart_rest_digits by done.
  unfold digits_value. cbn [fold_left length]. do 3 f_equal.
Qed.

Lemma drop_while_none {A} (p : A -> bool) l :
  Forall (fun c => p c = false) l -> drop_while p l = l.
Proof. destruct l as [|x l]; simpl; [done|]. by intros [-> _]%Forall_cons. Qed.

Lemma drop_while_all {A} (p : A -> bool) l : Forall (fun c => p c = true) l -> drop_while p l = [].
Proof. induction 1 as [|x l Hx _ IH]; simpl; [done|]. by rewrite Hx. Qed.

Lemma strip_id l : Forall (fun c => is_space c = false) l -> strip l = l.
Proof.
  intros Hl. unfold strip. rewrite (drop_while_none _ l), drop_while_none, rev_involutive;
    [done | by apply Forall_rev | done].
Qed.

Lemma strip_all_space l : Forall (fun c => is_space c = true) l -> strip l = [].
Proof. intros Hl. unfold strip. by rewrite (drop_while_all _ l Hl). Qed.

Lemma digit_not_space c : is_digit c = true -> is_space c = false.
Proof.
  unfold is_digit, is_space. intros [H1 H2]%andb_prop.
  apply Nat.leb_le in H1, H2.
  repeat match goal with |- context [(?a <=? ?b)%nat] => destruct (Nat.leb_spec a b) end;
    simpl; done || lia.
Qed.

Ltac ascii_cases c := destruct c as [[] [] [] [] [] [] [] []].

Lemma parse_sign_digit c r : is_digit c = true -> parse_sign (c :: r) = (1, c :: r).
Proof. ascii_cases c; by vm_compute. Qed.

(** A string that starts with a digit is none of the special words. *)
Lemma special_word_digit c r w :
  is_digit c = true -> w ∈ ["inf"; "infinity"; "nan"]%string ->
  String.eqb (string_of_list_ascii (map lower (c :: r))) w = false.
Proof.
  intros Hc Hw. cbn [map string_of_list_ascii].
  assert (Hne : lower c <> "i"%char /\ lower c <> "n"%char) by (ascii_cases c; by vm_compute).
  destruct w as [|a w]; [by apply list_elem_of_In in Hw; simpl in Hw; naive_solver|].
  cbn [String.eqb]. destruct (Ascii.eqb_spec (lower c) a) as [Heq|]; [|done].
  exfalso. subst a. apply list_elem_of_In in Hw. simpl in Hw. naive_solver.
Qed.

Lemma parse_number_decimal ds ofs :
  ds <> [] -> Forall (fun c => is_digit c = true) ds ->
  Forall (fun c => is_digit c = true) (default [] ofs) ->
  parse_number (ds ++ match ofs with Some fs => "."%char :: fs | None => [] end) =
    Some (digits_value (ds ++ default [] ofs), - Z.of_nat (length (default [] ofs)), []).
Proof.
  intros Hne Hds Hfs. unfold parse_number. destruct ofs as [fs|]; simpl in Hfs.
  - rewrite digitpart_digits by (done || split; by vm_compute).
    destruct fs as [|f fs]; cbn [default length]; [simpl; by rewrite app_nil_r|].
    rewrite <-(app_nil_r (f :: fs)) at 1. rewrite digitpart_digits by done.
    by rewrite digits_value_app.
  - rewrite digitpart_digits by done. simpl. by rewrite app_nil_r.
Qed.

Lemma remove_char_list c s :
  list_ascii_of_string (remove_char c s) =
    filter (fun a => negb (Ascii.eqb a c)) (list_ascii_of_string s).
Proof. apply list_ascii_of_string_of_list_ascii. Qed.

Lemma parse_exponent_nil : parse_exponent [] = Some (0, []).
Proof. done. Qed.

(** The text of a decimal number: an optional minus sign, a non-empty run
    of digits and an optional fractional part. *)
Definition decimal_text (neg : bool) (ds : list ascii) (ofs : option (list ascii)) : list ascii :=
  (if neg then ["-"%char] else []) ++ ds ++
  match ofs with Some fs => "."%char :: fs | None => [] end.

Lemma decimal_text_no_space neg ds ofs :
  Forall (fun c => is_digit c = true) ds -> Forall (fun c => is_digit c = true) (default [] ofs) ->
  Forall (fun c => is_space c = false) (decimal_text neg ds ofs).
Proof.
  intros Hds Hfs. unfold decimal_text.
  assert (Hd : forall l, Forall (fun c => is_digit c = true) l -> Forall (fun c => is_space c = false) l)
    by (intros l Hl; eapply Forall_impl; [exact Hl | apply digit_not_space]).
  repeat apply Forall_app_2; [by destruct neg; repeat constructor | by apply Hd |].
  destruct ofs as [fs|]; [|done]. constructor; [done | by apply Hd].
Qed.

(** [float()] reads a decimal text exactly. *)
Lemma py_float_decimal neg ds ofs :
  ds <> [] -> Forall (fun c => is_digit c = true) ds ->
  Forall (fun c => is_digit c = true) (default [] ofs) ->
  py_float (string_of_list_ascii (decimal_text neg ds ofs)) =
    Ok (NFin (dec_value ((if neg then -1 else 1) * digits_value (ds ++ default [] ofs))
                        (- Z.of_nat (length (default [] ofs))))).
Proof.
  intros Hne Hds Hfs. unfold py_float.
  rewrite list_ascii_of_string_of_list_ascii, strip_id by by apply decimal_text_no_space.
  destruct ds as [|d ds']; [done|]. pose proof (Forall_inv Hds) as Hd.
  unfold decimal_text. destruct neg; cbn [app]; [|rewrite parse_sign_digit by done]; cbn [parse_sign];
    rewrite !special_word_digit by (done || set_solver); cbn [orb];
    rewrite app_comm_cons, parse_number_decimal, parse_exponent_nil by done;
    by rewrite Z.add_0_r.
Qed.

(** C10: A string that, once the thousands separators (commas) and spaces are
    removed, is a non-empty run of decimal digits with an optional fractional
    part ("1,234.50", "12 000", "5.") is cleaned to the exact value of the
    decimal number it writes: [clean_numeric] accepts the price format of the
    exchange's table and reads it with the integer and fraction digits in
    place. *)
Theorem clean_numeric_decimal s ds ofs :
  ds <> [] -> Forall (fun c => is_digit c = true) ds ->
  Forall (fun c => is_digit c = true) (default [] ofs) ->
  list_ascii_of_string (remove_char " " (remove_char "," s)) =
    ds ++ match ofs with Some fs => "."%char :: fs | None => [] end ->
  clean_numeric (CStr s) =
    Ok (NFin (dec_value (digits_value (ds ++ default [] ofs)) (- Z.of_nat (length (default [] ofs))))).
Proof.
  intros Hne Hds Hfs Hs. unfold clean_numeric.
  rewrite <-(string_of_list_ascii_of_string (remove_char " " _)), Hs.
  rewrite <-(Z.mul_1_l (digits_value _)). by apply (py_float_decimal false).
Qed.

(** C32: A string made only of commas and whitespace (the empty string
    included), as a blank cell of the table reads, makes [clean_numeric]
    raise ValueError: it is not turned into NaN, so one blank cell makes the
    whole table fail to parse. *)
Theorem clean_numeric_blank s :
  Forall (fun c => c = ","%char \/ is_space c = true) (list_ascii_of_string s) ->
  clean_numeric (CStr s) = raise ValueError.
Proof.
  intros Hs. unfold clean_numeric, py_float. rewrite !remove_char_list, strip_all_space; [done|].
  apply Forall_forall. intros c.
  rewrite !list_elem_of_filter. intros [Hsp [Hcomma Hc]].
  eapply Forall_forall in Hs; [|done]. destruct Hs as [->|]; [|done].
  by vm_compute in Hcomma.
Qed.

(** Cleaning a float that is already clean returns it: NaN stays NaN. *)
Lemma clean_numeric_float x : clean_numeric (CFloat x) = Ok x.
Proof. by destruct x. Qed.
