(* ===== verification/Scraper.v ===== *)
(** The windowed fetcher: [MSEStockScraper.scrape_table] and
    [MSEStockScraper.scrape_historical_data] (src/Website/MSEStockScraper.py).

    The remote site is the class [Remote]: the response to
    [GET /en/stats/symbolhistory/{code}?FromDate=..&ToDate=..] is a failure
    (an aiohttp exception), a page without [table#resultsTable], or the
    table as [pd.read_html] reads it (header names and body rows of cells).
    [pd.to_datetime] on the date column is the class [DateCoercion].  Both
    are the environment of the code, not the code. *)

From Stdlib Require Import QArith String.
From S2P Require Import Prelude Dates Numeric.

Close Scope Q_scope.
Local Open Scope Z_scope.

(** One row of the frame [scrape_table] returns, in [columns_to_keep] order;
    a date that pandas reads as [NaT] is [None]. *)
Record price_row := PriceRow {
  pr_date : option date;
  pr_last : num;
  pr_max : num;
  pr_min : num;
  pr_volume : num;
  pr_turnover : num
}.

#[export] Instance price_row_eq_dec : EqDecision price_row.
Proof. solve_decision. Defined.

Inductive response :=
| RespFailed (e : exn)
| RespNoTable
| RespTable (header : list string) (body : list (list cell)).

Class Remote := fetch : string -> date -> date -> response.

Class DateCoercion := to_datetime : cell -> result (option date).

(** The nine columns of [self.column_names]. *)
Definition n_columns : nat := 9.

(** The width of the frame [pd.read_html] builds: the widest of the header
    and the rows; shorter rows are padded with NaN. *)
Definition frame_width (header : list string) (body : list (list cell)) : nat :=
  foldr Nat.max (length header) (map length body).

Definition pad_row (w : nat) (r : list cell) : list cell :=
  r ++ replicate (w - length r) CNaN.

(** [drop_duplicates]: rows compared by value, the first of equal rows kept. *)
Definition row_eqb (r s : price_row) : bool :=
  bool_decide (pr_date r = pr_date s) &&
  num_eqb (pr_last r) (pr_last s) && num_eqb (pr_max r) (pr_max s) &&
  num_eqb (pr_min r) (pr_min s) && num_eqb (pr_volume r) (pr_volume s) &&
  num_eqb (pr_turnover r) (pr_turnover s).

Fixpoint drop_dup_from (seen : list price_row) (l : list price_row) : list price_row :=
  match l with
  | [] => []
  | r :: l' => if existsb (row_eqb r) seen then drop_dup_from seen l'
               else r :: drop_dup_from (r :: seen) l'
  end.

Definition drop_duplicates (l : list price_row) : list price_row := drop_dup_from [] l.

(** [df.dropna(subset=['Last Trade Price', 'Max', 'Min'])] keeps a row iff *)
Definition complete (r : price_row) : bool :=
  negb (is_missing (pr_last r) || is_missing (pr_max r) || is_missing (pr_min r)).

Section ScrapeTable.
Context `{Remote} `{DateCoercion}.

(** One padded row of nine cells: keep columns 0-3, 6, 7, apply
    [clean_numeric] to the five numeric ones and [pd.to_datetime] to the
    date.  The code converts column by column; any raise aborts the whole
    table, so the order of the conversions is not observable. *)
Definition convert_row (r : list cell) : result price_row :=
  match r with
  | [d; l; mx; mn; _; _; v; t; _] =>
      l' ← clean_numeric l; mx' ← clean_numeric mx; mn' ← clean_numeric mn;
      v' ← clean_numeric v; t' ← clean_numeric t; d' ← to_datetime d;
      mret (PriceRow d' l' mx' mn' v' t')
  | _ => raise ValueError
  end.

(** The body of the [if table:] branch, up to the final [drop_duplicates]. *)
Definition parse_table (header : list string) (body : list (list cell))
    : result (list price_row) :=
  let w := frame_width header body in
  if decide (w = n_columns) then
    rows ← mapM convert_row (map (pad_row w) body);
    mret (filter complete rows)
  else raise ValueError.

(** [scrape_table(start_date, end_date)]: [None] when the request fails,
    when no table is found, or when the table does not convert. *)
Definition scrape_table (code : string) (start_date end_date : date)
    : option (list price_row) :=
  match fetch code start_date end_date with
  | RespFailed _ => None
  | RespNoTable => None
  | RespTable header body =>
      to_option (rows ← parse_table header body; mret (drop_duplicates rows))
  end.

End ScrapeTable.

Section History.
Context `{Remote} `{DateCoercion}.

(** The [while current_start < end_date] loop of [scrape_historical_data]
    (lines 164-178), with [all_data] threaded through.  [None] means the fuel
    ran out; [hist_loop_terminates] shows that [hist_fuel] is enough.  An
    [OverflowError] of [date + timedelta] ends the loop with [Err]. *)
Fixpoint hist_loop (fuel : nat) (code : string) (current_start end_date : date)
    (all_data : list (list price_row)) : option (result (list (list price_row))) :=
  match fuel with
  | O => None
  | S fuel' =>
      if current_start <? end_date then
        match date_add current_start 365 with
        | Err e => Some (Err e)
        | Ok c =>
            let current_end := Z.min c end_date in
            let all_data' :=
              match scrape_table code current_start current_end with
              | Some ((_ :: _) as data) => all_data ++ [data]
              | _ => all_data
              end in
            match date_add current_end 1 with
            | Err e => Some (Err e)
            | Ok next => hist_loop fuel' code next end_date all_data'
            end
        end
      else Some (Ok all_data)
  end.

(** Every pass moves [current_start] forward by at least one day. *)
Definition hist_fuel (start_date end_date : date) : nat :=
  S (Z.to_nat (end_date - start_date)).

(** [scrape_historical_data(start_date, end_date)]: the concatenation of the
    non-empty windows, [None] when there is none or when the loop raised. *)
Definition scrape_historical_data (code : string) (start_date end_date : date)
    : option (list price_row) :=
  match hist_loop (hist_fuel start_date end_date) code start_date end_date [] with
  | Some (Ok ((_ :: _) as all_data)) => Some (concat all_data)
  | _ => None
  end.

End History.

(** ** The windows the loop requests, as a reference sequence *)

(** The control of the loop alone, without the requests or the overflow
    checks: the windows [(current_start, current_end)] in request order. *)
Fixpoint windows_from (fuel : nat) (current_start end_date : date) : list (date * date) :=
  match fuel with
  | O => []
  | S fuel' =>
      if current_start <? end_date then
        let current_end := Z.min (current_start + 365) end_date in
        (current_start, current_end) :: windows_from fuel' (current_end + 1) end_date
      else []
  end.

Definition windows (start_date end_date : date) : list (date * date) :=
  windows_from (hist_fuel start_date end_date) start_date end_date.

(** The k-th window in closed form, and the number of windows. *)
Definition window_at (start_date end_date : date) (k : nat) : date * date :=
  (start_date + 366 * Z.of_nat k, Z.min (start_date + 366 * Z.of_nat k + 365) end_date).

Definition n_windows (start_date end_date : date) : nat :=
  if start_date <? end_date then Z.to_nat ((end_date - start_date - 1) / 366 + 1) else 0.

(** The rows one window contributes to [all_data]. *)
Definition window_part `{Remote} `{DateCoercion} (code : string) (w : date * date)
    : option (list price_row) :=
  match scrape_table code w.1 w.2 with
  | Some ((_ :: _) as data) => Some data
  | _ => None
  end.

(** ** Windows: closed form *)

Lemma n_windows_lt s e k : (k < n_windows s e)%nat <-> s + 366 * Z.of_nat k < e.
Proof.
  unfold n_windows. destruct (Z.ltb_spec s e); [|lia].
  pose proof (Z.div_mod (e - s - 1) 366) as Hd. pose proof (Z.mod_pos_bound (e - s - 1) 366).
  pose proof (Z.div_pos (e - s - 1) 366). lia.
Qed.

Lemma n_windows_step s e : s + 365 < e -> n_windows s e = S (n_windows (s + 366) e).
Proof.
  intros H. apply (inj Z.of_nat). unfold n_windows.
  destruct (Z.ltb_spec s e), (Z.ltb_spec (s + 366) e); try lia.
  - replace (e - s - 1) with ((e - (s + 366) - 1) + 1 * 366) by lia.
    rewrite Z.div_add by lia. pose proof (Z.div_pos (e - (s + 366) - 1) 366). lia.
  - replace (e - s - 1) with 365 by lia. reflexivity.
Qed.

Lemma n_windows_last s e : s < e <= s + 365 -> n_windows s e = 1%nat.
Proof.
  intros H. unfold n_windows. destruct (Z.ltb_spec s e); [|lia].
  rewrite Z.div_small by lia. reflexivity.
Qed.

Lemma n_windows_none s e : e <= s -> n_windows s e = 0%nat.
Proof. intros H. unfold n_windows. destruct (Z.ltb_spec s e); lia. Qed.

Lemma window_at_shift s e k : window_at (s + 366) e k = window_at s e (S k).
Proof. unfold window_at. rewrite Nat2Z.inj_succ. f_equal; [lia | f_equal; lia]. Qed.

Lemma windows_from_spec fuel s e :
  (Z.to_nat (e - s) < fuel)%nat ->
  windows_from fuel s e = map (window_at s e) (seq 0 (n_windows s e)).
Proof.
  revert s; induction fuel as [|fuel IH]; intros s Hf; [lia|]. simpl.
  destruct (Z.ltb_spec s e) as [Hlt|Hge]; [|by rewrite n_windows_none].
  destruct (Z.ltb_spec (s + 365) e) as [Hin|Hlast].
  - rewrite Z.min_l by lia. replace (s + 365 + 1) with (s + 366) by lia.
    rewrite IH by lia. rewrite (n_windows_step s) by lia. simpl.
    rewrite <- seq_shift, map_map. f_equal.
    + unfold window_at. simpl. f_equal; lia.
    + apply map_ext. intros k. apply window_at_shift.
  - rewrite Z.min_r by lia. rewrite n_windows_last by lia.
    destruct fuel; simpl; [|destruct (Z.ltb_spec (e + 1) e); [lia|]];
      unfold window_at; simpl; f_equal; f_equal; lia.
Qed.

Lemma windows_spec s e : windows s e = map (window_at s e) (seq 0 (n_windows s e)).
Proof. apply windows_from_spec. unfold hist_fuel. lia. Qed.

Lemma elem_of_windows s e w :
  w ∈ windows s e <-> exists k, s + 366 * Z.of_nat k < e /\ w = window_at s e k.
Proof.
  rewrite windows_spec, list_elem_of_fmap. setoid_rewrite elem_of_seq.
  setoid_rewrite n_windows_lt. naive_solver lia.
Qed.

Lemma windows_lookup s e i :
  windows s e !! i = if decide (s + 366 * Z.of_nat i < e) then Some (window_at s e i) else None.
Proof.
  rewrite windows_spec, list_lookup_fmap. case_decide as Hi.
  - rewrite lookup_seq_lt; [done|]. by apply n_windows_lt.
  - rewrite lookup_seq_ge; [done|].
    destruct (decide (i < n_windows s e)%nat) as [Hl|]; [|lia].
    apply n_windows_lt in Hl. contradiction.
Qed.

(** ** Windows: the properties the loop guarantees *)

(** C5: every day from [start_date] up to the day before [end_date] lies in
    one of the windows the loop requests: no day before the end is skipped. *)
Theorem windows_cover s e d :
  s <= d < e -> exists w, w ∈ windows s e /\ w.1 <= d <= w.2.
Proof.
  intros Hd. set (k := Z.to_nat ((d - s) / 366)).
  assert (Hk : Z.of_nat k = (d - s) / 366) by (unfold k; rewrite Z2Nat.id; zlia).
  exists (window_at s e k). rewrite elem_of_windows. split.
  - exists k. split; [zlia | done].
  - unfold window_at; simpl. zlia.
Qed.

(** C11: every requested window lies inside [start_date, end_date], starts no
    later than it ends, and spans at most 365 days ([timedelta(days=365)]). *)
Theorem windows_within s e w :
  w ∈ windows s e -> s <= w.1 <= w.2 /\ w.2 <= e /\ w.2 - w.1 <= 365.
Proof. rewrite elem_of_windows. intros (k & Hk & ->). simpl. lia. Qed.

(** the windows are requested in order, the first from [start_date],
    each next one from the day after the previous one ends: they are
    contiguous and pairwise disjoint. *)
Theorem windows_contiguous s e i w1 w2 :
  windows s e !! i = Some w1 -> windows s e !! S i = Some w2 ->
  w2.1 = w1.2 + 1 /\ (i = 0%nat -> w1.1 = s).
Proof.
  rewrite !windows_lookup. do 2 case_decide; intros; simplify_eq.
  unfold window_at; simpl. rewrite Nat2Z.inj_succ in *. split; lia.
Qed.

(** C8: [end_date] itself is requested exactly when [start_date < end_date]
    and the span is not a multiple of 366 days.  When
    [(end_date - start_date) mod 366 = 0] the last pass ends the day before
    [end_date], the next [current_start] equals [end_date], and the loop
    condition [current_start < end_date] stops before asking for it. *)
Theorem windows_end_gap s e :
  (exists w, w ∈ windows s e /\ w.2 = e) <-> s < e /\ (e - s) mod 366 <> 0.
Proof.
  setoid_rewrite elem_of_windows. split.
  - intros (w & (k & Hk & ->) & He). simpl in He. split; [lia|].
    intros Hm. assert (e - s = 366 * ((e - s) / 366)) by zlia. nia.
  - intros [Hlt Hm]. set (k := Z.to_nat ((e - s) / 366)).
    assert (Hk : Z.of_nat k = (e - s) / 366) by (unfold k; rewrite Z2Nat.id; zlia).
    exists (window_at s e k). split.
    + exists k. split; [zlia | done].
    + unfold window_at; simpl. zlia.
Qed.

(** the number of requests is [ceil((end_date - start_date) / 366)]. *)
Theorem windows_length s e :
  length (windows s e) = Z.to_nat ((e - s + 365) / 366).
Proof.
  rewrite windows_spec, length_map, length_seq. unfold n_windows.
  destruct (Z.ltb_spec s e); f_equal; zlia.
Qed.

(** ** The loop against the windows *)

Section HistoryFacts.
Context `{Remote} `{DateCoercion}.

Lemma hist_loop_windows fuel code cs e acc :
  date_min <= cs -> e + 365 <= date_max -> (Z.to_nat (e - cs) < fuel)%nat ->
  hist_loop fuel code cs e acc =
    Some (Ok (acc ++ omap (window_part code) (windows_from fuel cs e))).
Proof.
  revert cs acc; induction fuel as [|fuel IH]; intros cs acc Hmin Hmax Hf; [lia|]. simpl.
  destruct (Z.ltb_spec cs e); [|by rewrite app_nil_r].
  rewrite date_add_in_range by (unfold date_min in *; lia).
  rewrite (date_add_in_range (Z.min _ _)) by (unfold date_min in *; lia).
  rewrite IH by (unfold date_min in *; lia). unfold window_part; simpl.
  repeat case_match; simplify_eq/=; by rewrite <-?app_assoc.
Qed.

Lemma hist_loop_some fuel code cs e acc :
  (Z.to_nat (e - cs) < fuel)%nat -> is_Some (hist_loop fuel code cs e acc).
Proof.
  revert cs acc; induction fuel as [|fuel IH]; intros cs acc Hf; [lia|]. simpl.
  destruct (Z.ltb_spec cs e); [|by eexists].
  destruct (date_add cs 365) as [c|] eqn:Hc; [|by eexists].
  destruct (date_add (Z.min c e) 1) as [next|] eqn:Hn; [|by eexists].
  apply date_add_Ok in Hc as [-> _], Hn as [-> _]. apply IH. lia.
Qed.

(** C31: the window loop always ends within the fuel [hist_fuel] chosen for
    it: with that fuel it never stops for want of fuel, whatever the dates
    and the remote (an [OverflowError] ends it too). *)
Theorem hist_loop_terminates code s e :
  is_Some (hist_loop (hist_fuel s e) code s e []).
Proof. apply hist_loop_some. unfold hist_fuel. lia. Qed.

(** C4: away from [date.max], [scrape_historical_data] returns the rows of
    the windows that yielded a non-empty table, concatenated in window order
    (no de-duplication across windows), and [None] when no window did.  A
    window whose request fails or whose table is missing or malformed adds
    nothing and the later windows are still requested. *)
Theorem scrape_historical_data_windows code s e :
  date_min <= s -> e + 365 <= date_max ->
  scrape_historical_data code s e =
    match omap (window_part code) (windows s e) with
    | [] => None
    | parts => Some (concat parts)
    end.
Proof.
  intros Hs He. unfold scrape_historical_data, windows.
  rewrite hist_loop_windows by (unfold hist_fuel; lia). simpl.
  by destruct (omap _ _).
Qed.

(** C35: near [date.max] the loop raises [OverflowError] on its first
    [current_start + timedelta(days=365)], which the [except] turns into
    [None]: nothing is returned for such a span. *)
Theorem scrape_historical_data_overflow code s e :
  date_max - 365 < s < e -> scrape_historical_data code s e = None.
Proof.
  intros Hs. unfold scrape_historical_data, hist_fuel. simpl.
  destruct (Z.ltb_spec s e); [|lia].
  rewrite date_add_overflow by lia. reflexivity.
Qed.

End HistoryFacts.
