(* ===== verification/Database.v ===== *)
(** The storage component: [DatabaseManager] (src/Website/DatabaseManager.py).

    The SQLite table [stock_data] is a list of rows in insertion order.  Its
    primary key is (issuer_code, "Date"); SQLite, for a rowid table, admits
    NULL in a primary-key column and treats NULLs as distinct, so only rows
    whose key has no NULL can collide.  [save_data] is [DataFrame.to_sql]
    with [if_exists='append']: the rows are inserted in order inside one
    transaction, a collision raises [IntegrityError] and rolls every row of
    the call back.  Dates are stored as ISO text; [get_last_date] here is
    the latest stored date, which [DateText.get_last_date_sql_refines]
    proves is what [MAX(date)] on that text and [strptime] return. *)

From Stdlib Require Import QArith String.
From stdpp Require Import strings.
From S2P Require Import Prelude Dates Numeric Scraper.

Close Scope Q_scope.
Local Open Scope Z_scope.

Record stock_row := StockRow {
  sr_code : option string;
  sr_date : option date;
  sr_last : num;
  sr_max : num;
  sr_min : num;
  sr_volume : num;
  sr_turnover : num
}.

#[export] Instance stock_row_eq_dec : EqDecision stock_row.
Proof. solve_decision. Defined.

(** The key of a row, when neither of its columns is NULL. *)
Definition pk (r : stock_row) : option (string * date) :=
  match sr_code r, sr_date r with
  | Some c, Some d => Some (c, d)
  | _, _ => None
  end.

Definition collides (r s : stock_row) : bool :=
  match pk r with Some k => bool_decide (pk s = Some k) | None => false end.

(** [INSERT] of the rows one after the other; a collision with a stored row
    or with a row inserted before it in the same call raises.  The partial
    table is dropped with the [Err]: the rollback of the transaction. *)
Fixpoint insert_rows (tbl : list stock_row) (rows : list stock_row) : result (list stock_row) :=
  match rows with
  | [] => Ok tbl
  | r :: rest =>
      if existsb (collides r) tbl then raise IntegrityError
      else insert_rows (tbl ++ [r]) rest
  end.

(** [save_df.replace(['', 'None', 'NULL'], None)] on the issuer_code column:
    the other columns hold floats and dates, which no string equals. *)
Definition null_strings : list string := [""; "None"; "NULL"].

Definition stored_code (issuer_code : string) : option string :=
  if decide (issuer_code ∈ null_strings) then None else Some issuer_code.

(** One row of [save_df]: the [issuer_code] column added in front, the
    columns in [required_columns] order.  [pd.to_numeric(errors='coerce')]
    leaves floats as they are and [pd.to_datetime(...).dt.date] leaves dates
    (and NaT) as they are. *)
Definition to_stock_row (code : option string) (r : price_row) : stock_row :=
  StockRow code (pr_date r) (pr_last r) (pr_max r) (pr_min r) (pr_volume r) (pr_turnover r).

(** [save_data(df, issuer_code)] *)
Definition save_data (tbl : list stock_row) (df : list price_row) (issuer_code : string)
    : result (list stock_row) :=
  insert_rows tbl (map (to_stock_row (stored_code issuer_code)) df).

(** [SELECT MAX(date) FROM stock_data WHERE issuer_code = ?]: NULL codes
    match no code, NULL dates are ignored. *)
Definition dates_of (tbl : list stock_row) (issuer_code : string) : list date :=
  omap (fun r => if bool_decide (sr_code r = Some issuer_code) then sr_date r else None) tbl.

Definition max_date (ds : list date) : option date :=
  foldr (fun d acc => Some (match acc with Some m => Z.max d m | None => d end)) None ds.

(** [get_last_date(issuer_code)] *)
Definition get_last_date (tbl : list stock_row) (issuer_code : string) : option date :=
  max_date (dates_of tbl issuer_code).

(** The [for code in codes] loop of [check_data_currency]. *)
Fixpoint currency_loop (tbl : list stock_row) (today ten_years_ago : date)
    (codes : list string) (update_info : list (string * date))
    : result (list (string * date)) :=
  match codes with
  | [] => Ok update_info
  | code :: rest =>
      match get_last_date tbl code with
      | None => currency_loop tbl today ten_years_ago rest (dict_set code ten_years_ago update_info)
      | Some last_date =>
          if last_date <? today then
            next ← date_add last_date 1;
            currency_loop tbl today ten_years_ago rest (dict_set code next update_info)
          else currency_loop tbl today ten_years_ago rest update_info
      end
  end.

(** [check_data_currency(codes)], with [datetime.now().date()] as [today]. *)
Definition check_data_currency (tbl : list stock_row) (today : date) (codes : list string)
    : result (list (string * date)) :=
  ten_years_ago ← date_add today (- (365 * 10));
  currency_loop tbl today ten_years_ago codes [].

(** The table invariant: no two rows share a key without NULL. *)
Definition pk_unique (tbl : list stock_row) : Prop := NoDup (omap pk tbl).

#[export] Instance pk_unique_dec tbl : Decision (pk_unique tbl).
Proof. unfold pk_unique. apply _. Defined.

(** ** Inserting rows *)

Lemma existsb_collides r tbl :
  existsb (collides r) tbl = true <-> exists k, pk r = Some k /\ k ∈ omap pk tbl.
Proof.
  rewrite existsb_exists. setoid_rewrite list_elem_of_omap. unfold collides.
  destruct (pk r) as [k|]; [|naive_solver].
  setoid_rewrite bool_decide_eq_true. setoid_rewrite <-list_elem_of_In. naive_solver.
Qed.

Lemma insert_rows_spec tbl rows :
  pk_unique tbl ->
  insert_rows tbl rows =
    if decide (pk_unique (tbl ++ rows)) then Ok (tbl ++ rows) else raise IntegrityError.
Proof.
  unfold pk_unique. revert tbl; induction rows as [|r rows IH]; intros tbl Htbl; simpl.
  - rewrite app_nil_r, decide_True; done.
  - destruct (existsb (collides r) tbl) eqn:Hc.
    + apply existsb_collides in Hc as (k & Hk & Hin).
      rewrite decide_False; [done|].
      rewrite omap_app, NoDup_app. simpl. rewrite Hk. intros (_ & Hdis & _).
      apply (Hdis k Hin). set_solver.
    + assert (Hnew : NoDup (omap pk (tbl ++ [r]))).
      { rewrite omap_app, NoDup_app. simpl. split; [done|].
        destruct (pk r) as [k|] eqn:Hk; [|split; [set_solver | constructor]].
        split; [|repeat constructor; set_solver].
        intros k' Hk' ->%list_elem_of_singleton.
        assert (existsb (collides r) tbl = true) by (apply existsb_collides; eauto).
        congruence. }
      rewrite IH by done.
      by replace ((tbl ++ [r]) ++ rows) with (tbl ++ r :: rows) by (by rewrite <-app_assoc).
Qed.

(** C12: [save_data] is all-or-nothing: on a table whose keys are unique it
    appends every row of the frame, with the issuer code NULL-normalised,
    when the keys stay unique, and otherwise raises [IntegrityError] and
    leaves the table as it was. *)
Theorem save_data_spec tbl df code :
  pk_unique tbl ->
  save_data tbl df code =
    let rows := map (to_stock_row (stored_code code)) df in
    if decide (pk_unique (tbl ++ rows)) then Ok (tbl ++ rows) else raise IntegrityError.
Proof. intros H. by apply insert_rows_spec. Qed.

(** C13: every successful [save_data] keeps the primary key unique. *)
Theorem save_data_pk_unique tbl df code tbl' :
  pk_unique tbl -> save_data tbl df code = Ok tbl' -> pk_unique tbl'.
Proof.
  intros H Hs. unfold save_data in Hs. rewrite insert_rows_spec in Hs by done.
  case_decide; by simplify_eq.
Qed.

(** ** The latest stored date *)

Lemma max_date_None ds : max_date ds = None <-> ds = [].
Proof. destruct ds; simpl; split; done. Qed.

Lemma max_date_Some ds m :
  max_date ds = Some m -> m ∈ ds /\ forall d, d ∈ ds -> d <= m.
Proof.
  revert m; induction ds as [|d ds IH]; intros m; simpl; [done|].
  intros [= <-]. destruct (max_date ds) as [m'|] eqn:Hm.
  - destruct (IH m' eq_refl) as [Hin Hle]. split.
    + destruct (Z.max_spec d m') as [[_ ->]|[_ ->]]; set_solver.
    + intros d' [->|Hd']%elem_of_cons; [lia|]. specialize (Hle d' Hd'). lia.
  - apply max_date_None in Hm as ->. split; [set_solver|]. intros d' ?%list_elem_of_singleton. lia.
Qed.

#[export] Instance max_date_perm : Proper ((≡ₚ) ==> (=)) max_date.
Proof.
  intros ds1 ds2 Hp. destruct (max_date ds1) as [m1|] eqn:H1, (max_date ds2) as [m2|] eqn:H2.
  - apply max_date_Some in H1 as [Hin1 Hle1], H2 as [Hin2 Hle2].
    rewrite Hp in Hin1. setoid_rewrite Hp in Hle1. f_equal. specialize (Hle1 m2 Hin2). specialize (Hle2 m1 Hin1). lia.
  - apply max_date_Some in H1 as [Hin1 _]. apply max_date_None in H2 as ->.
    rewrite Hp in Hin1. set_solver.
  - apply max_date_Some in H2 as [Hin2 _]. apply max_date_None in H1 as ->.
    rewrite <-Hp in Hin2. set_solver.
  - done.
Qed.

#[export] Instance get_last_date_perm : Proper ((≡ₚ) ==> (=) ==> (=)) get_last_date.
Proof. intros t1 t2 Hp c ? <-. unfold get_last_date, dates_of. by rewrite Hp. Qed.

(** The dates stored are Python dates: inside [date.min .. date.max]. *)
Definition table_wf (tbl : list stock_row) : Prop :=
  forall r d, r ∈ tbl -> sr_date r = Some d -> date_min <= d <= date_max.

(** [table_wf], checked row by row. *)
Lemma table_wf_Forall tbl :
  Forall (fun r => from_option (fun d => date_min <= d <= date_max) True (sr_date r)) tbl -> table_wf tbl.
Proof.
  intros H r d Hr Hd. rewrite Forall_forall in H. specialize (H r Hr). by rewrite Hd in H.
Qed.

Lemma dates_of_wf tbl c :
  table_wf tbl -> Forall (fun d => date_min <= d <= date_max) (dates_of tbl c).
Proof.
  intros Hwf. apply Forall_forall. intros d Hin. unfold dates_of in Hin.
  apply list_elem_of_omap in Hin as (r & Hr & Hd). case_bool_decide; [|done].
  by apply (Hwf r).
Qed.

Lemma get_last_date_wf tbl c l :
  table_wf tbl -> get_last_date tbl c = Some l -> date_min <= l <= date_max.
Proof.
  intros Hwf [Hin _]%max_date_Some. exact (proj1 (Forall_forall _ _) (dates_of_wf tbl c Hwf) l Hin).
Qed.

(** ** The currency check *)

(** What [check_data_currency] promises for one code: ten years back when
    nothing is stored, the day after the latest stored date when that date
    is before [today], and no entry when the code is current. *)
Definition currency_expect (tbl : list stock_row) (today : date) (c : string) : option date :=
  match get_last_date tbl c with
  | None => Some (today - 3650)
  | Some l => if l <? today then Some (l + 1) else None
  end.

(** One pass of the loop on a well-formed table never raises: it records
    [currency_expect] for the code, when there is one. *)
Lemma currency_loop_cons tbl today code rest info0 :
  table_wf tbl -> today <= date_max ->
  currency_loop tbl today (today - 3650) (code :: rest) info0 =
  currency_loop tbl today (today - 3650) rest
    (match currency_expect tbl today code with
     | Some v => dict_set code v info0
     | None => info0
     end).
Proof.
  intros Hwf Ht. simpl. unfold currency_expect.
  destruct (get_last_date tbl code) as [l|] eqn:Hl; [|done].
  pose proof (get_last_date_wf _ _ _ Hwf Hl).
  destruct (Z.ltb_spec l today); [|done].
  by rewrite date_add_in_range by lia.
Qed.

Lemma dict_get_step (E : string -> option date) code rest info0 c :
  match (if decide (c ∈ rest) then E c else None) with
  | Some v => Some v
  | None => dict_get c (match E code with Some v => dict_set code v info0 | None => info0 end)
  end =
  match (if decide (c ∈ code :: rest) then E c else None) with
  | Some v => Some v
  | None => dict_get c info0
  end.
Proof.
  destruct (decide (c = code)) as [->|Hne].
  - rewrite (decide_True _ _ (list_elem_of_here _ _)).
    case_decide; destruct (E code) eqn:?; rewrite ?dict_get_set, ?decide_True; done.
  - assert (Hiff : c ∈ code :: rest <-> c ∈ rest) by set_solver.
    destruct (decide (c ∈ rest)), (decide (c ∈ code :: rest)); try tauto;
      destruct (E c); try done; destruct (E code); rewrite ?dict_get_set, ?decide_False; done.
Qed.

Lemma currency_loop_spec tbl today codes info0 :
  table_wf tbl -> today <= date_max -> NoDup info0.*1 ->
  exists info, currency_loop tbl today (today - 3650) codes info0 = Ok info /\
    NoDup info.*1 /\
    forall c, dict_get c info =
      match (if decide (c ∈ codes) then currency_expect tbl today c else None) with
      | Some v => Some v
      | None => dict_get c info0
      end.
Proof.
  intros Hwf Ht. revert info0; induction codes as [|code rest IH]; intros info0 Hnd.
  { by exists info0. }
  rewrite currency_loop_cons by done.
  destruct (IH (match currency_expect tbl today code with
                | Some v => dict_set code v info0 | None => info0 end))
    as (info & Hrun & Hnd' & Hget); [case_match; [by apply dict_set_keys | done]|].
  exists info. split_and!; [done..|]. intros c. by rewrite Hget, dict_get_step.
Qed.

(** With [today] ten years inside the range of dates, the ten-years-back
    date is computed without overflow. *)
Lemma check_data_currency_loop tbl today codes :
  date_min + 3650 <= today <= date_max ->
  check_data_currency tbl today codes = currency_loop tbl today (today - 3650) codes [].
Proof.
  intros Ht. unfold check_data_currency. rewrite date_add_in_range by lia. simpl.
  by replace (today + - (365 * 10)) with (today - 3650) by lia.
Qed.

(** C14: [check_data_currency] on a table of Python dates, with [today] at
    least ten years after [date.min], never raises; its dict has one entry
    per code that needs data, and none for a code that is current or not
    asked for: ten years back ([today - 3650]) when nothing is stored, the
    day after the latest stored date when that date is before [today]. *)
Theorem check_data_currency_spec tbl today codes :
  table_wf tbl -> date_min + 3650 <= today <= date_max ->
  exists info, check_data_currency tbl today codes = Ok info /\ NoDup info.*1 /\
    forall c, dict_get c info = if decide (c ∈ codes) then currency_expect tbl today c else None.
Proof.
  intros Hwf Ht. rewrite check_data_currency_loop by lia.
  destruct (currency_loop_spec tbl today codes [] Hwf) as (info & Hrun & Hnd & Hget);
    [lia | constructor |].
  exists info. split_and!; [done..|]. intros c. rewrite Hget. by repeat case_match.
Qed.

Lemma dates_of_app t1 t2 c : dates_of (t1 ++ t2) c = dates_of t1 c ++ dates_of t2 c.
Proof. apply omap_app. Qed.

Lemma dates_of_null_code df c : dates_of (map (to_stock_row None) df) c = [].
Proof. unfold dates_of. induction df; simpl; done. Qed.

(** C33: the issuer codes [""], ["None"] and ["NULL"] are stored with a NULL
    issuer_code by the [replace(['', 'None', 'NULL'], None)] of [save_data]:
    such a save never collides, and [get_last_date] still finds nothing for
    the code afterwards, so every run fetches its ten years again and
    appends them again. *)
Theorem save_data_null_code tbl df code :
  code ∈ null_strings ->
  save_data tbl df code = Ok (tbl ++ map (to_stock_row None) df) /\
  get_last_date (tbl ++ map (to_stock_row None) df) code = get_last_date tbl code.
Proof.
  intros Hc. unfold save_data, stored_code. rewrite decide_True by done. split.
  - generalize tbl; induction df as [|r df IH]; intros t; simpl; [by rewrite app_nil_r|].
    replace (existsb _ t) with false.
    + rewrite IH. by rewrite <-app_assoc.
    + symmetry. apply not_true_iff_false. rewrite existsb_collides. naive_solver.
  - unfold get_last_date. rewrite dates_of_app, dates_of_null_code, app_nil_r. done.
Qed.
