(* ===== verification/DateText.v ===== *)
(** The dates of [stock_data] as the text SQLite holds.

    [save_data] (src/Website/DatabaseManager.py, line 99) writes the
    [datetime.date] of every row through the sqlite adapter pandas
    registers, [date.isoformat()]: the text ["%04d-%02d-%02d"].  The column
    is declared [DATE], so it has NUMERIC affinity, and such a text is no
    numeric literal: it stays TEXT.  [get_last_date] (lines 35-48) reads
    [MAX(date)] back, the greatest text by [memcmp], and parses it with
    [datetime.strptime(text, "%Y-%m-%d").date()].

    This file models the three steps: [isoformat]; CPython's [_strptime]
    for the format ["%Y-%m-%d"], as the regular expression it compiles
    ([re_ymd], its alternatives in the order the engine tries them) and the
    checks that follow ([strptime_ymd]); and SQLite's [MAX] on text
    ([sql_max_text]).  [get_last_date_sql] is [get_last_date] at that level.
    The theorems: [strptime_ymd] reads [isoformat] back, the text order is
    the date order, and so [get_last_date_sql] refines the date-level
    [Database.get_last_date] the rest of the development uses.  The [\d] of
    the regex also matches non-ASCII decimal digits in Python; the texts
    read back here are ASCII, and [\d] is modelled on ASCII. *)

From Stdlib Require Import String Ascii.
From stdpp Require Import strings.
From S2P Require Import Prelude Dates Numeric Scraper Database.

Local Open Scope Z_scope.

(** ** [date.isoformat()] *)

(** The characters of ["%0<w>d" % n] for [0 <= n < 10 ^ w]. *)
Fixpoint pad_digits (w : nat) (n : Z) : list ascii :=
  match w with
  | O => []
  | S w' => pad_digits w' (n / 10) ++ [digit_char (n mod 10)]
  end.

Definition iso_chars (d : date) : list ascii :=
  let '(y, m, dd) := ord2ymd d in
  pad_digits 4 y ++ "-"%char :: pad_digits 2 m ++ "-"%char :: pad_digits 2 dd.

Definition isoformat (d : date) : string := string_of_list_ascii (iso_chars d).

(** [datetime.isoformat(" ")] of a midnight: the text pandas' sqlite
    adapter stores for a [Timestamp], as in the Date column of
    [technical_indicators]. *)
Definition isoformat_datetime (d : date) : string :=
  string_of_list_ascii (iso_chars d ++ list_ascii_of_string " 00:00:00").

(** ** [datetime.strptime(s, "%Y-%m-%d")] *)

(** A character class: the ASCII codes from [fst] to [snd]. *)
Definition cls : Type := nat * nat.

Definition in_cls (c : cls) (a : ascii) : bool :=
  (c.1 <=? nat_of_ascii a)%nat && (nat_of_ascii a <=? c.2)%nat.

Definition rng (lo hi : nat) : cls := (lo, hi).
Definition chr (n : nat) : cls := (n, n).
Definition d_cls : cls := rng 48 57.

(** One alternative of a group: a class per character. *)
Fixpoint re_seq (cs : list cls) (l : list ascii) : option (list ascii * list ascii) :=
  match cs, l with
  | [], _ => Some ([], l)
  | c :: cs', a :: l' => if in_cls c a then '(m, r) ← re_seq cs' l'; Some (a :: m, r) else None
  | _ :: _, [] => None
  end.

(** A named group [(?P<x>alt1|alt2|...)] read by [int()]: every match, in
    the order the backtracking engine tries the alternatives. *)
Definition re_group (alts : list (list cls)) (l : list ascii) : list (Z * list ascii) :=
  omap (fun cs => '(m, r) ← re_seq cs l; Some (digits_value (strip m), r)) alts.

(** The groups [_strptime]'s [TimeRE] gives the directives. *)
Definition re_Y : list (list cls) := [[d_cls; d_cls; d_cls; d_cls]].
Definition re_m : list (list cls) := [[chr 49; rng 48 50]; [chr 48; rng 49 57]; [rng 49 57]].
Definition re_d : list (list cls) :=
  [[chr 51; rng 48 49]; [rng 49 50; d_cls]; [chr 48; rng 49 57]; [rng 49 57]; [chr 32; rng 49 57]].

Definition re_lit (c : ascii) (l : list ascii) : list (list ascii) :=
  match l with a :: r => if bool_decide (a = c) then [r] else [] | [] => [] end.

(** [format_regex.match(data_string)] for
    [(?P<Y>\d\d\d\d)-(?P<m>1[0-2]|0[1-9]|[1-9])-(?P<d>3[01]|[12]\d|0[1-9]|[1-9]| [1-9])]:
    the matches in backtracking order, the first is the one [re] returns. *)
Definition re_ymd (l : list ascii) : list (Z * Z * Z * list ascii) :=
  '(y, r1) ← re_group re_Y l;
  r2 ← re_lit "-" r1;
  '(m, r3) ← re_group re_m r2;
  r4 ← re_lit "-" r3;
  '(d, r5) ← re_group re_d r4;
  [(y, m, d, r5)].

(** [_strptime]: no match raises ("does not match format"), text after the
    match raises ("unconverted data remains"), and [datetime_date(year,
    month, day)] raises on a day the month does not have. *)
Definition strptime_ymd (s : string) : result date :=
  match re_ymd (list_ascii_of_string s) with
  | [] => raise ValueError
  | (y, m, d, rest) :: _ =>
      if bool_decide (rest = []) then
        if check_date_fields y m d then Ok (ymd y m d) else raise ValueError
      else raise ValueError
  end.

(** ** [get_last_date] on the stored text *)

(** SQLite's [MAX] over the non-NULL values of a TEXT column: the greatest
    by [memcmp] (the BINARY collation), NULL when there is none. *)
Definition sql_max_text (ts : list string) : option string :=
  foldr (fun t acc => Some (match acc with
                            | Some m => if bool_decide (String.compare t m = Gt) then t else m
                            | None => t
                            end)) None ts.

(** The "Date" texts of the rows [WHERE issuer_code = ?]: NULL codes match
    nothing, NULL dates are skipped by [MAX]. *)
Definition stored_dates (tbl : list stock_row) (issuer_code : string) : list string :=
  omap (fun r => if bool_decide (sr_code r = Some issuer_code) then isoformat <$> sr_date r else None) tbl.

(** [get_last_date(issuer_code)]: [if result and result['max_date']]
    rejects NULL and the empty text. *)
Definition get_last_date_sql (tbl : list stock_row) (issuer_code : string) : result (option date) :=
  match sql_max_text (stored_dates tbl issuer_code) with
  | Some s => if bool_decide (s = ""%string) then Ok None else d ← strptime_ymd s; Ok (Some d)
  | None => Ok None
  end.

(** ** Printing: the text order is the date order *)

Lemma pad_digits_length w n : length (pad_digits w n) = w.
Proof.
  revert n; induction w as [|w IH]; intros n; cbn [pad_digits]; [done|].
  rewrite length_app, IH. cbn. lia.
Qed.

Lemma digit_char_compare a b :
  0 <= a < 10 -> 0 <= b < 10 -> Ascii.compare (digit_char a) (digit_char b) = Z.compare a b.
Proof.
  intros Ha Hb. unfold Ascii.compare, digit_char.
  assert (E : forall k, ascii_of_nat k = ascii_of_N (N.of_nat k)) by (intros []; reflexivity).
  rewrite !E, !N_ascii_embedding by lia.
  rewrite <- N2Z.inj_compare, !nat_N_Z, !Nat2Z.inj_add, !Z2Nat.id by lia.
  rewrite !(Z.add_comm _ 48). apply Z.add_compare_mono_l.
Qed.

Lemma string_compare_app l1 l2 r1 r2 :
  length l1 = length l2 ->
  String.compare (string_of_list_ascii (l1 ++ r1)) (string_of_list_ascii (l2 ++ r2)) =
  match String.compare (string_of_list_ascii l1) (string_of_list_ascii l2) with
  | Eq => String.compare (string_of_list_ascii r1) (string_of_list_ascii r2)
  | c => c
  end.
Proof.
  revert l2; induction l1 as [|a l1 IH]; intros [|b l2] Hlen; try discriminate Hlen; [done|].
  cbn [app string_of_list_ascii String.compare].
  destruct (Ascii.compare a b); [apply IH; cbn in Hlen; lia | done | done].
Qed.

Lemma string_compare_cons a r1 r2 :
  String.compare (string_of_list_ascii (a :: r1)) (string_of_list_ascii (a :: r2)) =
  String.compare (string_of_list_ascii r1) (string_of_list_ascii r2).
Proof. cbn [string_of_list_ascii String.compare]. unfold Ascii.compare. by rewrite N.compare_refl. Qed.

(** Zero-padded numbers of one width compare as text as they do as numbers. *)
Lemma pad_digits_compare w n1 n2 :
  0 <= n1 < 10 ^ Z.of_nat w -> 0 <= n2 < 10 ^ Z.of_nat w ->
  String.compare (string_of_list_ascii (pad_digits w n1)) (string_of_list_ascii (pad_digits w n2)) =
  Z.compare n1 n2.
Proof.
  revert n1 n2; induction w as [|w IH]; intros n1 n2 H1 H2; cbn [pad_digits].
  - cbn in H1, H2. by replace n1 with 0 by lia; replace n2 with 0 by lia.
  - rewrite Nat2Z.inj_succ, Z.pow_succ_r in H1, H2 by lia.
    rewrite string_compare_app by (by rewrite !pad_digits_length).
    rewrite IH by zlia. cbn [string_of_list_ascii String.compare].
    rewrite digit_char_compare by zlia.
    destruct (Z.compare_spec (n1 / 10) (n2 / 10)), (Z.compare_spec (n1 mod 10) (n2 mod 10)),
      (Z.compare_spec n1 n2); try done; exfalso; zlia.
Qed.

(** The fields of a valid date: four digits of year, two of month and day. *)
Lemma ord2ymd_fields d :
  date_min <= d <= date_max ->
  let '(y, m, dd) := ord2ymd d in
  1 <= y <= 9999 /\ 1 <= m <= 12 /\ 1 <= dd <= days_in_month y m /\ dd <= 31 /\ ymd y m dd = d.
Proof.
  intros [Hlo Hhi]. pose proof (ymd_ord2ymd d Hlo) as H. destruct (ord2ymd d) as [[y m] dd].
  destruct H as (Hy & Hm & Hd & Hymd). rewrite <- Hymd in Hhi.
  pose proof (ymd_year_bound y m dd Hy Hm Hd Hhi).
  pose proof (dim_tbl_le_31 m (is_leap y) Hm). unfold days_in_month in *. split_and!; lia.
Qed.

(** The text order of ISO dates is the date order. *)
Lemma iso_compare d1 d2 :
  date_min <= d1 <= date_max -> date_min <= d2 <= date_max ->
  String.compare (isoformat d1) (isoformat d2) = Z.compare d1 d2.
Proof.
  intros H1 H2. pose proof (ord2ymd_fields d1 H1) as F1. pose proof (ord2ymd_fields d2 H2) as F2.
  unfold isoformat, iso_chars.
  destruct (ord2ymd d1) as [[y1 m1] e1], (ord2ymd d2) as [[y2 m2] e2].
  destruct F1 as (Hy1 & Hm1 & Hd1 & He1 & <-), F2 as (Hy2 & Hm2 & Hd2 & He2 & <-).
  rewrite string_compare_app, pad_digits_compare, string_compare_cons, string_compare_app,
    pad_digits_compare, string_compare_cons, pad_digits_compare
    by (rewrite ?pad_digits_length; cbn; lia).
  rewrite ymd_compare by lia. reflexivity.
Qed.

Lemma iso_chars_length d : length (iso_chars d) = 10%nat.
Proof.
  unfold iso_chars. destruct (ord2ymd d) as [[y m] dd].
  rewrite length_app. cbn [length]. rewrite length_app, !pad_digits_length. done.
Qed.

(** The stored [Timestamp] texts sort as the dates too. *)
Lemma isoformat_datetime_compare d1 d2 :
  date_min <= d1 <= date_max -> date_min <= d2 <= date_max ->
  String.compare (isoformat_datetime d1) (isoformat_datetime d2) = Z.compare d1 d2.
Proof.
  intros H1 H2. unfold isoformat_datetime.
  rewrite string_compare_app by (by rewrite !iso_chars_length).
  change (string_of_list_ascii (iso_chars d1)) with (isoformat d1).
  change (string_of_list_ascii (iso_chars d2)) with (isoformat d2).
  rewrite iso_compare by done. destruct (Z.compare d1 d2); [|done..].
  reflexivity.
Qed.

(** ** Parsing: [strptime] reads [isoformat] back *)

Lemma in_cls_digit n : 0 <= n < 10 -> in_cls d_cls (digit_char n) = true.
Proof. intros Hn. exact (proj1 (digit_char_spec n Hn)). Qed.

Lemma re_group_Y y r : 0 <= y < 10000 -> re_group re_Y (pad_digits 4 y ++ r) = [(y, r)].
Proof.
  intros Hy. cbn [pad_digits app]. unfold re_group, re_Y. cbn [omap list_omap re_seq].
  rewrite !in_cls_digit by zlia. cbn [mbind option_bind omap list_omap].
  rewrite strip_id by (repeat constructor; apply digit_not_space, in_cls_digit; zlia).
  unfold digits_value. cbn [fold_left].
  rewrite !digit_val_char by zlia. do 2 f_equal. zlia.
Qed.

Lemma re_group_m m r : 1 <= m <= 12 -> head (re_group re_m (pad_digits 2 m ++ r)) = Some (m, r).
Proof.
  intros Hm. apply (Forall_seqZ (fun m => head (re_group re_m (pad_digits 2 m ++ r)) = Some (m, r)) 1 12);
    [|lia].
  change (seqZ 1 12) with [1; 2; 3; 4; 5; 6; 7; 8; 9; 10; 11; 12].
  repeat constructor.
Qed.

Lemma re_group_d dd r : 1 <= dd <= 31 -> head (re_group re_d (pad_digits 2 dd ++ r)) = Some (dd, r).
Proof.
  intros Hd. apply (Forall_seqZ (fun dd => head (re_group re_d (pad_digits 2 dd ++ r)) = Some (dd, r)) 1 31);
    [|lia].
  change (seqZ 1 31) with [1; 2; 3; 4; 5; 6; 7; 8; 9; 10; 11; 12; 13; 14; 15; 16; 17; 18; 19; 20;
                           21; 22; 23; 24; 25; 26; 27; 28; 29; 30; 31].
  repeat constructor.
Qed.

(** The first match of the regex on an ISO text: the three fields, nothing
    left over. *)
Lemma re_ymd_iso y m dd :
  1 <= y <= 9999 -> 1 <= m <= 12 -> 1 <= dd <= 31 ->
  head (re_ymd (pad_digits 4 y ++ "-"%char :: pad_digits 2 m ++ "-"%char :: pad_digits 2 dd)) =
    Some (y, m, dd, []).
Proof.
  intros Hy Hm Hd. unfold re_ymd. rewrite re_group_Y by lia.
  eapply head_bind; [reflexivity|]. cbn beta iota.
  eapply head_bind; [reflexivity|]. cbn beta iota.
  eapply head_bind; [exact (re_group_m m _ Hm)|]. cbn beta iota.
  eapply head_bind; [reflexivity|]. cbn beta iota.
  eapply head_bind; [rewrite <-(app_nil_r (pad_digits 2 dd)); exact (re_group_d dd [] Hd)|].
  reflexivity.
Qed.

Lemma strptime_iso d :
  date_min <= d <= date_max -> strptime_ymd (isoformat d) = Ok d.
Proof.
  intros Hd. pose proof (ord2ymd_fields d Hd) as F.
  unfold strptime_ymd, isoformat, iso_chars. rewrite list_ascii_of_string_of_list_ascii.
  destruct (ord2ymd d) as [[y m] dd]. destruct F as (Hy & Hm & Hdd & H31 & <-).
  pose proof (re_ymd_iso y m dd Hy Hm ltac:(lia)) as H.
  destruct (re_ymd _) as [|[[[y' m'] dd'] rest] tl]; simplify_eq/=.
  by rewrite (proj2 (check_date_fields_spec y m dd)) by lia.
Qed.

(** ** [get_last_date] on the text *)

Lemma stored_dates_iso tbl c : stored_dates tbl c = map isoformat (dates_of tbl c).
Proof.
  unfold stored_dates, dates_of. induction tbl as [|r tbl IH]; [done|]. csimpl.
  case_bool_decide; [|done]. destruct (sr_date r); csimpl; by rewrite IH.
Qed.

(** [MAX] on the ISO texts is the text of the latest date. *)
Lemma sql_max_text_iso ds :
  Forall (fun d => date_min <= d <= date_max) ds ->
  sql_max_text (map isoformat ds) = isoformat <$> max_date ds.
Proof.
  induction 1 as [|d ds Hd Hds IH]; [done|]. unfold sql_max_text, max_date in *.
  cbn [map foldr]. rewrite IH.
  destruct (foldr _ None ds) as [m|] eqn:Hm; [|done]. cbn [fmap option_fmap option_map].
  apply (max_date_Some ds m) in Hm as [Hin _]. rewrite Forall_forall in Hds.
  rewrite iso_compare by auto. f_equal.
  destruct (Z.compare_spec d m); cbn; [rewrite Z.max_r | rewrite Z.max_r | rewrite Z.max_l]; (done || lia).
Qed.

Lemma isoformat_nonempty d : isoformat d <> ""%string.
Proof. unfold isoformat, iso_chars. destruct (ord2ymd d) as [[y m] dd]. cbn. discriminate. Qed.

(** C15: [get_last_date] as the code runs it (SQLite's [MAX] on the stored
    ISO text, then [strptime]) never raises on a table of valid dates and
    returns the latest stored date of the code, the date-level
    [get_last_date] that [check_data_currency] is modelled with. *)
Theorem get_last_date_sql_refines tbl c :
  table_wf tbl -> get_last_date_sql tbl c = Ok (get_last_date tbl c).
Proof.
  intros Hwf. unfold get_last_date_sql.
  rewrite stored_dates_iso, sql_max_text_iso by (by apply dates_of_wf).
  destruct (get_last_date tbl c) as [m|] eqn:Hm; unfold get_last_date in Hm; rewrite Hm; [|done].
  cbn [fmap option_fmap option_map]. rewrite bool_decide_false by apply isoformat_nonempty.
  pose proof (get_last_date_wf tbl c m Hwf Hm). by rewrite strptime_iso.
Qed.

(** C26: [datetime.strptime(d.isoformat(), "%Y-%m-%d").date()] is [d] for
    every valid date: the text [save_data] stores is read back by
    [get_last_date] as the date it was. *)
Theorem strptime_isoformat d :
  date_min <= d <= date_max -> strptime_ymd (isoformat d) = Ok d.
Proof. apply strptime_iso. Qed.

(** C27: The ISO text SQLite holds for a date sorts as the date: on valid
    dates, the [memcmp] order of [date.isoformat()] is the order of the
    dates, which makes [MAX(date)] the latest date. *)
Theorem isoformat_compare d1 d2 :
  date_min <= d1 <= date_max -> date_min <= d2 <= date_max ->
  String.compare (isoformat d1) (isoformat d2) = Z.compare d1 d2.
Proof. apply iso_compare. Qed.
