(* ===== verification/Orchestrator.v ===== *)
(** The orchestrator: [DataScraper] (src/Website/DataScraper.py).

    [update_data] fills the queue with the (code, start date) items of its
    dict, starts [min(max_concurrent_tasks, len(update_info))] coroutines
    running [process_queue] and gathers them.  Each worker takes the next
    item with [get_nowait()] and runs [scrape_issuer] on it; when the queue
    is empty it stops.  Under asyncio the workers interleave only where they
    await, inside the network requests of [scrape_issuer]; what they share
    (the queue, the error list under [error_lock], the database, written
    synchronously) changes only between awaits.  So a worker's run on one
    item is modelled by two atomic steps: taking it ([step_take]) and
    finishing it, which applies the whole effect of [scrape_issuer] on the
    table and the error list ([step_finish]); any interleaving of the
    workers' steps is a run of [pool_step].  [today] is one date for the
    whole batch (the code reads the clock once per item; a batch that
    crosses midnight is not modelled).  The pool carries a log of the
    finished items: instrumentation for the statements, not state of the
    code. *)

From Stdlib Require Import QArith String Inclusion Wf_nat.
From stdpp Require Import strings relations.
From S2P Require Import Prelude Dates Numeric Scraper Database.

Close Scope Q_scope.
Local Open Scope Z_scope.

(** A queue item: the issuer code and the start date, [None] for Python's
    [None] (fetch ten years). *)
Definition item : Type := string * option date.

(** The messages appended to [self.errors], by their constructor. *)
Inductive scrape_error :=
| NoData (code : string)                  (** ["No data retrieved for {code}"] *)
| ScrapeFailed (code : string) (e : exn). (** ["Error scraping {code}: {e}"] *)

#[export] Instance scrape_error_eq_dec : EqDecision scrape_error.
Proof. solve_decision. Defined.

Section Issuer.
Context `{Remote} `{DateCoercion}.

(** The loop [for col in data.columns: if col != 'Date': data[col] =
    data[col].apply(clean_numeric)] on one row: every cell but the date
    goes through [clean_numeric] again. *)
Definition reclean_row (r : price_row) : result price_row :=
  l ← clean_numeric (CFloat (pr_last r)); mx ← clean_numeric (CFloat (pr_max r));
  mn ← clean_numeric (CFloat (pr_min r)); v ← clean_numeric (CFloat (pr_volume r));
  t ← clean_numeric (CFloat (pr_turnover r));
  mret (PriceRow (pr_date r) l mx mn v t).

(** The part of [scrape_issuer] before the database: the start date (ten
    years back for [None]), [scrape_historical_data(start_date, today)] and
    the re-cleaning; [Ok None] when no data came back. *)
Definition fetch_issuer (today : date) (it : item) : result (option (list price_row)) :=
  let '(issuer_code, start) := it in
  start_date ← match start with
               | Some d => Ok d
               | None => date_add today (- (365 * 10))
               end;
  match scrape_historical_data issuer_code start_date today with
  | Some ((_ :: _) as data) => data' ← mapM reclean_row data; mret (Some data')
  | _ => mret None
  end.

(** [scrape_issuer(issuer_code, start_date)] on the table and the error
    list: save the rows, or append the error; every exception is caught. *)
Definition scrape_issuer (today : date) (st : list stock_row * list scrape_error) (it : item)
    : list stock_row * list scrape_error :=
  let '(tbl, errors) := st in
  match r ← fetch_issuer today it;
        match r with
        | Some data => tbl' ← save_data tbl data it.1; mret (Some tbl')
        | None => mret None
        end with
  | Ok (Some tbl') => (tbl', errors)
  | Ok None => (tbl, errors ++ [NoData it.1])
  | Err e => (tbl, errors ++ [ScrapeFailed it.1 e])
  end.

End Issuer.

(** ** The worker pool *)

Inductive worker := Idle | Busy (it : item) | Finished.

#[export] Instance worker_eq_dec : EqDecision worker.
Proof. solve_decision. Defined.

Record pool := Pool {
  queue : list item;
  workers : list worker;
  table : list stock_row;
  errors : list scrape_error;
  log : list item
}.

Section Pool.
Context `{Remote} `{DateCoercion}.
Variable today : date.

(** One atomic step of one worker [i] of [process_queue]. *)
Inductive pool_step : pool -> pool -> Prop :=
| step_take i it q ws tbl errs lg :
    ws !! i = Some Idle ->
    pool_step (Pool (it :: q) ws tbl errs lg) (Pool q (<[i := Busy it]> ws) tbl errs lg)
| step_empty i ws tbl errs lg :
    ws !! i = Some Idle ->
    pool_step (Pool [] ws tbl errs lg) (Pool [] (<[i := Finished]> ws) tbl errs lg)
| step_finish i it q ws tbl errs lg tbl' errs' :
    ws !! i = Some (Busy it) ->
    scrape_issuer today (tbl, errs) it = (tbl', errs') ->
    pool_step (Pool q ws tbl errs lg) (Pool q (<[i := Idle]> ws) tbl' errs' (lg ++ [it])).

(** [asyncio.gather] returns when every worker has left its loop. *)
Definition pool_final (p : pool) : Prop := Forall (fun w => w = Finished) (workers p).

(** [range(min(max_concurrent_tasks, len(update_info)))] *)
Definition n_workers (max_concurrent_tasks : Z) (n_items : nat) : nat :=
  Z.to_nat (Z.min max_concurrent_tasks (Z.of_nat n_items)).

(** The state [update_data] starts the workers in: [self.errors = []], the
    items of the dict put after whatever the queue still held ([q0]). *)
Definition update_init (q0 : list item) (tbl : list stock_row)
    (update_info : list (string * option date)) (max_concurrent_tasks : Z) : pool :=
  Pool (q0 ++ update_info) (replicate (n_workers max_concurrent_tasks (length update_info)) Idle)
       tbl [] [].

(** A complete run of [update_data]: from the initial state to one where
    [gather] returns. *)
Definition update_data_run (q0 : list item) (tbl : list stock_row)
    (update_info : list (string * option date)) (max_concurrent_tasks : Z) (p : pool) : Prop :=
  rtc pool_step (update_init q0 tbl update_info max_concurrent_tasks) p /\ pool_final p.

(** The reference: the items processed one after the other, in queue order. *)
Definition update_seq (tbl : list stock_row) (items : list item)
    : list stock_row * list scrape_error :=
  foldl (scrape_issuer today) (tbl, []) items.

End Pool.

(** ** Bookkeeping of the pool *)

Definition worker_weight (w : worker) : nat :=
  match w with Idle => 1 | Busy _ => 2 | Finished => 0 end.

(** Decreases on every step: a queued item costs three, an idle worker one,
    a busy worker two. *)
Definition pool_measure (p : pool) : nat :=
  (3 * length (queue p) + sum_list (map worker_weight (workers p)))%nat.

Definition busy_of (w : worker) : list item :=
  match w with Busy it => [it] | _ => [] end.

Definition busy_items (ws : list worker) : list item := concat (map busy_of ws).

(** The invariant of every state an [update_data] run reaches from
    [update_init q0 tbl0 update_info _]: every item is finished, in flight
    or still queued, exactly once; a worker has left only when the queue is
    empty; the table and the errors are those of the finished items, in the
    order they finished. *)
Record pool_inv `{Remote} `{DateCoercion} (today : date) (items0 : list item)
    (tbl0 : list stock_row) (n : nat) (p : pool) : Prop := {
  inv_items : items0 ≡ₚ log p ++ busy_items (workers p) ++ queue p;
  inv_finished : Finished ∈ workers p -> queue p = [];
  inv_len : length (workers p) = n;
  inv_state : (table p, errors p) = update_seq today tbl0 (log p)
}.

Lemma insert_weight ws i w w' :
  ws !! i = Some w ->
  (sum_list (map worker_weight (<[i:=w']> ws)) + worker_weight w =
   sum_list (map worker_weight ws) + worker_weight w')%nat.
Proof.
  revert i; induction ws as [|x ws IH]; intros [|i] Hi; simplify_eq/=; [lia|].
  specialize (IH i Hi). lia.
Qed.

Lemma busy_items_insert ws i w w' :
  ws !! i = Some w ->
  busy_items (<[i:=w']> ws) ++ busy_of w ≡ₚ busy_items ws ++ busy_of w'.
Proof.
  unfold busy_items. revert i; induction ws as [|x ws IH]; intros [|i] Hi; simplify_eq/=.
  - rewrite <-!(assoc app). rewrite (comm app (busy_of w')).
    by rewrite (comm app (concat _)), <-!(assoc app).
  - rewrite <-!(assoc app). by rewrite IH.
Qed.

Lemma elem_of_insert_inv (x w' : worker) (ws : list worker) (i : nat) :
  x ∈ <[i:=w']> ws -> x = w' \/ x ∈ ws.
Proof.
  revert i; induction ws as [|y ws IH]; intros [|i]; simpl; [set_solver..| |].
  - rewrite !elem_of_cons. tauto.
  - rewrite !elem_of_cons. intros [->|Hx]; [tauto|]. destruct (IH i Hx); tauto.
Qed.

Lemma busy_items_finished ws : Forall (fun w => w = Finished) ws -> busy_items ws = [].
Proof. unfold busy_items. induction 1; simplify_eq/=; done. Qed.

Lemma length_busy_idle n : busy_items (replicate n Idle) = [].
Proof. unfold busy_items. induction n; simpl; [done|]. by rewrite IHn. Qed.

Section PoolFacts.
Context `{Remote} `{DateCoercion}.
Variable today : date.

Lemma pool_step_measure p p' : pool_step today p p' -> (pool_measure p' < pool_measure p)%nat.
Proof.
  unfold pool_measure. destruct 1 as [i it q ws ????|i ws ???|i it q ws ?????? Hi ?];
    match goal with Hi : _ !! _ = Some ?w |- context [<[_ := ?w']> _] =>
      pose proof (insert_weight _ _ w w' Hi) end; simpl in *; lia.
Qed.

(** No run of the pool is infinite. *)
Lemma pool_step_wf : well_founded (fun p' p => pool_step today p p').
Proof.
  apply (wf_incl _ _ (ltof _ pool_measure)); [|apply well_founded_ltof].
  intros p' p Hs. by apply pool_step_measure.
Qed.

(** A state where [gather] has not returned can always step. *)
Lemma pool_progress p : ~ pool_final p -> exists p', pool_step today p p'.
Proof.
  destruct p as [q ws tbl errs lg]. unfold pool_final; simpl.
  intros Hnf. apply not_Forall_Exists in Hnf; [|apply _].
  apply Exists_exists in Hnf as (w & Hw & Hne).
  apply list_elem_of_lookup in Hw as (i & Hi).
  destruct w as [|it|]; [|destruct (scrape_issuer today (tbl, errs) it) eqn:Hs|exfalso; by apply Hne].
  - destruct q as [|it q]; eexists; [by eapply step_empty | by eapply step_take].
  - eexists. by eapply step_finish.
Qed.

Lemma pool_inv_init items0 tbl0 n :
  pool_inv today items0 tbl0 n (Pool items0 (replicate n Idle) tbl0 [] []).
Proof.
  constructor; simpl.
  - by rewrite length_busy_idle.
  - intros ?%elem_of_replicate. naive_solver.
  - apply length_replicate.
  - done.
Qed.

Lemma pool_inv_step items0 tbl0 n p p' :
  pool_inv today items0 tbl0 n p -> pool_step today p p' -> pool_inv today items0 tbl0 n p'.
Proof.
  intros [Hit Hfin Hlen Hst]. destruct 1 as [i it q ws tbl errs lg Hi|i ws tbl errs lg Hi|
    i it q ws tbl errs lg tbl' errs' Hi Hs]; simpl in *; constructor; simpl;
    rewrite ?length_insert; try done.
  - rewrite Hit. pose proof (busy_items_insert ws i Idle (Busy it) Hi) as Hb. simpl in Hb.
    rewrite app_nil_r in Hb. rewrite Hb. by rewrite <-(assoc app).
  - intros [Hf|Hf]%elem_of_insert_inv; [done|]. by specialize (Hfin Hf).
  - rewrite Hit. pose proof (busy_items_insert ws i Idle Finished Hi) as Hb. simpl in Hb.
    by rewrite !app_nil_r in Hb; rewrite Hb.
  - rewrite Hit. pose proof (busy_items_insert ws i (Busy it) Idle Hi) as Hb. simpl in Hb.
    rewrite app_nil_r in Hb. rewrite <-Hb. solve_Permutation.
  - intros [Hf|Hf]%elem_of_insert_inv; [done|]. by apply Hfin.
  - unfold update_seq. rewrite foldl_app. simpl. unfold update_seq in Hst. by rewrite <-Hst.
Qed.

Lemma pool_inv_rtc items0 tbl0 n p p' :
  pool_inv today items0 tbl0 n p -> rtc (pool_step today) p p' -> pool_inv today items0 tbl0 n p'.
Proof. intros Hinv Hr. induction Hr; eauto using pool_inv_step. Qed.

Lemma update_data_inv q0 tbl info cap p :
  rtc (pool_step today) (update_init q0 tbl info cap) p ->
  pool_inv today (q0 ++ info) tbl (n_workers cap (length info)) p.
Proof. intros Hr. eapply pool_inv_rtc; [apply pool_inv_init | exact Hr]. Qed.
End PoolFacts.

(** ** What the pool guarantees *)

Section PoolTheorems.
Context `{Remote} `{DateCoercion}.
Variable today : date.

(** C30: every run of the worker pool is finite: [pool_step] is well founded
    (read backwards), whatever the schedule of the workers. *)
Theorem pool_runs_terminate : well_founded (fun p' p => pool_step today p p').
Proof. apply pool_step_wf. Qed.

Lemma pool_reaches_final p : exists p', rtc (pool_step today) p p' /\ pool_final p'.
Proof.
  induction p as [p IH] using (well_founded_ind (pool_step_wf today)).
  destruct (decide (pool_final p)) as [Hf|Hnf]; [by exists p|].
  destruct (pool_progress today p Hnf) as [p1 Hs].
  destruct (IH p1 Hs) as (p' & Hr & Hf). exists p'. split; [|done]. by eapply rtc_l.
Qed.

(** C29: [update_data] always returns: from its initial state some schedule
    of the workers reaches a state where every worker has left its loop. *)
Theorem update_data_completes q0 tbl info cap :
  exists p, update_data_run today q0 tbl info cap p.
Proof. apply pool_reaches_final. Qed.

Lemma n_workers_pos cap (info : list (string * option date)) :
  1 <= cap -> info <> [] -> (0 < n_workers cap (length info))%nat.
Proof.
  intros Hc Hi. unfold n_workers. destruct info; [done|]. simpl length. lia.
Qed.

Lemma run_final_log q0 tbl info cap p :
  update_data_run today q0 tbl info cap p -> 1 <= cap -> info <> [] ->
  queue p = [] /\ log p ≡ₚ q0 ++ info.
Proof.
  intros [Hr Hf] Hc Hi. destruct (update_data_inv today _ _ _ _ _ Hr) as [Hit Hfin Hlen _].
  pose proof (n_workers_pos cap info Hc Hi) as Hn.
  assert (Hin : Finished ∈ workers p).
  { unfold pool_final in Hf. destruct (workers p) as [|w ws]; [simpl in Hlen; lia|].
    apply Forall_cons in Hf as [-> _]. set_solver. }
  assert (Hq : queue p = []) by auto.
  split; [done|]. rewrite Hit, Hq, busy_items_finished by done. by rewrite !app_nil_r.
Qed.

(** C1: with a cap of at least one and a non-empty dict, when [gather]
    returns the queue is empty and every item, those left in the queue
    before included, has been processed exactly once: the log of finished
    items is a permutation of the queued items. *)
Theorem update_data_exactly_once q0 tbl info cap p :
  update_data_run today q0 tbl info cap p -> 1 <= cap -> info <> [] ->
  queue p = [] /\ log p ≡ₚ q0 ++ info.
Proof. apply run_final_log. Qed.

(** C34: with [max_concurrent_tasks <= 0] no worker is started: [update_data]
    returns at once, reports no error, and leaves the table unchanged and
    every item in the queue. *)
Theorem update_data_no_workers q0 tbl info cap p :
  cap <= 0 -> update_data_run today q0 tbl info cap p ->
  p = update_init q0 tbl info cap /\ queue p = q0 ++ info /\ table p = tbl /\ errors p = [].
Proof.
  intros Hc [Hr _]. assert (Hn : n_workers cap (length info) = 0%nat) by (unfold n_workers; lia).
  inversion Hr as [|x p1 ? Hs]; subst; [by unfold update_init; rewrite Hn|].
  exfalso. unfold update_init in Hs. rewrite Hn in Hs. simpl in Hs.
  inversion Hs; subst; by rewrite lookup_nil in *.
Qed.
End PoolTheorems.

(** ** Refinement of the pool by the sequential loop *)

Section Refinement.
Context `{Remote} `{DateCoercion}.
Variable today : date.

Definition item_rows (it : item) (data : list price_row) : list stock_row :=
  map (to_stock_row (stored_code it.1)) data.

(** What one item adds to the table and to the errors when it runs on
    [tbl0] plus rows of other codes: its rows when they fit [tbl0], its
    error otherwise. *)
Definition item_effect (tbl0 : list stock_row) (it : item) : list stock_row * list scrape_error :=
  match fetch_issuer today it with
  | Ok (Some data) =>
      if decide (pk_unique (tbl0 ++ item_rows it data)) then (item_rows it data, [])
      else ([], [ScrapeFailed it.1 IntegrityError])
  | Ok None => ([], [NoData it.1])
  | Err e => ([], [ScrapeFailed it.1 e])
  end.

(** No key of [X] belongs to the code [c]. *)
Definition keys_away (X : list stock_row) (c : string) : Prop :=
  forall r c' d, r ∈ X -> pk r = Some (c', d) -> c' <> c.

Lemma stored_code_Some c c' : stored_code c = Some c' -> c' = c.
Proof. unfold stored_code. case_decide; congruence. Qed.

Lemma item_rows_pk it data r c' d :
  r ∈ item_rows it data -> pk r = Some (c', d) -> c' = it.1.
Proof.
  unfold item_rows, pk. intros (p & -> & _)%list_elem_of_fmap. simpl.
  destruct (stored_code it.1) eqn:Hs; [|done]. destruct (pr_date p); [|done].
  intros [= <- _]. by apply stored_code_Some.
Qed.

Lemma pk_unique_other tbl0 X it data :
  pk_unique (tbl0 ++ X) -> keys_away X it.1 ->
  pk_unique ((tbl0 ++ X) ++ item_rows it data) <-> pk_unique (tbl0 ++ item_rows it data).
Proof.
  unfold pk_unique. intros HX Haway. rewrite !omap_app, <-(assoc app).
  rewrite omap_app in HX. rewrite NoDup_app3_disjoint; [naive_solver|].
  intros [c' d] (r & Hr & Hk)%list_elem_of_omap (r' & Hr' & Hk')%list_elem_of_omap.
  apply (Haway r c' d Hr Hk). by eapply item_rows_pk.
Qed.

Lemma effect_keys it tbl0 r c' d :
  r ∈ (item_effect tbl0 it).1 -> pk r = Some (c', d) -> c' = it.1.
Proof.
  unfold item_effect. repeat case_match; simpl; try set_solver. apply item_rows_pk.
Qed.

Lemma scrape_issuer_effect tbl0 X E it :
  pk_unique (tbl0 ++ X) -> keys_away X it.1 ->
  scrape_issuer today (tbl0 ++ X, E) it =
    (tbl0 ++ X ++ (item_effect tbl0 it).1, E ++ (item_effect tbl0 it).2) /\
  pk_unique (tbl0 ++ X ++ (item_effect tbl0 it).1).
Proof.
  intros HX Haway. unfold scrape_issuer, item_effect.
  destruct (fetch_issuer today it) as [[data|]|e]; simpl; rewrite ?app_nil_r; [|done..].
  unfold save_data. rewrite insert_rows_spec by done. simpl. fold (item_rows it data).
  pose proof (pk_unique_other tbl0 X it data HX Haway) as Hiff.
  destruct (decide (pk_unique ((tbl0 ++ X) ++ item_rows it data))) as [Hu|Hu],
    (decide (pk_unique (tbl0 ++ item_rows it data))); simpl; rewrite ?app_nil_r, ?(assoc app);
    naive_solver.
Qed.

Lemma foldl_effects tbl0 X E l :
  pk_unique (tbl0 ++ X) -> NoDup l.*1 -> (forall it, it ∈ l -> keys_away X it.1) ->
  foldl (scrape_issuer today) (tbl0 ++ X, E) l =
    (tbl0 ++ X ++ concat (map (fun it => (item_effect tbl0 it).1) l),
     E ++ concat (map (fun it => (item_effect tbl0 it).2) l)).
Proof.
  revert X E; induction l as [|it l IH]; intros X E HX Hnd Haway.
  { simpl. by rewrite !app_nil_r. }
  rewrite fmap_cons in Hnd. apply NoDup_cons in Hnd as [Hit Hnd].
  cbn [foldl]. rewrite !map_cons, !concat_cons.
  destruct (scrape_issuer_effect tbl0 X E it) as [-> HX']; [done | set_solver|].
  rewrite IH; [by rewrite <-!(assoc app) | done | done |].
  intros it' Hin r c' d [Hr|Hr]%elem_of_app Hk; [by apply (Haway it' ltac:(set_solver) r c' d)|].
  rewrite (effect_keys it tbl0 r c' d Hr Hk). intros Heq. apply Hit.
  rewrite Heq. by apply list_elem_of_fmap_2.
Qed.

(** The sequential loop, item by item: each item's rows are saved when they
    fit the initial table, each failure is recorded. *)
Lemma update_seq_effects tbl l :
  pk_unique tbl -> NoDup l.*1 ->
  update_seq today tbl l =
    (tbl ++ concat (map (fun it => (item_effect tbl it).1) l),
     concat (map (fun it => (item_effect tbl it).2) l)).
Proof.
  intros Ht Hnd. unfold update_seq. rewrite <-(app_nil_r tbl) at 1.
  rewrite foldl_effects.
  - done.
  - by rewrite app_nil_r.
  - done.
  - intros it _ r c' d Hr. set_solver.
Qed.
End Refinement.

Section RefinementTheorems.
Context `{Remote} `{DateCoercion}.
Variable today : date.

Lemma concat_map_perm {A B} (f : A -> list B) (l1 l2 : list A) :
  l1 ≡ₚ l2 -> concat (map f l1) ≡ₚ concat (map f l2).
Proof. intros Hp. induction Hp; simpl; [done | by rewrite IHHp | solve_Permutation | by etrans]. Qed.

Lemma run_effects q0 tbl info cap p :
  update_data_run today q0 tbl info cap p -> 1 <= cap -> info <> [] ->
  NoDup (q0 ++ info).*1 -> pk_unique tbl ->
  table p ≡ₚ tbl ++ concat (map (fun it => (item_effect today tbl it).1) (q0 ++ info)) /\
  errors p ≡ₚ concat (map (fun it => (item_effect today tbl it).2) (q0 ++ info)).
Proof.
  intros Hrun Hc Hi Hnd Ht.
  destruct (run_final_log today q0 tbl info cap p Hrun Hc Hi) as [_ Hlog].
  destruct (update_data_inv today _ _ _ _ _ (proj1 Hrun)) as [_ _ _ Hst].
  assert (Hnd' : NoDup (log p).*1) by (by rewrite Hlog).
  rewrite update_seq_effects in Hst by done. injection Hst as -> ->.
  split; [apply Permutation_app_head|]; by apply concat_map_perm.
Qed.

(** C3: partial-failure isolation.  After a complete run (cap at least one,
    distinct codes, a table with unique keys), the table holds exactly the
    rows of the items whose own fetch succeeded and whose own rows fit the
    initial table, and the error list holds exactly one entry for every
    other item: a failing item changes nothing for the others. *)
Theorem update_data_isolation q0 tbl info cap p :
  update_data_run today q0 tbl info cap p -> 1 <= cap -> info <> [] ->
  NoDup (q0 ++ info).*1 -> pk_unique tbl ->
  table p ≡ₚ tbl ++ concat (map (fun it => (item_effect today tbl it).1) (q0 ++ info)) /\
  errors p ≡ₚ concat (map (fun it => (item_effect today tbl it).2) (q0 ++ info)).
Proof. apply run_effects. Qed.

(** C2: refinement.  Whatever the schedule of the workers, a complete run
    of [update_data] ends with the table and the error list of the
    sequential loop over the queued items, up to the order of rows and of
    messages. *)
Theorem update_data_refines_seq q0 tbl info cap p :
  update_data_run today q0 tbl info cap p -> 1 <= cap -> info <> [] ->
  NoDup (q0 ++ info).*1 -> pk_unique tbl ->
  table p ≡ₚ (update_seq today tbl (q0 ++ info)).1 /\
  errors p ≡ₚ (update_seq today tbl (q0 ++ info)).2.
Proof.
  intros Hrun Hc Hi Hnd Ht. rewrite update_seq_effects by done. simpl.
  by apply (run_effects q0 tbl info cap).
Qed.
End RefinementTheorems.

Section IssuerFacts.
Context `{Remote} `{DateCoercion}.

Lemma reclean_row_id r : reclean_row r = Ok r.
Proof. destruct r. unfold reclean_row. by rewrite !clean_numeric_float. Qed.

(** the re-cleaning pass of [scrape_issuer] (the [clean_numeric] of
    every non-date column of the frame returned by
    [scrape_historical_data]) never raises and changes no row: applied to
    floats that are already clean it is the identity, so what is saved is
    exactly what the scraper returned. *)
Theorem reclean_rows_id rows : mapM reclean_row rows = Ok rows.
Proof. induction rows as [|r rows IH]; simpl; [done|]. by rewrite reclean_row_id, IH. Qed.

End IssuerFacts.
