(* ===== verification/Issuers.v ===== *)
(** Issuer discovery: [IssuerCodeStrategy] and its two strategies
    (src/Website/Strategies.py) and [IssuerCodeExtractor]
    (src/Website/IssuerCodeExtractor.py).

    The strategy interface is the class [IssuerCodeStrategy]: a strategy
    state yields the list of codes or raises.  The pages a strategy
    downloads are its state: for [DropdownIssuerCodeStrategy] the page as
    the [requests] call and BeautifulSoup see it (a failed request, a page
    without [select#Code], or the [value] attributes of its options); for
    [TableIssuerCodeStrategy] one such outcome per URL, with the stripped
    texts of the cells of [table#otherlisting-table].  Strings are Latin-1
    text, one character per [ascii]. *)

From Stdlib Require Import String Ascii.
From stdpp Require Import strings.
From S2P Require Import Prelude Numeric.

(** The interface of [IssuerCodeStrategy.get_issuer_codes]. *)
Class IssuerCodeStrategy (S : Type) := get_issuer_codes : S -> result (list string).

(** [str.isdigit()] on one Latin-1 character: '0'-'9' and the superscripts
    '¹', '²', '³'. *)
Definition py_isdigit (c : ascii) : bool :=
  is_digit c || (nat_of_ascii c =? 178)%nat || (nat_of_ascii c =? 179)%nat ||
  (nat_of_ascii c =? 185)%nat.

Definition has_digit (code : string) : bool := existsb py_isdigit (list_ascii_of_string code).

(** [IssuerCodeExtractor.filter_codes] *)
Definition filter_codes (codes : list string) : list string :=
  filter (fun code => negb (has_digit code)) codes.

(** [IssuerCodeExtractor.get_issuer_codes] with the strategy it holds. *)
Definition extractor_get_issuer_codes {S} `{IssuerCodeStrategy S} (strategy : S)
    : result (list string) :=
  codes ← get_issuer_codes strategy; mret (filter_codes codes).

(** ** [DropdownIssuerCodeStrategy] *)

(** The response: [Err] when [requests.get] raises, [Ok None] when
    [soup.find('select', {'id': 'Code'})] is [None], otherwise the [value]
    attribute of every option ([None] when it has none). *)
Record DropdownPage := { dropdown : result (option (list (option string))) }.

(** [option['value']] *)
Definition option_value (o : option string) : result string :=
  match o with Some v => Ok v | None => raise KeyError end.

#[export] Instance dropdown_strategy : IssuerCodeStrategy DropdownPage :=
  fun page =>
    match dropdown page with
    | Err e => Err e
    | Ok None => raise AttributeError
    | Ok (Some options) =>
        values ← mapM option_value options;
        mret (filter (fun v => bool_decide (v <> ""%string)) values)
    end.

(** ** [TableIssuerCodeStrategy] *)

(** One outcome per URL: [Err RequestException] when the request or
    [raise_for_status] fails (caught and skipped), [Ok None] when the page
    has no [table#otherlisting-table], otherwise the stripped cell texts of
    each of its rows. *)
Record TablePages := { table_pages : list (result (option (list (list string)))) }.

(** The symbols one page contributes: the first cell of every row that has
    cells, when it is not empty. *)
Definition page_symbols (page : result (option (list (list string)))) : list string :=
  match page with
  | Ok (Some rows) =>
      omap (fun cols => match cols with
                        | symbol :: _ => if bool_decide (symbol <> ""%string) then Some symbol else None
                        | [] => None
                        end) rows
  | _ => []
  end.

(** [list(dict.fromkeys(all_codes))] *)
Definition dict_fromkeys (l : list string) : list string :=
  (foldl (fun d k => dict_set k tt d) [] l).*1.

#[export] Instance table_strategy : IssuerCodeStrategy TablePages :=
  fun pages => Ok (dict_fromkeys (concat (map page_symbols (table_pages pages)))).

(** ** Lemmas *)

Lemma dict_set_fst {K V} `{EqDecision K} (k : K) (v : V) (d : list (K * V)) :
  (dict_set k v d).*1 = if decide (k ∈ d.*1) then d.*1 else d.*1 ++ [k].
Proof.
  induction d as [|[k1 v1] d IH]; [done|].
  cbn [dict_set]. destruct (decide (k = k1)) as [->|Hne]; rewrite !fmap_cons; simpl fst.
  - rewrite decide_True by set_solver. done.
  - rewrite IH. destruct (decide (k ∈ d.*1)), (decide (k ∈ k1 :: d.*1)); set_solver.
Qed.

Lemma fromkeys_acc (d : list (string * unit)) l :
  NoDup d.*1 ->
  let r := (foldl (fun d k => dict_set k tt d) d l).*1 in
  NoDup r /\ r `sublist_of` d.*1 ++ l /\ (forall x, x ∈ r <-> x ∈ d.*1 \/ x ∈ l) /\ d.*1 `prefix_of` r.
Proof.
  revert d; induction l as [|k l IH]; intros d Hnd; simpl.
  { rewrite app_nil_r. split_and!; [done|done|set_solver|done]. }
  destruct (IH (dict_set k tt d)) as (Hnd' & Hsub & Hel & Hpre); [by apply dict_set_keys|].
  rewrite dict_set_fst in Hsub, Hel, Hpre. split_and!; [done| | |].
  - etrans; [exact Hsub|]. case_decide.
    + apply sublist_app; [done|]. by apply (sublist_inserts_l [k]).
    + by rewrite <-(assoc app).
  - intros x. rewrite Hel. case_decide; set_solver.
  - etrans; [|exact Hpre]. case_decide; [done|]. by apply prefix_app_r.
Qed.

Lemma mapM_option_value_missing (options : list (option string)) :
  None ∈ options -> mapM option_value options = raise KeyError.
Proof.
  induction options as [|o os IH]; [set_solver|]. intros Hin.
  destruct o as [v|]; simpl; [|done].
  apply elem_of_cons in Hin as [?|Hin]; [done|]. by rewrite IH.
Qed.

Lemma mapM_option_value_all (options : list (option string)) :
  Forall is_Some options -> mapM option_value options = Ok (omap id options).
Proof. induction 1 as [|o os [v ->] _ IH]; simpl; [done|]. by rewrite IH. Qed.

(** ** Properties *)

(** [list(dict.fromkeys(all_codes))] removes the repeated codes and
    keeps the first occurrence of each, in order: the result has no
    duplicate, has the same codes as the input, and is a sublist of it. *)
Theorem dict_fromkeys_spec l :
  NoDup (dict_fromkeys l) /\ dict_fromkeys l `sublist_of` l /\
  (forall x, x ∈ dict_fromkeys l <-> x ∈ l).
Proof.
  destruct (fromkeys_acc [] l) as (Hnd & Hsub & Hel & _); [constructor|].
  split_and!; [done|done|]. intros x. rewrite Hel. set_solver.
Qed.

(** the contract of [IssuerCodeExtractor.get_issuer_codes], for every
    strategy behind the interface: it raises when the strategy raises, and
    otherwise returns, in order, exactly the codes of the strategy that
    contain no digit. *)
Theorem extractor_contract {S} `{IssuerCodeStrategy S} (strategy : S) codes :
  extractor_get_issuer_codes strategy = Ok codes ->
  exists raw, get_issuer_codes strategy = Ok raw /\ codes `sublist_of` raw /\
    forall c, c ∈ codes <-> c ∈ raw /\ has_digit c = false.
Proof.
  unfold extractor_get_issuer_codes. intros Hc. simpl_result.
  eexists; split; [done|]. unfold filter_codes. split.
  - apply sublist_filter.
  - intros c. rewrite list_elem_of_filter. destruct (has_digit c); naive_solver.
Qed.

(** [TableIssuerCodeStrategy.get_issuer_codes] never raises (failed
    requests are skipped) and returns the non-empty first-column symbols of
    the pages, each once, in the order of their first occurrence. *)
Theorem table_strategy_codes (pages : TablePages) :
  exists codes, get_issuer_codes pages = Ok codes /\
    let all_codes := concat (map page_symbols (table_pages pages)) in
    NoDup codes /\ codes `sublist_of` all_codes /\
    (forall c, c ∈ codes <-> c ∈ all_codes) /\ ""%string ∉ codes.
Proof.
  eexists; split; [reflexivity|]. simpl.
  destruct (fromkeys_acc [] (concat (map page_symbols (table_pages pages))))
    as (Hnd & Hsub & Hel & _); [constructor|].
  split_and!; [done | done | intros x; rewrite Hel; set_solver |].
  rewrite Hel. intros [Hc|Hc]; [set_solver|].
  apply list_elem_of_In, in_concat in Hc as (syms & Hin & Hsyms).
  apply in_map_iff in Hin as (page & <- & _). apply list_elem_of_In in Hsyms.
  unfold page_symbols in Hsyms. destruct page as [[rows|]|]; [|set_solver..].
  apply list_elem_of_omap in Hsyms as ([|s cols] & _ & Hs); [done|].
  case_bool_decide; naive_solver.
Qed.

(** [DropdownIssuerCodeStrategy.get_issuer_codes] raises [KeyError]
    when an option has no [value] attribute, [AttributeError] when the page
    has no [select#Code]; otherwise it returns the non-empty values in page
    order. *)
Theorem dropdown_strategy_codes (options : list (option string)) :
  (None ∈ options -> dropdown_strategy {| dropdown := Ok (Some options) |} = raise KeyError) /\
  dropdown_strategy {| dropdown := Ok None |} = raise AttributeError /\
  (Forall is_Some options ->
   dropdown_strategy {| dropdown := Ok (Some options) |} =
     Ok (filter (fun v => bool_decide (v <> ""%string)) (omap id options))).
Proof.
  unfold dropdown_strategy; simpl. split_and!; [|done|].
  - intros Hin. by rewrite mapM_option_value_missing.
  - intros Hall. by rewrite mapM_option_value_all.
Qed.
