(* ===== verification/Pipeline.v ===== *)
(** The pipeline: [main()] (src/Website/main.py, lines 8-35).

    [main] builds the three pipes, asks the issuer-code extractor for the
    codes ([IssuerCodeExtractor.get_issuer_codes], with the dropdown
    strategy), asks the database which of them need data
    ([check_data_currency]) and, when the resulting dict is not empty, runs
    [update_data] on it with the default cap of 200 workers.  Any exception
    of the first two steps is caught by the [except Exception] of [main] and
    printed; [update_data] itself catches everything per item.

    [main_run] is the relation of all the runs of [main] (any interleaving
    of the workers); [main_seq] is the same program with the sequential
    loop in place of the worker pool.  [main_outcome] is the table after the
    run, the error messages [update_data] prints, and the exception [main]
    prints, if any. *)

From Stdlib Require Import QArith String.
From stdpp Require Import strings relations.
From S2P Require Import Prelude Dates Numeric Scraper Database Orchestrator Issuers.

Close Scope Q_scope.
Local Open Scope Z_scope.

Record main_outcome := MainOutcome {
  out_table : list stock_row;
  out_errors : list scrape_error;
  out_exception : option exn;
}.

(** [update_info.items()]: every value is a date. *)
Definition work_items (update_info : list (string * date)) : list item :=
  map (fun '(c, d) => (c, Some d)) update_info.

(** [update_data]'s default [max_concurrent_tasks]. *)
Definition max_concurrent_tasks : Z := 200.

Section Main.
Context `{Remote} `{DateCoercion} {S : Type} `{IssuerCodeStrategy S}.
Variable strategy : S.
Variable today : date.

Inductive main_run (tbl : list stock_row) : main_outcome -> Prop :=
| main_codes_error e :
    extractor_get_issuer_codes strategy = Err e ->
    main_run tbl (MainOutcome tbl [] (Some e))
| main_currency_error issuer_codes e :
    extractor_get_issuer_codes strategy = Ok issuer_codes ->
    check_data_currency tbl today issuer_codes = Err e ->
    main_run tbl (MainOutcome tbl [] (Some e))
| main_up_to_date issuer_codes :
    extractor_get_issuer_codes strategy = Ok issuer_codes ->
    check_data_currency tbl today issuer_codes = Ok [] ->
    main_run tbl (MainOutcome tbl [] None)
| main_update issuer_codes update_info p :
    extractor_get_issuer_codes strategy = Ok issuer_codes ->
    check_data_currency tbl today issuer_codes = Ok update_info ->
    update_info <> [] ->
    update_data_run today [] tbl (work_items update_info) max_concurrent_tasks p ->
    main_run tbl (MainOutcome (table p) (errors p) None).

Definition main_seq (tbl : list stock_row) : main_outcome :=
  match extractor_get_issuer_codes strategy with
  | Err e => MainOutcome tbl [] (Some e)
  | Ok issuer_codes =>
      match check_data_currency tbl today issuer_codes with
      | Err e => MainOutcome tbl [] (Some e)
      | Ok [] => MainOutcome tbl [] None
      | Ok update_info =>
          let '(tbl', errs) := update_seq today tbl (work_items update_info) in
          MainOutcome tbl' errs None
      end
  end.

End Main.

#[export] Instance pk_unique_perm : Proper ((≡ₚ) ==> iff) pk_unique.
Proof. intros t1 t2 Hp. unfold pk_unique. by rewrite Hp. Qed.

Lemma currency_loop_keys tbl today t codes info0 info :
  currency_loop tbl today t codes info0 = Ok info -> NoDup info0.*1 -> NoDup info.*1.
Proof.
  revert info0; induction codes as [|c codes IH]; intros info0; simpl; [by intros [= ->]|].
  intros Hrun Hnd. repeat case_match; simplify_eq; eauto using dict_set_keys.
  destruct (date_add _ _); simpl in Hrun; [|done]. eauto using dict_set_keys.
Qed.

Lemma check_data_currency_keys tbl today codes info :
  check_data_currency tbl today codes = Ok info -> NoDup info.*1.
Proof.
  unfold check_data_currency. destruct (date_add _ _); simpl; [|done].
  intros Hrun. eapply currency_loop_keys; [done | constructor].
Qed.

Lemma work_items_keys info : (work_items info).*1 = info.*1.
Proof. induction info as [|[c d] info IH]; simpl; by f_equal. Qed.

Lemma scrape_issuer_pk_unique `{Remote} `{DateCoercion} today tbl errs it :
  pk_unique tbl -> pk_unique (scrape_issuer today (tbl, errs) it).1.
Proof.
  intros Ht. unfold scrape_issuer.
  destruct (fetch_issuer today it) as [[data|]|e]; simpl; [|done..].
  unfold save_data. rewrite insert_rows_spec by done.
  case_decide; simpl; done.
Qed.

Lemma update_seq_pk_unique `{Remote} `{DateCoercion} today tbl l :
  pk_unique tbl -> pk_unique (update_seq today tbl l).1.
Proof.
  unfold update_seq. generalize (@nil scrape_error). revert tbl.
  induction l as [|it l IH]; intros tbl errs Ht; cbn [foldl]; [done|].
  destruct (scrape_issuer today (tbl, errs) it) as [tbl' errs'] eqn:Hs.
  pose proof (scrape_issuer_pk_unique today tbl errs it Ht) as Hu. rewrite Hs in Hu. by apply IH.
Qed.

Section MainTheorems.
Context `{Remote} `{DateCoercion} {S : Type} `{IssuerCodeStrategy S}.
Variable strategy : S.
Variable today : date.

Lemma work_items_nonempty info : info <> [] -> work_items info <> [].
Proof. by destruct info. Qed.

(** A run with the worker pool ends like the sequential program. *)
Lemma main_run_seq tbl o :
  main_run strategy today tbl o -> pk_unique tbl ->
  out_table o ≡ₚ out_table (main_seq strategy today tbl) /\
  out_errors o ≡ₚ out_errors (main_seq strategy today tbl) /\
  out_exception o = out_exception (main_seq strategy today tbl).
Proof.
  intros Hrun Ht. unfold main_seq.
  destruct Hrun as [e He | codes e Hc He | codes Hc He | codes info p Hc He Hne Hp];
    rewrite ?Hc, ?He; try done.
  destruct (run_effects today [] tbl (work_items info) max_concurrent_tasks p Hp)
    as [Htab Herr]; [unfold max_concurrent_tasks; lia | by apply work_items_nonempty | | done |].
  { simpl. rewrite work_items_keys. by eapply check_data_currency_keys. }
  destruct info as [|x info]; [done|].
  rewrite update_seq_effects; [done | done |].
  rewrite work_items_keys. by eapply check_data_currency_keys.
Qed.

End MainTheorems.

(** ** Row order does not matter

    SQLite returns and checks rows by key, not by position: every step of
    the pipeline gives the same answer, up to the order of rows, on two
    tables that hold the same rows. *)

(** Two results that are both [Ok] with related values, or the same error. *)
Definition result_rel {A} (R : relation A) (r1 r2 : result A) : Prop :=
  match r1, r2 with
  | Ok a, Ok b => R a b
  | Err e1, Err e2 => e1 = e2
  | _, _ => False
  end.

Lemma existsb_perm {A} (f : A -> bool) l1 l2 : l1 ≡ₚ l2 -> existsb f l1 = existsb f l2.
Proof. induction 1; simpl; [done | by f_equal | by rewrite !orb_assoc, (orb_comm (f y)) | congruence]. Qed.

Lemma insert_rows_perm tbl1 tbl2 rows :
  tbl1 ≡ₚ tbl2 -> result_rel (≡ₚ) (insert_rows tbl1 rows) (insert_rows tbl2 rows).
Proof.
  revert tbl1 tbl2; induction rows as [|r rows IH]; intros tbl1 tbl2 Hp; simpl; [done|].
  rewrite (existsb_perm _ _ _ Hp). case_match; [done|]. apply IH. by rewrite Hp.
Qed.

Lemma scrape_issuer_perm `{Remote} `{DateCoercion} (today : date) (tbl1 tbl2 : list stock_row)
    (errs : list scrape_error) (it : item) :
  tbl1 ≡ₚ tbl2 ->
  (scrape_issuer today (tbl1, errs) it).1 ≡ₚ (scrape_issuer today (tbl2, errs) it).1 /\
  (scrape_issuer today (tbl1, errs) it).2 = (scrape_issuer today (tbl2, errs) it).2.
Proof.
  intros Hp. unfold scrape_issuer, save_data.
  destruct (fetch_issuer today it) as [[data|]|e]; simpl; [|done..].
  pose proof (insert_rows_perm tbl1 tbl2 (map (to_stock_row (stored_code it.1)) data) Hp) as Hi.
  by destruct (insert_rows tbl1 _), (insert_rows tbl2 _); simpl in *; subst.
Qed.

Lemma update_seq_perm `{Remote} `{DateCoercion} (today : date) (tbl1 tbl2 : list stock_row)
    (l : list item) :
  tbl1 ≡ₚ tbl2 ->
  (update_seq today tbl1 l).1 ≡ₚ (update_seq today tbl2 l).1 /\
  (update_seq today tbl1 l).2 = (update_seq today tbl2 l).2.
Proof.
  unfold update_seq. generalize (@nil scrape_error). revert tbl1 tbl2.
  induction l as [|it l IH]; intros tbl1 tbl2 errs Hp; cbn [foldl]; [done|].
  destruct (scrape_issuer_perm today tbl1 tbl2 errs it Hp) as [Ht He].
  destruct (scrape_issuer today (tbl1, errs) it), (scrape_issuer today (tbl2, errs) it).
  simpl in *. subst. by apply IH.
Qed.

Lemma currency_loop_perm tbl1 tbl2 today t codes info0 :
  tbl1 ≡ₚ tbl2 -> currency_loop tbl1 today t codes info0 = currency_loop tbl2 today t codes info0.
Proof.
  intros Hp. revert info0; induction codes as [|c codes IH]; intros info0; simpl; [done|].
  rewrite (get_last_date_perm tbl1 tbl2 Hp c c eq_refl).
  repeat case_match; try done. destruct (date_add _ _); simpl; [apply IH | done].
Qed.

Lemma check_data_currency_perm tbl1 tbl2 today codes :
  tbl1 ≡ₚ tbl2 -> check_data_currency tbl1 today codes = check_data_currency tbl2 today codes.
Proof.
  intros Hp. unfold check_data_currency. destruct (date_add _ _); simpl; [|done].
  by apply currency_loop_perm.
Qed.

Lemma main_seq_perm `{Remote} `{DateCoercion} {S} `{IssuerCodeStrategy S} (strategy : S)
    today tbl1 tbl2 :
  tbl1 ≡ₚ tbl2 ->
  out_table (main_seq strategy today tbl1) ≡ₚ out_table (main_seq strategy today tbl2) /\
  out_errors (main_seq strategy today tbl1) = out_errors (main_seq strategy today tbl2) /\
  out_exception (main_seq strategy today tbl1) = out_exception (main_seq strategy today tbl2).
Proof.
  intros Hp. unfold main_seq. destruct (extractor_get_issuer_codes strategy); [|done].
  rewrite (check_data_currency_perm tbl1 tbl2) by done.
  destruct (check_data_currency tbl2 today _) as [[|x info]|]; [done| |done].
  destruct (update_seq_perm today tbl1 tbl2 (work_items (x :: info)) Hp) as [Ht He].
  destruct (update_seq today tbl1 _), (update_seq today tbl2 _). by simpl in *; subst.
Qed.

#[export] Instance NoData_inj : Inj (=) (=) NoData.
Proof. by intros ?? [=]. Qed.

Section DailyRun.
Context `{Remote} `{DateCoercion}.
Variable today : date.

(** An item that starts today requests no window: [scrape_issuer] reports
    that no data came back. *)
Lemma item_effect_today tbl c : item_effect today tbl (c, Some today) = ([], [NoData c]).
Proof.
  unfold item_effect, fetch_issuer, scrape_historical_data. cbn -[hist_loop hist_fuel].
  destruct (hist_fuel today today) eqn:Hf; [by unfold hist_fuel in Hf|].
  cbn [hist_loop]. by rewrite Z.ltb_irrefl.
Qed.

Lemma effects_today tbl info :
  Forall (fun p => p.2 = today) info ->
  concat (map (fun it => (item_effect today tbl it).1) (work_items info)) = [] /\
  concat (map (fun it => (item_effect today tbl it).2) (work_items info)) = NoData <$> info.*1.
Proof.
  induction 1 as [|[c d] info Hd _ [IH1 IH2]]; [done|]. simpl in Hd |- *. subst d.
  rewrite item_effect_today. simpl. by rewrite IH1, IH2.
Qed.

(** When every code was last stored yesterday, [check_data_currency] asks
    for every code from today. *)
Lemma currency_daily tbl codes :
  table_wf tbl -> date_min + 3650 <= today <= date_max ->
  (forall c, c ∈ codes -> get_last_date tbl c = Some (today - 1)) ->
  exists info, check_data_currency tbl today codes = Ok info /\ NoDup info.*1 /\
    Forall (fun p => p.2 = today) info /\ forall c, c ∈ info.*1 <-> c ∈ codes.
Proof.
  intros Hwf Ht Hy. rewrite check_data_currency_loop by lia.
  destruct (currency_loop_spec tbl today codes [] Hwf) as (info & Hrun & Hnd & Hget);
    [lia | constructor |].
  assert (Hget' : forall c, dict_get c info = if decide (c ∈ codes) then Some today else None).
  { intros c. rewrite Hget. case_decide; [|done]. unfold currency_expect.
    rewrite Hy by done. rewrite (proj2 (Z.ltb_lt _ _)) by lia. f_equal. lia. }
  exists info. split_and!; [done | done | |].
  - apply Forall_forall. intros [c d] Hin. simpl.
    specialize (Hget' c). rewrite (dict_get_elem c d) in Hget' by done.
    case_decide; congruence.
  - intros c. rewrite list_elem_of_fmap. split.
    + intros ([c' d] & -> & Hin). specialize (Hget' c').
      rewrite (dict_get_elem c' d) in Hget' by done. simpl. case_decide; congruence.
    + intros Hc. exists (c, today). split; [done|]. apply dict_get_Some.
      rewrite Hget'. by case_decide.
Qed.

End DailyRun.

Section PipelineTheorems.
Context `{Remote} `{DateCoercion} {S : Type} `{IssuerCodeStrategy S}.
Variable strategy : S.
Variable today : date.

(** C6: refinement of the whole pipeline.  Whatever the interleaving of the
    200 workers, a run of [main] from a table with unique keys ends with the
    table, the printed error list and the printed exception of the
    sequential program [main_seq], up to the order of rows and messages. *)
Theorem main_refines_seq tbl o :
  main_run strategy today tbl o -> pk_unique tbl ->
  out_table o ≡ₚ out_table (main_seq strategy today tbl) /\
  out_errors o ≡ₚ out_errors (main_seq strategy today tbl) /\
  out_exception o = out_exception (main_seq strategy today tbl).
Proof. apply main_run_seq. Qed.

(** C7: the primary key [(issuer_code, date)] stays unique across a whole
    run of [main], whatever the interleaving of the workers and whatever
    the remote returns. *)
Theorem main_pk_unique tbl o :
  main_run strategy today tbl o -> pk_unique tbl -> pk_unique (out_table o).
Proof.
  intros Hrun Ht. destruct (main_run_seq strategy today tbl o Hrun Ht) as [-> _].
  unfold main_seq. destruct (extractor_get_issuer_codes strategy); [|done].
  destruct (check_data_currency tbl today _) as [[|x info]|]; [done| |done].
  pose proof (update_seq_pk_unique today tbl (work_items (x :: info)) Ht) as Hu.
  by destruct (update_seq _ _ _).
Qed.

(** C16: when every issuer code has a stored date that is today or later,
    [main] prints "All data is up to date": no worker is started, the table
    is unchanged and there is no error. *)
Theorem main_up_to_date_noop tbl codes o :
  extractor_get_issuer_codes strategy = Ok codes -> table_wf tbl ->
  date_min + 3650 <= today <= date_max ->
  (forall c, c ∈ codes -> exists l, get_last_date tbl c = Some l /\ today <= l) ->
  main_run strategy today tbl o -> o = MainOutcome tbl [] None.
Proof.
  intros Hc Hwf Ht Hcur Hrun.
  assert (Hinfo : check_data_currency tbl today codes = Ok []).
  { rewrite check_data_currency_loop by lia.
    destruct (currency_loop_spec tbl today codes [] Hwf) as (info & Hrun' & _ & Hget);
      [lia | constructor |].
    rewrite Hrun'. f_equal. apply dict_get_nil. intros c. rewrite Hget.
    case_decide as Hin; [|done]. destruct (Hcur c Hin) as (l & Hl & Hle).
    unfold currency_expect. rewrite Hl. by destruct (Z.ltb_spec l today); [lia|]. }
  destruct Hrun; simplify_eq; congruence.
Qed.

(** C9: a daily run does not fetch the current day.  When every code was
    last stored yesterday, [check_data_currency] asks for every code from
    today, [scrape_historical_data(today, today)] requests no window (its
    loop needs [current_start < end_date]), and every run of [main] leaves
    the table as it was and reports "No data retrieved" exactly once for
    each code: today's prices are not stored until the next day's run. *)
Theorem main_daily_no_data tbl codes o :
  extractor_get_issuer_codes strategy = Ok codes -> codes <> [] ->
  table_wf tbl -> pk_unique tbl -> date_min + 3650 <= today <= date_max ->
  (forall c, c ∈ codes -> get_last_date tbl c = Some (today - 1)) ->
  main_run strategy today tbl o ->
  out_table o ≡ₚ tbl /\ NoDup (out_errors o) /\
  forall e, e ∈ out_errors o <-> exists c, c ∈ codes /\ e = NoData c.
Proof.
  intros Hc Hne Hwf Hu Ht Hy Hrun.
  destruct (currency_daily today tbl codes Hwf Ht Hy) as (info & Hinfo & Hnd & Hall & Hkeys).
  destruct (effects_today today tbl info Hall) as [Hrows Hmsgs].
  assert (Hseq : main_seq strategy today tbl = MainOutcome tbl (NoData <$> info.*1) None).
  { unfold main_seq. rewrite Hc, Hinfo.
    destruct info as [|x info]; [destruct codes as [|c0 codes]; [done|]; set_solver|].
    rewrite update_seq_effects by (done || by rewrite work_items_keys).
    by rewrite Hrows, Hmsgs, app_nil_r. }
  destruct (main_run_seq strategy today tbl o Hrun Hu) as (Htab & Herr & _).
  rewrite Hseq in Htab, Herr. cbn [out_table out_errors] in Htab, Herr. split_and!; [done | rewrite Herr; exact (NoDup_fmap_2 NoData _ Hnd) |].
  intros e. rewrite Herr, list_elem_of_fmap. setoid_rewrite <-Hkeys. naive_solver.
Qed.

End PipelineTheorems.
