(* ===== verification/SampleData.v ===== *)
(** [DatabaseManager.fetch_sample_data] (src/Website/DatabaseManager.py,
    lines 105-136) and the number format it prints.

    [fetch_sample_data(issuer_code, limit)] selects the rows of one issuer,
    or, with no code (a falsy one: [None] or [""]), the rows with a
    positive volume; keeps [limit] of them ([LIMIT ?]: SQLite reads a
    negative limit as no limit; without [ORDER BY] the order is SQLite's
    choice, so [sample_result] is a relation over the selections it may
    make); and writes every non-null value of the five numeric columns as
    the text [f"{x:,.2f}"]: rounded to cents, half to even, on the exact
    value, with a comma between groups of three integer digits.  The Date
    column comes back as the text [to_sql] stored, [isoformat] of the
    date ([DateText]). *)

From Stdlib Require Import QArith Qabs String Ascii Wf_nat.
From stdpp Require Import strings.
From S2P Require Import Prelude Dates Numeric Database DateText.

Close Scope Q_scope.
Local Open Scope Z_scope.

(** ** [format(x, ',.2f')] *)

(** [a / b] rounded half to even, for [b > 0]. *)
Definition round_div (a b : Z) : Z :=
  let f := a / b in
  match Z.compare (2 * (a mod b)) b with
  | Lt => f
  | Gt => f + 1
  | Eq => if Z.even f then f else f + 1
  end.

(** The value of [q] in cents, rounded half to even. *)
Definition cents (q : Q) : Z := round_div (100 * Qnum q) (Zpos (Qden q)).

(** The decimal digits of [n >= 0], most significant first. *)
Fixpoint digits_loop (fuel : nat) (n : Z) (acc : list ascii) : list ascii :=
  match fuel with
  | O => acc
  | S fuel' =>
      if n <? 10 then digit_char n :: acc
      else digits_loop fuel' (n / 10) (digit_char (n mod 10) :: acc)
  end.

Definition z_digits (n : Z) : list ascii := digits_loop (S (Z.to_nat (Z.log2 n))) n [].

(** The [,] option: a comma between groups of three digits, from the right. *)
Fixpoint group3_rev (l : list ascii) : list ascii :=
  match l with
  | a :: b :: c :: ((_ :: _) as rest) => a :: b :: c :: ","%char :: group3_rev rest
  | _ => l
  end.

Definition group_thousands (ds : list ascii) : list ascii := reverse (group3_rev (reverse ds)).

(** The two digits after the point. *)
Definition cent_digits (a : Z) : list ascii := [digit_char (a mod 100 / 10); digit_char (a mod 10)].

Definition format_2f (x : num) : string :=
  match x with
  | NNaN => "nan"
  | NInf neg => if neg then "-inf" else "inf"
  | NFin q =>
      let a := Z.abs (cents q) in
      string_of_list_ascii
        (decimal_text (Qnum q <? 0) (group_thousands (z_digits (a / 100))) (Some (cent_digits a)))
  end.

(** The value the printed text stands for. *)
Definition round2 (x : num) : num :=
  match x with
  | NFin q => NFin (Qmake (cents q) 100)
  | _ => x
  end.

(** ** The query and the frame *)

(** A row of the frame [fetch_sample_data] returns: the numeric columns
    hold the printed text, or NaN where the value is null. *)
Record sample_row := SampleRow {
  sample_code : option string;
  sample_date : option string;
  sample_last : cell;
  sample_max : cell;
  sample_min : cell;
  sample_volume : cell;
  sample_turnover : cell
}.

(** [lambda x: f"{x:,.2f}" if pd.notnull(x) else x] *)
Definition format_value (x : num) : cell :=
  if is_missing x then CNaN else CStr (format_2f x).

(** The [for col in columns_to_format] loop on one row. *)
Definition format_row (r : stock_row) : sample_row :=
  SampleRow (sr_code r) (isoformat <$> sr_date r) (format_value (sr_last r)) (format_value (sr_max r))
    (format_value (sr_min r)) (format_value (sr_volume r)) (format_value (sr_turnover r)).

(** SQL [Volume > 0]: a NULL volume (pandas writes NaN as NULL) is not
    greater than 0. *)
Definition positive_volume (r : stock_row) : bool :=
  match sr_volume r with
  | NFin q => negb (Qle_bool q 0)
  | NInf neg => negb neg
  | NNaN => false
  end.

(** The [WHERE] clause: [issuer_code = ?] for a truthy code, [Volume > 0]
    for [None] and [""].  A NULL [issuer_code] equals no code. *)
Definition sample_where (issuer_code : option string) (r : stock_row) : bool :=
  match issuer_code with
  | Some c => if String.eqb c "" then positive_volume r else bool_decide (sr_code r = Some c)
  | None => positive_volume r
  end.

(** The number of rows [LIMIT limit] keeps out of [n]: all of them for a
    negative limit. *)
Definition limit_count (limit : Z) (n : nat) : nat :=
  if limit <? 0 then n else Nat.min (Z.to_nat limit) n.

(** The frames [fetch_sample_data(issuer_code, limit)] may return: a
    selection of [limit_count] matching rows, in an order of SQLite's
    choosing, with their numeric columns printed. *)
Definition sample_result (tbl : list stock_row) (issuer_code : option string) (limit : Z)
    (out : list sample_row) : Prop :=
  exists sel, sel ⊆+ filter (sample_where issuer_code) tbl /\
    length sel = limit_count limit (length (filter (sample_where issuer_code) tbl)) /\
    out = map format_row sel.

(** The selection a scan of the table in insertion order makes. *)
Definition fetch_sample_data (tbl : list stock_row) (issuer_code : option string) (limit : Z)
    : list sample_row :=
  let rows := filter (sample_where issuer_code) tbl in
  map format_row (if limit <? 0 then rows else take (Z.to_nat limit) rows).

(** ** Printing lemmas *)

Lemma digits_loop_spec fuel n acc :
  (1 <= fuel)%nat -> 0 <= n < 2 ^ Z.of_nat fuel ->
  exists ds, digits_loop fuel n acc = ds ++ acc /\ ds <> [] /\
    Forall (fun c => is_digit c = true) ds /\ digits_value ds = n.
Proof.
  revert n acc; induction fuel as [|fuel IH]; intros n acc Hf Hn; [lia|]. cbn [digits_loop].
  destruct (Z.ltb_spec n 10) as [Hlt|Hge].
  - destruct (digit_char_spec n) as [Hd Hv]; [lia|].
    exists [digit_char n]. split_and!; [done | done | by constructor |].
    unfold digits_value. simpl. lia.
  - destruct (digit_char_spec (n mod 10)) as [Hd Hv]; [zlia|].
    rewrite Nat2Z.inj_succ, Z.pow_succ_r in Hn by lia.
    assert (Hpos : (1 <= fuel)%nat).
    { destruct fuel; [simpl in Hn; lia | lia]. }
    destruct (IH (n / 10) (digit_char (n mod 10) :: acc)) as (ds & -> & Hne & Hds & Hv');
      [done | zlia |].
    exists (ds ++ [digit_char (n mod 10)]). rewrite <-(assoc app). split_and!; [done | by destruct ds | |].
    + apply Forall_app. split; [done | by constructor].
    + rewrite digits_value_app, Hv'.
      change (digits_value [digit_char (n mod 10)]) with (10 * 0 + digit_val (digit_char (n mod 10))).
      rewrite Hv. simpl. zlia.
Qed.

Lemma z_digits_spec n :
  0 <= n -> z_digits n <> [] /\ Forall (fun c => is_digit c = true) (z_digits n) /\
  digits_value (z_digits n) = n.
Proof.
  intros Hn. unfold z_digits.
  destruct (digits_loop_spec (S (Z.to_nat (Z.log2 n))) n []) as (ds & -> & Hds); [lia | |].
  - split; [done|]. rewrite Nat2Z.inj_succ, Z2Nat.id by apply Z.log2_nonneg.
    destruct (Z.eq_dec n 0) as [->|]; [done|]. apply Z.log2_spec. lia.
  - by rewrite app_nil_r.
Qed.

(** Removing every [c] from a text without [c] leaves it unchanged. *)
Lemma filter_absent (c : ascii) (l : list ascii) :
  Forall (fun a => a <> c) l -> filter (fun a => negb (Ascii.eqb a c)) l = l.
Proof.
  induction 1 as [|a l Ha _ IH]; [done|]. rewrite filter_cons, IH.
  rewrite decide_True; [done|]. destruct (Ascii.eqb_spec a c); done.
Qed.

Lemma filter_group3_rev (l : list ascii) :
  filter (fun a => negb (Ascii.eqb a ",")) (group3_rev l) = filter (fun a => negb (Ascii.eqb a ",")) l.
Proof.
  induction l as [l IH] using (well_founded_induction (well_founded_ltof _ (@length _))).
  destruct l as [|a [|b [|c [|d rest]]]]; try done.
  change (group3_rev (a :: b :: c :: d :: rest))
    with ([a; b; c] ++ ","%char :: group3_rev (d :: rest)).
  change (a :: b :: c :: d :: rest) with ([a; b; c] ++ d :: rest).
  rewrite !filter_app, (filter_cons _ ","%char), decide_False by (vm_compute; tauto).
  rewrite IH; [done | unfold ltof; simpl; lia].
Qed.

Lemma group_thousands_digits ds :
  Forall (fun c => is_digit c = true) ds ->
  filter (fun a => negb (Ascii.eqb a ",")) (group_thousands ds) = ds.
Proof.
  intros Hds. unfold group_thousands.
  rewrite filter_reverse, filter_group3_rev, <-filter_reverse, reverse_involutive.
  apply filter_absent. eapply Forall_impl; [exact Hds|].
  intros c Hc ->. by vm_compute in Hc.
Qed.

Lemma cent_digits_spec a :
  0 <= a -> Forall (fun c => is_digit c = true) (cent_digits a) /\
  digits_value (cent_digits a) = a mod 100.
Proof.
  intros Ha. unfold cent_digits.
  destruct (digit_char_spec (a mod 100 / 10)) as [Hd1 Hv1]; [zlia|].
  destruct (digit_char_spec (a mod 10)) as [Hd2 Hv2]; [zlia|].
  split; [by repeat constructor|]. unfold digits_value. simpl. rewrite Hv1, Hv2. zlia.
Qed.

(** [value.replace(',', '').replace(' ', '')] on a printed number gives
    back its digits without the group separators. *)
Lemma remove_separators neg ds fs :
  Forall (fun c => is_digit c = true) ds -> Forall (fun c => is_digit c = true) fs ->
  list_ascii_of_string
    (remove_char " " (remove_char "," (string_of_list_ascii
       (decimal_text neg (group_thousands ds) (Some fs))))) = decimal_text neg ds (Some fs).
Proof.
  intros Hds Hfs. rewrite !remove_char_list, list_ascii_of_string_of_list_ascii.
  assert (Hnot : forall c l, Forall (fun a => is_digit a = true) l -> c = ","%char \/ c = " "%char ->
                   Forall (fun a => a <> c) l).
  { intros c l Hl Hc. eapply Forall_impl; [exact Hl|]. intros a Ha ->. by destruct Hc as [-> | ->]. }
  assert (Hcomma : filter (fun a => negb (Ascii.eqb a ",")) (decimal_text neg (group_thousands ds) (Some fs))
                   = decimal_text neg ds (Some fs)).
  { unfold decimal_text. rewrite !filter_app, group_thousands_digits by done.
    rewrite (filter_absent "," (_ :: fs)), (filter_absent "," (if neg then _ else _)); [done | |].
    - by destruct neg; repeat constructor.
    - constructor; [done | apply Hnot; auto]. }
  rewrite Hcomma. apply filter_absent. unfold decimal_text.
  repeat apply Forall_app_2; [by destruct neg; repeat constructor | apply Hnot; auto |].
  constructor; [done | apply Hnot; auto].
Qed.

(** ** Rounding *)

Lemma round_div_sign a b :
  0 < b -> (a < 0 -> round_div a b <= 0) /\ (0 <= a -> 0 <= round_div a b).
Proof.
  intros Hb. unfold round_div. split; intros Ha.
  - assert (a / b < 0) by (apply Z.div_lt_upper_bound; lia).
    destruct (Z.compare _ _); [destruct (Z.even _)|..]; lia.
  - assert (0 <= a / b) by (apply Z.div_pos; lia).
    destruct (Z.compare _ _); [destruct (Z.even _)|..]; lia.
Qed.

Lemma round_div_bound a b : 0 < b -> 2 * Z.abs (b * round_div a b - a) <= b.
Proof.
  intros Hb. unfold round_div.
  pose proof (Z.div_mod a b ltac:(lia)) as Ha. pose proof (Z.mod_pos_bound a b Hb) as Hm.
  generalize dependent (a / b). generalize dependent (a mod b). intros m Hm f ->.
  destruct (Z.compare_spec (2 * m) b); [destruct (Z.even f)|..]; nia.
Qed.

Lemma cents_sign q : (Qnum q < 0 -> cents q <= 0) /\ (0 <= Qnum q -> 0 <= cents q).
Proof. unfold cents. destruct (round_div_sign (100 * Qnum q) (Zpos (Qden q))); [lia|]. lia. Qed.

(** [f"{x:,.2f}"] read back by [clean_numeric]. *)
Lemma format_2f_clean x : x <> NNaN -> clean_numeric (CStr (format_2f x)) = Ok (round2 x).
Proof.
  intros Hx. destruct x as [|[]|q]; [done | reflexivity | reflexivity |].
  set (a := Z.abs (cents q)).
  destruct (z_digits_spec (a / 100)) as (Hne & Hds & Hv); [zlia|].
  destruct (cent_digits_spec a) as [Hcd Hcv]; [lia|].
  unfold clean_numeric, format_2f. fold a.
  rewrite <-(string_of_list_ascii_of_string (remove_char " " _)), remove_separators by done.
  rewrite py_float_decimal by done. unfold default, id. rewrite digits_value_app, Hv, Hcv.
  replace (length (cent_digits a)) with 2%nat by done. cbn [round2].
  unfold dec_value. simpl (0 <=? _). simpl (10 ^ _).
  do 3 f_equal. destruct (cents_sign q) as [Hn Hp].
  destruct (Z.ltb_spec (Qnum q) 0); subst a; zlia.
Qed.

(** the printed value is within half a cent of the stored one. *)
Theorem round2_bound q : (Qabs (Qmake (cents q) 100 - q) <= 1 # 200)%Q.
Proof.
  pose proof (round_div_bound (100 * Qnum q) (Zpos (Qden q)) ltac:(lia)) as Hb.
  fold (cents q) in Hb. destruct q as [n d]. simpl in Hb.
  apply Qabs_Qle_condition. unfold Qle, Qminus, Qplus, Qopp. simpl. split; nia.
Qed.

(** ** The sample *)

Definition sample_values (s : sample_row) : list cell :=
  [sample_last s; sample_max s; sample_min s; sample_volume s; sample_turnover s].

Definition row_values (r : stock_row) : list num :=
  [sr_last r; sr_max r; sr_min r; sr_volume r; sr_turnover r].

(** C17: every cell the numeric columns of [fetch_sample_data] hold reads
    back through the scraper's own [clean_numeric] as the stored value
    rounded to cents: the printed text ("1,234.50", "-0.00", "inf") is
    always accepted, NaN stays NaN, and the thousands separators are the
    ones [clean_numeric] removes. *)
Theorem format_value_roundtrip x : clean_numeric (format_value x) = Ok (round2 x).
Proof. unfold format_value. destruct x; [done | apply format_2f_clean; done..]. Qed.

Lemma format_row_values r :
  Forall2 (fun c x => clean_numeric c = Ok (round2 x)) (sample_values (format_row r)) (row_values r).
Proof.
  assert (H : forall x, clean_numeric (format_value x) = Ok (round2 x)).
  { intros x. unfold format_value. destruct x; [done | apply format_2f_clean; done..]. }
  unfold sample_values, row_values. simpl. repeat constructor; apply H.
Qed.

(** any frame [fetch_sample_data(issuer_code, limit)] may return, in
    whatever order SQLite picks the rows, has at most [limit] rows when
    [limit >= 0], and each of its rows is a stored row that matches the
    [WHERE] clause, with its code and date, and numeric cells that read
    back as the stored values rounded to cents. *)
Theorem sample_result_rows tbl issuer_code limit out :
  sample_result tbl issuer_code limit out ->
  (0 <= limit -> (length out <= Z.to_nat limit)%nat) /\
  forall s, s ∈ out -> exists r, r ∈ tbl /\ sample_where issuer_code r = true /\
    sample_code s = sr_code r /\ sample_date s = isoformat <$> sr_date r /\
    Forall2 (fun c x => clean_numeric c = Ok (round2 x)) (sample_values s) (row_values r).
Proof.
  intros (sel & Hsub & Hlen & ->). split.
  - intros Hl. rewrite length_map, Hlen. unfold limit_count.
    destruct (Z.ltb_spec limit 0); [lia|]. lia.
  - intros s (r & -> & Hr)%list_elem_of_fmap.
    assert (Hin : r ∈ filter (sample_where issuer_code) tbl) by (by eapply elem_of_submseteq).
    apply list_elem_of_filter in Hin as [Hw Hin].
    exists r. split_and!; [done | by apply Is_true_true | done | done | apply format_row_values].
Qed.

(** the scan in insertion order is one of the answers SQLite may
    give: [fetch_sample_data] refines [sample_result]. *)
Theorem fetch_sample_data_result tbl issuer_code limit :
  sample_result tbl issuer_code limit (fetch_sample_data tbl issuer_code limit).
Proof.
  unfold fetch_sample_data, sample_result, limit_count.
  eexists; split_and!; [| |done].
  - destruct (limit <? 0); [done|]. apply sublist_submseteq, sublist_take.
  - destruct (Z.ltb_spec limit 0); [done|]. by rewrite length_take.
Qed.
