(* ===== verification/Indicators.v ===== *)
(** The columns [calculate_indicators] adds to a price frame
    (src/Website/TechnicalAnalysis.py, lines 8-41).

    A pandas float column is a list of [num]s (NaN, a signed infinity, an
    exact rational).  [num_add], [num_mul], [num_div] and [num_lt] are IEEE
    754 arithmetic and comparison on these values without rounding: NaN
    propagates, [inf - inf] and [0 * inf] are NaN, a nonzero finite number
    divided by zero is an infinity of its sign, [0 / 0] is NaN, and every
    comparison with NaN is false.  Zero is unsigned: every divisor the code
    computes is a difference [a - a] or a mean of absolute values, which
    IEEE makes [+0.0].

    The pandas routines the file calls are modelled from their definitions:
    [Series.rolling(w).mean/min/max/apply] ([rolling]: NaN until [w] values
    are seen and whenever the window holds a NaN, the direct formula on the
    window otherwise), [Series.ewm(...).mean] ([ewm_mean]: pandas' [ewma]
    loop, with its state [ewm_state]) and [Series.diff], [Series.where].  The
    five oscillators come from the [ta] library; [Oscillators] is their
    interface and [ta_lib] the instance that follows [ta]'s code. *)

From Stdlib Require Import QArith Qabs Lqa String.
From S2P Require Import Prelude Dates Numeric.

Close Scope Q_scope.

(** ** IEEE arithmetic on [num] *)

Definition Qltb (p q : Q) : bool := negb (Qle_bool q p).

Definition num_neg (x : num) : num :=
  match x with
  | NNaN => NNaN
  | NInf s => NInf (negb s)
  | NFin q => NFin (- q)
  end.

Definition num_add (x y : num) : num :=
  match x, y with
  | NNaN, _ | _, NNaN => NNaN
  | NInf a, NInf b => if Bool.eqb a b then NInf a else NNaN
  | NInf a, NFin _ | NFin _, NInf a => NInf a
  | NFin p, NFin q => NFin (p + q)
  end.

Definition num_sub (x y : num) : num := num_add x (num_neg y).

Definition num_mul (x y : num) : num :=
  match x, y with
  | NNaN, _ | _, NNaN => NNaN
  | NInf a, NInf b => NInf (xorb a b)
  | NInf a, NFin q | NFin q, NInf a =>
      if Qeq_bool q 0 then NNaN else NInf (xorb a (Qltb q 0))
  | NFin p, NFin q => NFin (p * q)
  end.

Definition num_div (x y : num) : num :=
  match x, y with
  | NNaN, _ | _, NNaN => NNaN
  | NInf _, NInf _ => NNaN
  | NInf a, NFin q => NInf (xorb a (Qltb q 0))
  | NFin _, NInf _ => NFin 0
  | NFin p, NFin q =>
      if Qeq_bool q 0 then (if Qeq_bool p 0 then NNaN else NInf (Qltb p 0))
      else NFin (p / q)
  end.

Definition num_abs (x : num) : num :=
  match x with
  | NNaN => NNaN
  | NInf _ => NInf false
  | NFin q => NFin (Qabs q)
  end.

(** [x < y]; false when either is NaN. *)
Definition num_lt (x y : num) : bool :=
  match x, y with
  | NFin p, NFin q => Qltb p q
  | NInf true, NInf false | NInf true, NFin _ | NFin _, NInf false => true
  | _, _ => false
  end.

(** [x == y]; false when either is NaN. *)
Definition num_eq (x y : num) : bool :=
  match x, y with
  | NFin p, NFin q => Qeq_bool p q
  | NInf a, NInf b => Bool.eqb a b
  | _, _ => false
  end.

Definition finite_or_nan (x : num) : bool :=
  match x with NInf _ => false | _ => true end.

(** A finite value at least 0. *)
Definition nonneg (x : num) : Prop := exists q, x = NFin q /\ (0 <= q)%Q.

(** NaN or a finite value in [lo, hi]. *)
Definition in_range (lo hi : Q) (x : num) : Prop :=
  x = NNaN \/ exists q, x = NFin q /\ (lo <= q <= hi)%Q.

(** ** Series operations *)

(** [s1 - s2], [s1 + s2] and the like, aligned on the index. *)
Notation "xs .- ys" := (zip_with num_sub xs ys) (at level 50, left associativity) : mse_scope.
Notation "xs .+ ys" := (zip_with num_add xs ys) (at level 50, left associativity) : mse_scope.
Notation "xs ./ ys" := (zip_with num_div xs ys) (at level 40, left associativity) : mse_scope.
Notation "c .* xs" := (map (num_mul (NFin c)) xs) (at level 40, left associativity) : mse_scope.

(** [Series.diff(1)]: NaN first, then [x(t) - x(t-1)]. *)
Definition diff1 (xs : list num) : list num :=
  match xs with [] => [] | _ :: t => NNaN :: zip_with num_sub t xs end.

(** [Series.where(cond, other)] *)
Definition series_where (cond : num -> bool) (other : num) (xs : list num) : list num :=
  map (fun x => if cond x then x else other) xs.

(** The last [w] values up to position [i]. *)
Definition window_at {A} (w i : nat) (xs : list A) : list A := drop (S i - w) (take (S i) xs).

(** [Series.rolling(w, min_periods=w)] followed by an aggregation [f]. *)
Definition rolling (w : nat) (f : list num -> num) (xs : list num) : list num :=
  imap (fun i _ => let win := window_at w i xs in
          if bool_decide (S i < w)%nat || existsb is_missing win then NNaN else f win) xs.

Definition num_sum (xs : list num) : num := foldl num_add (NFin 0) xs.

(** [np.mean] *)
Definition num_mean (xs : list num) : num :=
  num_div (num_sum xs) (NFin (inject_Z (Z.of_nat (length xs)))).

Definition num_max (x y : num) : num := if num_lt x y then y else x.
Definition num_min (x y : num) : num := if num_lt y x then y else x.

Definition rolling_mean (w : nat) : list num -> list num := rolling w num_mean.
Definition rolling_max (w : nat) : list num -> list num :=
  rolling w (fun win => foldl num_max (hd NNaN win) (tl win)).
Definition rolling_min (w : nat) : list num -> list num :=
  rolling w (fun win => foldl num_min (hd NNaN win) (tl win)).

(** ** [Series.ewm(...).mean()]

    pandas' [ewma] (window/aggregations.pyx) with [ignore_na=False]: the
    running weighted mean [weighted], the weight [old_wt] of the values seen
    so far, and the count [nobs] of non-NaN values. *)
Record ewm_state := EwmState { weighted : num; old_wt : Q; nobs : nat }.

Definition ewm_init (x0 : num) : ewm_state :=
  EwmState x0 1 (if is_missing x0 then 0 else 1).

Definition ewm_step (alpha : Q) (adjust : bool) (s : ewm_state) (cur : num) : ewm_state :=
  let new_wt := if adjust then 1%Q else alpha in
  let is_obs := negb (is_missing cur) in
  let nobs' := (nobs s + if is_obs then 1 else 0)%nat in
  if negb (is_missing (weighted s)) then
    let ow := (old_wt s * (1 - alpha))%Q in
    if is_obs then
      let w := if num_eq (weighted s) cur then weighted s
               else num_div (num_add (num_mul (NFin ow) (weighted s)) (num_mul (NFin new_wt) cur))
                            (NFin (ow + new_wt)) in
      EwmState w (if adjust then (ow + new_wt)%Q else 1%Q) nobs'
    else EwmState (weighted s) ow nobs'
  else if is_obs then EwmState cur (old_wt s) nobs'
  else EwmState (weighted s) (old_wt s) nobs'.

Definition ewm_out (minp : nat) (s : ewm_state) : num :=
  if (minp <=? nobs s)%nat then weighted s else NNaN.

Fixpoint ewm_loop (alpha : Q) (adjust : bool) (minp : nat) (s : ewm_state) (xs : list num)
    : list num :=
  match xs with
  | [] => []
  | cur :: rest =>
      let s' := ewm_step alpha adjust s cur in ewm_out minp s' :: ewm_loop alpha adjust minp s' rest
  end.

Definition ewm_mean (alpha : Q) (adjust : bool) (min_periods : nat) (xs : list num) : list num :=
  let minp := Nat.max min_periods 1 in
  match xs with
  | [] => []
  | x0 :: rest => ewm_out minp (ewm_init x0) :: ewm_loop alpha adjust minp (ewm_init x0) rest
  end.

(** [ewm(span=s)]: [com = (s - 1) / 2], [alpha = 1 / (1 + com)]. *)
Definition span_alpha (span : Z) : Q := 2 # Z.to_pos (span + 1).

(** ** The [ta] oscillators *)

(** [ta.utils._ema(series, periods)]:
    [series.ewm(span=periods, min_periods=periods, adjust=False).mean()]. *)
Definition ta_ema (periods : Z) (xs : list num) : list num :=
  ewm_mean (span_alpha periods) false (Z.to_nat periods) xs.

(** [np.where(emadn == 0, 100, 100 - (100 / (1 + relative_strength)))] *)
Definition rsi_of (dn rs : num) : num :=
  if num_eq dn (NFin 0) then NFin 100
  else num_sub (NFin 100) (num_div (NFin 100) (num_add (NFin 1) rs)).

(** [RSIIndicator(close, window=14).rsi()] *)
Definition ta_rsi (close : list num) : list num :=
  let diff := diff1 close in
  let up_direction := series_where (num_lt (NFin 0)) (NFin 0) diff in
  let down_direction := map num_neg (series_where (fun d => num_lt d (NFin 0)) (NFin 0) diff) in
  let emaup := ewm_mean (1 # 14) false 14 up_direction in
  let emadn := ewm_mean (1 # 14) false 14 down_direction in
  let relative_strength := emaup ./ emadn in
  zip_with rsi_of emadn relative_strength.

(** [MACD(close, window_slow=26, window_fast=12).macd()] *)
Definition ta_macd (close : list num) : list num := ta_ema 12 close .- ta_ema 26 close.

(** [StochasticOscillator(high, low, close, window=14).stoch()] *)
Definition ta_stoch (high low close : list num) : list num :=
  let smin := rolling_min 14 low in
  let smax := rolling_max 14 high in
  (100 .* (close .- smin)) ./ (smax .- smin).

(** [WilliamsRIndicator(high, low, close, lbp=14).williams_r()] *)
Definition ta_williams_r (high low close : list num) : list num :=
  let highest_high := rolling_max 14 high in
  let lowest_low := rolling_min 14 low in
  ((-100) .* (highest_high .- close)) ./ (highest_high .- lowest_low).

(** [np.mean(np.abs(x - np.mean(x)))] *)
Definition mad (x : list num) : num :=
  let m := num_mean x in num_mean (map (fun v => num_abs (num_sub v m)) x).

(** [CCIIndicator(high, low, close, window=20, constant=0.015).cci()] *)
Definition ta_cci (high low close : list num) : list num :=
  let typical_price := map (fun x => num_div x (NFin 3)) (high .+ low .+ close) in
  (typical_price .- rolling_mean 20 typical_price) ./ ((15 # 1000) .* rolling 20 mad typical_price).

(** The oscillators [calculate_indicators] takes from [ta], as the columns
    they compute from [close] or from [high], [low], [close]. *)
Class Oscillators := {
  osc_rsi : list num -> list num;
  osc_macd : list num -> list num;
  osc_stoch : list num -> list num -> list num -> list num;
  osc_cci : list num -> list num -> list num -> list num;
  osc_williams_r : list num -> list num -> list num -> list num
}.

#[export] Instance ta_lib : Oscillators := {|
  osc_rsi := ta_rsi;
  osc_macd := ta_macd;
  osc_stoch := ta_stoch;
  osc_cci := ta_cci;
  osc_williams_r := ta_williams_r
|}.

(** What a client of the oscillators relies on: one value per row, and an
    RSI that is a percentage or NaN on a series without infinities. *)
Class OscillatorLaws `{Oscillators} := {
  osc_rsi_length c : length (osc_rsi c) = length c;
  osc_rsi_range c :
    Forall (fun x => finite_or_nan x = true) c -> Forall (in_range 0 100) (osc_rsi c);
  osc_macd_length c : length (osc_macd c) = length c;
  osc_stoch_length h l c :
    length h = length c -> length l = length c -> length (osc_stoch h l c) = length c;
  osc_cci_length h l c :
    length h = length c -> length l = length c -> length (osc_cci h l c) = length c;
  osc_williams_r_length h l c :
    length h = length c -> length l = length c -> length (osc_williams_r h l c) = length c
}.

(** ** [calculate_indicators] *)

Inductive signal := Hold | Buy | Sell.

#[export] Instance signal_eq_dec : EqDecision signal.
Proof. solve_decision. Defined.

(** [data.loc[mask, col] = v] *)
Definition loc_set {A} (mask : list bool) (v : A) (col : list A) : list A :=
  zip_with (fun (b : bool) (x : A) => if b then v else x) mask col.

(** The columns of a price frame the indicators read. *)
Record bar := Bar {
  bar_date : option date;
  bar_last : num;
  bar_max : num;
  bar_min : num;
  bar_volume : num
}.

Record ind_row := IndRow {
  ir_bar : bar;
  ir_sma20 : num; ir_sma50 : num; ir_ema20 : num; ir_ema50 : num;
  ir_rsi : num; ir_macd : num; ir_stoch : num; ir_cci : num; ir_wr : num;
  ir_signal : signal
}.

(** Row [i] of a column. *)
Definition col_at {A} (d : A) (col : list A) (i : nat) : A := default d (col !! i).

(** The [Signal] column: four masked assignments, later ones overwriting
    earlier ones. *)
Definition signals (last sma20 rsi : list num) : list signal :=
  let sig := map (fun _ => Hold) last in
  let sig := loc_set (map (fun r => num_lt r (NFin 30)) rsi) Buy sig in
  let sig := loc_set (map (fun r => num_lt (NFin 70) r) rsi) Sell sig in
  let sig := loc_set (zip_with (fun l s => num_lt s l) last sma20) Buy sig in
  loc_set (zip_with num_lt last sma20) Sell sig.

Definition calculate_indicators `{Oscillators} (data : list bar) : list ind_row :=
  let last := map bar_last data in
  let high := map bar_max data in
  let low := map bar_min data in
  let sma20 := rolling_mean 20 last in
  let sma50 := rolling_mean 50 last in
  let ema20 := ewm_mean (span_alpha 20) true 0 last in
  let ema50 := ewm_mean (span_alpha 50) true 0 last in
  let rsi := osc_rsi last in
  let macd := osc_macd last in
  let stoch := osc_stoch high low last in
  let cci := osc_cci high low last in
  let wr := osc_williams_r high low last in
  let sig := signals last sma20 rsi in
  imap (fun i b => IndRow b (col_at NNaN sma20 i) (col_at NNaN sma50 i) (col_at NNaN ema20 i)
                      (col_at NNaN ema50 i) (col_at NNaN rsi i) (col_at NNaN macd i)
                      (col_at NNaN stoch i) (col_at NNaN cci i) (col_at NNaN wr i)
                      (col_at Hold sig i)) data.

(** ** Reference definitions *)

(** The [Signal] a row gets, read off the four assignments: the last one
    that applies wins. *)
Definition signal_rule (last sma20 rsi : num) : signal :=
  if num_lt last sma20 then Sell
  else if num_lt sma20 last then Buy
  else if num_lt (NFin 70) rsi then Sell
  else if num_lt rsi (NFin 30) then Buy
  else Hold.

Fixpoint Qsum (l : list Q) : Q :=
  match l with [] => 0%Q | a :: l => (a + Qsum l)%Q end.

Definition obs_val (x : num) : Q := match x with NFin q => q | _ => 0%Q end.

(** The weight of the value at position [j] of [n] in [ewm(adjust=True)]:
    [(1 - alpha) ^ (n - 1 - j)], and 0 for a NaN. *)
Definition ewm_weight (alpha : Q) (n j : nat) (x : num) : Q :=
  if is_missing x then 0%Q else Nat.iter (n - 1 - j) (Qmult (1 - alpha)) 1%Q.

Definition ewm_sum (alpha : Q) (g : num -> Q) (xs : list num) : Q :=
  Qsum (imap (fun j x => ewm_weight alpha (length xs) j x * g x)%Q xs).

(** The weighted mean pandas documents for [adjust=True]:
    [sum_j w_j x_j / sum_j w_j] over the non-NaN values, NaN when there are
    none. *)
Definition ewm_ref (alpha : Q) (xs : list num) : num :=
  if forallb is_missing xs then NNaN
  else NFin (ewm_sum alpha obs_val xs / ewm_sum alpha (fun _ => 1%Q) xs).

(** The state of [ewma] after the values [xs]. *)
Definition ewm_state_of (alpha : Q) (adjust : bool) (xs : list num) : option ewm_state :=
  match xs with
  | [] => None
  | x0 :: rest => Some (foldl (ewm_step alpha adjust) (ewm_init x0) rest)
  end.

(** What [ewma] with [adjust=True] keeps after the values [ys]: [nobs] is
    positive exactly when a value was seen; then [weighted] is the weighted
    mean of [ewm_ref] and [old_wt] the sum of the weights. *)
Definition ewm_adjust_inv (alpha : Q) (ys : list num) (s : ewm_state) : Prop :=
  ((0 < nobs s)%nat <-> forallb is_missing ys = false) /\
  if forallb is_missing ys then weighted s = NNaN /\ (old_wt s == 1)%Q
  else exists w, weighted s = NFin w /\ (0 < ewm_sum alpha (fun _ => 1) ys)%Q /\
    (old_wt s == ewm_sum alpha (fun _ => 1) ys)%Q /\
    (w * ewm_sum alpha (fun _ => 1) ys == ewm_sum alpha obs_val ys)%Q.

(** Equality of floats as [assert_series_equal] sees it: NaN equals NaN. *)
Definition num_equiv (x y : num) : Prop := num_eqb x y = true.

(** ** Series lengths *)

Lemma length_zip_with_eq {A B C} (f : A -> B -> C) l1 l2 :
  length l1 = length l2 -> length (zip_with f l1 l2) = length l1.
Proof. intros H. rewrite length_zip_with. lia. Qed.

Lemma rolling_length w f xs : length (rolling w f xs) = length xs.
Proof. apply length_imap. Qed.

Lemma ewm_loop_length alpha adjust minp s xs : length (ewm_loop alpha adjust minp s xs) = length xs.
Proof. revert s; induction xs; intros s; simpl; auto. Qed.

Lemma ewm_mean_length alpha adjust mp xs : length (ewm_mean alpha adjust mp xs) = length xs.
Proof. destruct xs; simpl; [done|]. by rewrite ewm_loop_length. Qed.

Lemma diff1_length xs : length (diff1 xs) = length xs.
Proof. destruct xs; simpl; [done|]. rewrite length_zip_with. simpl. lia. Qed.

#[export] Hint Rewrite rolling_length ewm_mean_length diff1_length @length_map : mse_rw.

(** ** [ewm] as the weighted mean *)

Lemma ewm_loop_lookup alpha adjust minp s xs t :
  (t < length xs)%nat ->
  ewm_loop alpha adjust minp s xs !! t =
    Some (ewm_out minp (foldl (ewm_step alpha adjust) s (take (S t) xs))).
Proof.
  revert s t; induction xs as [|x xs IH]; intros s t Ht; simpl in *; [lia|].
  destruct t as [|t]; simpl; [done|]. apply IH. lia.
Qed.

Lemma ewm_mean_lookup alpha adjust mp xs t :
  (t < length xs)%nat ->
  ewm_mean alpha adjust mp xs !! t =
    ewm_out (Nat.max mp 1) <$> ewm_state_of alpha adjust (take (S t) xs).
Proof.
  destruct xs as [|x0 xs]; simpl; intros Ht; [lia|].
  destruct t as [|t]; simpl; [done|]. rewrite ewm_loop_lookup by lia. done.
Qed.

Lemma ewm_state_of_snoc alpha adjust ys x :
  ys <> [] ->
  ewm_state_of alpha adjust (ys ++ [x]) = (fun s => ewm_step alpha adjust s x) <$> ewm_state_of alpha adjust ys.
Proof. destruct ys as [|y ys]; [done|]. intros _. simpl. by rewrite foldl_app. Qed.

Lemma Qsum_app l1 l2 : (Qsum (l1 ++ l2) == Qsum l1 + Qsum l2)%Q.
Proof. induction l1 as [|a l1 IH]; cbn [app Qsum]; [ring|]. rewrite IH. ring. Qed.

Lemma Qsum_imap_scale {A} (f f' : nat -> A -> Q) (c : Q) (l : list A) :
  (forall j x, (j < length l)%nat -> f' j x == c * f j x)%Q ->
  (Qsum (imap f' l) == c * Qsum (imap f l))%Q.
Proof.
  revert f f'; induction l as [|x l IH]; intros f f' Hf; cbn [imap Qsum]; [ring|].
  rewrite (IH (f ∘ S) (f' ∘ S)), (Hf 0%nat) by (cbn in *; lia || intros; apply Hf; cbn; lia).
  ring.
Qed.

Lemma Qsum_imap_zero {A} (f : nat -> A -> Q) (l : list A) :
  (forall j x, x ∈ l -> f j x == 0)%Q -> (Qsum (imap f l) == 0)%Q.
Proof.
  revert f; induction l as [|x l IH]; intros f Hf; cbn [imap Qsum]; [done|].
  rewrite (IH (f ∘ S)), Hf by set_solver. ring.
Qed.

Lemma ewm_weight_succ alpha n j x :
  (j < n)%nat -> (ewm_weight alpha (S n) j x == (1 - alpha) * ewm_weight alpha n j x)%Q.
Proof.
  intros Hj. unfold ewm_weight. destruct (is_missing x); [ring|].
  replace (S n - 1 - j)%nat with (S (n - 1 - j)) by lia. reflexivity.
Qed.

(** Appending a value decays every weight by [1 - alpha] and gives the new
    value weight 1. *)
Lemma ewm_sum_snoc alpha g ys x :
  (ewm_sum alpha g (ys ++ [x]) ==
     (1 - alpha) * ewm_sum alpha g ys + (if is_missing x then 0 else g x))%Q.
Proof.
  unfold ewm_sum. rewrite length_app, imap_app, Qsum_app. simpl (length [x]).
  rewrite (Qsum_imap_scale (fun j y => ewm_weight alpha (length ys) j y * g y)%Q _ (1 - alpha)).
  - cbn [imap Qsum].
    replace (ewm_weight alpha (length ys + 1) (length ys + 0) x) with (if is_missing x then 0 else 1)%Q
      by (unfold ewm_weight; by replace (length ys + 1 - 1 - (length ys + 0))%nat with 0%nat by lia).
    destruct (is_missing x); ring.
  - intros j y Hj. replace (length ys + 1)%nat with (S (length ys)) by lia.
    rewrite ewm_weight_succ by done. ring.
Qed.

Lemma ewm_sum_missing alpha g ys :
  forallb is_missing ys = true -> (ewm_sum alpha g ys == 0)%Q.
Proof.
  intros Hm. apply Qsum_imap_zero. intros j x Hx.
  apply forallb_forall with (x := x) in Hm; [|by apply list_elem_of_In].
  unfold ewm_weight. rewrite Hm. ring.
Qed.

(** [ewma]'s first value is a step from the state of an empty series. *)
Lemma ewm_init_step alpha adjust x :
  ewm_init x = ewm_step alpha adjust (EwmState NNaN 1 0) x.
Proof. destruct x; reflexivity. Qed.

Lemma ewm_state_of_foldl alpha adjust ys :
  ys <> [] -> ewm_state_of alpha adjust ys = Some (foldl (ewm_step alpha adjust) (EwmState NNaN 1 0) ys).
Proof. destruct ys; [done|]. intros _. simpl. by rewrite (ewm_init_step alpha adjust). Qed.

Lemma forallb_snoc {A} (p : A -> bool) l x : forallb p (l ++ [x]) = forallb p l && p x.
Proof. rewrite forallb_app. simpl. by rewrite andb_true_r. Qed.

Lemma ewm_step_nobs alpha adjust s x :
  nobs (ewm_step alpha adjust s x) = (nobs s + if is_missing x then 0 else 1)%nat.
Proof. unfold ewm_step. by repeat case_match. Qed.

Lemma Qdecay_pos a d : (0 < a < 1 -> 0 < d -> 0 < (1 - a) * d)%Q.
Proof. intros Ha Hd. apply Qmult_lt_0_compat; lra. Qed.

Lemma ewm_adjust_step alpha ys s x :
  (0 < alpha < 1)%Q -> finite_or_nan x = true -> ewm_adjust_inv alpha ys s ->
  ewm_adjust_inv alpha (ys ++ [x]) (ewm_step alpha true s x).
Proof.
  intros Ha Hx [Hn Hinv]. unfold ewm_adjust_inv. rewrite forallb_snoc, ewm_step_nobs.
  pose proof (ewm_sum_snoc alpha (fun _ => 1%Q) ys x) as HD.
  pose proof (ewm_sum_snoc alpha obs_val ys x) as HN.
  destruct x as [|b|c]; [|done|]; cbn [is_missing] in *.
  - rewrite andb_true_r. destruct (forallb is_missing ys).
    + destruct Hinv as [Hw0 Hw]. unfold ewm_step; rewrite Hw0; cbn. split; [lia|done].
    + destruct Hinv as (w & Hw0 & HD0 & Hw & HwN). unfold ewm_step; rewrite Hw0; cbn.
      pose proof (Qdecay_pos alpha _ Ha HD0).
      split; [lia|]. exists w. rewrite HD, HN, Hw. split_and!; [done | lra | ring | rewrite <-HwN; ring].
  - rewrite andb_false_r. split; [split; intros; [done | lia]|]. destruct (forallb is_missing ys) eqn:Hm.
    + destruct Hinv as [Hw0 Hw]. unfold ewm_step; rewrite Hw0; cbn. exists c.
      rewrite HD, HN, !ewm_sum_missing by done. split_and!; [done | lra | rewrite Hw; ring | cbn [obs_val]; ring].
    + destruct Hinv as (w & Hw0 & HD0 & Hw & HwN). unfold ewm_step; rewrite Hw0; cbn [weighted is_missing negb num_eq].
      pose proof (Qdecay_pos alpha _ Ha HD0).
      assert (Hpos : (0 < old_wt s * (1 - alpha))%Q) by (rewrite Hw, Qmult_comm; lra).
      destruct (Qeq_bool w c) eqn:Hwc.
      * apply Qeq_bool_iff in Hwc. exists w. rewrite HD, HN.
        split_and!; [done | lra | cbn [old_wt]; rewrite Hw; ring | cbn [obs_val]; rewrite <-HwN, <-Hwc; ring].
      * cbn [num_mul num_add num_div].
        destruct (Qeq_bool (old_wt s * (1 - alpha) + 1) 0) eqn:H0; [apply Qeq_bool_iff in H0; lra|].
        eexists. split; [reflexivity|]. rewrite HD, HN.
        split_and!; [lra | cbn [old_wt]; rewrite Hw; ring |]. cbn [obs_val]. rewrite <-HwN, <-Hw. field. lra.
Qed.

Lemma ewm_adjust_foldl alpha ys :
  (0 < alpha < 1)%Q -> Forall (fun x => finite_or_nan x = true) ys ->
  ewm_adjust_inv alpha ys (foldl (ewm_step alpha true) (EwmState NNaN 1 0) ys).
Proof.
  intros Ha. induction ys as [|x ys IH] using rev_ind; intros Hf.
  - unfold ewm_adjust_inv; cbn. split; [split; intros H; [lia | discriminate] | split; [done | reflexivity]].
  - apply Forall_app in Hf as [Hf Hx]. rewrite Forall_singleton in Hx. rewrite foldl_app. cbn [foldl].
    apply ewm_adjust_step; [done | exact Hx | by apply IH].
Qed.

Lemma ewm_out_ref alpha ys s :
  ewm_adjust_inv alpha ys s -> num_equiv (ewm_out 1 s) (ewm_ref alpha ys).
Proof.
  intros [Hn Hinv]. unfold ewm_out, ewm_ref, num_equiv.
  destruct (forallb is_missing ys).
  - destruct Hinv as [-> _]. by case_match.
  - destruct Hinv as (w & -> & HD0 & _ & HwN).
    rewrite (proj2 (Nat.leb_le 1 (nobs s))) by (apply Hn; done).
    cbn. apply Qeq_bool_iff. rewrite <-HwN. field. lra.
Qed.

(** C21: [Series.ewm(span).mean()] ([adjust=True], the [EMA_20] and
    [EMA_50] columns): pandas' one-pass [ewma] loop computes, at every
    position [t], the weighted mean [sum_j (1 - alpha)^(t - j) x_j /
    sum_j (1 - alpha)^(t - j)] of the non-NaN values up to [t], and NaN
    before the first one, for every [0 < alpha < 1] and any series of
    finite values and NaNs. *)
Theorem ewm_mean_weighted alpha xs :
  (0 < alpha < 1)%Q -> Forall (fun x => finite_or_nan x = true) xs ->
  Forall2 num_equiv (ewm_mean alpha true 0 xs) (imap (fun t _ => ewm_ref alpha (take (S t) xs)) xs).
Proof.
  intros Ha Hf. apply Forall2_lookup. intros t.
  rewrite list_lookup_imap. destruct (decide (t < length xs)%nat) as [Ht|Ht].
  - rewrite ewm_mean_lookup by done. destruct (lookup_lt_is_Some_2 xs t Ht) as [x ->].
    rewrite ewm_state_of_foldl by (destruct xs; simpl in *; [lia|done]).
    constructor. apply ewm_out_ref, ewm_adjust_foldl; [done|]. by apply Forall_take.
  - rewrite !lookup_ge_None_2; [constructor | | ]; rewrite ?ewm_mean_length; lia.
Qed.

(** ** The RSI is a percentage *)

Lemma Forall_zip_with_2 {A B C} (P : A -> Prop) (P' : B -> Prop) (R : C -> Prop) f l1 l2 :
  Forall P l1 -> Forall P' l2 -> (forall a b, P a -> P' b -> R (f a b)) -> Forall R (zip_with f l1 l2).
Proof.
  intros H1. revert l2. induction H1 as [|a l1 Ha H1 IH]; intros [|b l2] H2 Hf; simpl; [done..|].
  inversion H2; subst. constructor; auto.
Qed.

Lemma Forall_series_where (P P' : num -> Prop) cond other xs :
  Forall P' xs -> P other -> (forall x, P' x -> cond x = true -> P x) -> Forall P (series_where cond other xs).
Proof.
  intros Hxs Ho Hc. apply Forall_fmap, (Forall_impl _ _ _ Hxs). intros x Hx.
  unfold compose. destruct (cond x) eqn:E; [by apply Hc | done].
Qed.

Lemma zip_with_diag {A B C D} (f : B -> C -> D) (g : A -> B -> C) l1 l2 :
  zip_with f l2 (zip_with g l1 l2) = zip_with (fun a b => f b (g a b)) l1 l2.
Proof. revert l2; induction l1; intros [|b l2]; simpl; f_equal; auto. Qed.

Lemma Qltb_spec p q : Qltb p q = true <-> (p < q)%Q.
Proof.
  unfold Qltb. rewrite negb_true_iff. split.
  - intros H. apply Qnot_le_lt. intros Hle. apply Qle_bool_iff in Hle. congruence.
  - intros H. destruct (Qle_bool q p) eqn:E; [|done]. apply Qle_bool_iff in E. lra.
Qed.

Lemma Qltb_false p q : Qltb p q = false <-> (q <= p)%Q.
Proof. unfold Qltb. rewrite negb_false_iff. apply Qle_bool_iff. Qed.

Lemma num_sub_finite x y :
  finite_or_nan x = true -> finite_or_nan y = true -> finite_or_nan (num_sub x y) = true.
Proof. by destruct x, y. Qed.

Lemma diff1_finite xs :
  Forall (fun x => finite_or_nan x = true) xs -> Forall (fun x => finite_or_nan x = true) (diff1 xs).
Proof.
  intros H. destruct xs as [|x xs]; simpl; [done|]. constructor; [done|].
  inversion H; subst. eapply Forall_zip_with_2; eauto using num_sub_finite.
Qed.

Lemma ewm_nonneg_foldl alpha adjust s ys :
  (0 < alpha <= 1)%Q -> Forall nonneg ys ->
  (exists w, weighted s = NFin w /\ 0 <= w /\ 0 <= old_wt s)%Q ->
  (exists w, weighted (foldl (ewm_step alpha adjust) s ys) = NFin w /\
     0 <= w /\ 0 <= old_wt (foldl (ewm_step alpha adjust) s ys))%Q.
Proof.
  intros Ha Hys. revert s. induction Hys as [|x ys (c & -> & Hc) _ IH]; intros s (w & Hw & Hw0 & Ho); [by exists w|].
  apply IH. unfold ewm_step. rewrite Hw. cbn [is_missing negb weighted num_eq].
  assert (0 <= old_wt s * (1 - alpha))%Q by (apply Qmult_le_0_compat; lra).
  destruct (Qeq_bool w c); [exists w; destruct adjust; cbn; split_and!; auto; lra|].
  cbn [num_mul num_add num_div]. destruct (Qeq_bool _ 0) eqn:H0.
  { apply Qeq_bool_iff in H0. destruct adjust; lra. }
  eexists. split; [reflexivity|]. split; [|destruct adjust; cbn; lra].
  apply Qle_shift_div_l; [destruct adjust; lra|]. rewrite Qmult_0_l.
  destruct adjust; nra.
Qed.

Lemma ewm_out_cases minp s : ewm_out minp s = NNaN \/ ewm_out minp s = weighted s.
Proof. unfold ewm_out. case_match; auto. Qed.

(** [ewm().mean()] of finite values at least 0 is NaN or at least 0. *)
Lemma ewm_mean_nonneg alpha adjust mp xs :
  (0 < alpha <= 1)%Q -> Forall nonneg xs -> Forall (fun y => y = NNaN \/ nonneg y) (ewm_mean alpha adjust mp xs).
Proof.
  intros Ha Hxs. destruct xs as [|x0 xs]; [constructor|].
  inversion Hxs as [|? ? (c & -> & Hc) Hrest]; subst.
  apply Forall_lookup. intros t y Hy.
  assert (Ht : (t < length (NFin c :: xs))%nat)
    by (rewrite <-(ewm_mean_length alpha adjust mp); eapply lookup_lt_Some; eauto).
  rewrite ewm_mean_lookup in Hy by done.
  destruct t as [|t]; simpl in Hy; injection Hy as <-;
    match goal with |- context [ewm_out ?m ?s] => destruct (ewm_out_cases m s) as [->| ->] end; auto; right.
  - by exists c.
  - destruct (ewm_nonneg_foldl alpha adjust (ewm_init (NFin c)) (take (S t) xs)) as (w & -> & ? & _);
      [done | by apply Forall_take | exists c; cbn; split_and!; [done | lra | lra] | by exists w].
Qed.

Lemma rsi_of_range u d :
  (u = NNaN \/ nonneg u) -> (d = NNaN \/ nonneg d) -> in_range 0 100 (rsi_of d (num_div u d)).
Proof.
  intros Hu [->|(q & -> & Hq)]; [by left; destruct u|]. unfold rsi_of. cbn [num_eq].
  destruct (Qeq_bool q 0) eqn:Hq0; [right; exists 100%Q; split; [done|lra]|].
  assert (Hqpos : (0 < q)%Q) by (apply Qle_lteq in Hq as [?|Heq]; [done|];
    apply Qeq_sym, Qeq_bool_iff in Heq; congruence).
  destruct Hu as [->|(v & -> & Hv)]; [by left|]. cbn [num_div num_add num_sub num_neg]. rewrite Hq0.
  assert (Hr : (0 <= v / q)%Q) by (apply Qle_shift_div_l; lra).
  destruct (Qeq_bool (1 + v / q) 0) eqn:H0; [apply Qeq_bool_iff in H0; lra|].
  right. eexists; split; [reflexivity|].
  assert (H1 : (100 / (1 + v / q) <= 100)%Q) by (apply Qle_shift_div_r; nra).
  assert (H2 : (0 <= 100 / (1 + v / q))%Q) by (apply Qle_shift_div_l; lra).
  lra.
Qed.

Lemma up_direction_nonneg diff :
  Forall (fun x => finite_or_nan x = true) diff ->
  Forall nonneg (series_where (num_lt (NFin 0)) (NFin 0) diff).
Proof.
  intros H. eapply Forall_series_where; [exact H | exists 0%Q; split; [done|lra] |].
  intros [|[]|q] Hf Hlt; try done. apply Qltb_spec in Hlt. exists q. split; [done|lra].
Qed.

Lemma down_direction_nonneg diff :
  Forall (fun x => finite_or_nan x = true) diff ->
  Forall nonneg (map num_neg (series_where (fun d => num_lt d (NFin 0)) (NFin 0) diff)).
Proof.
  intros H. apply Forall_fmap.
  eapply Forall_series_where; [exact H | exists 0%Q; split; [done|lra] |].
  intros [|[]|q] Hf Hlt; try done. apply Qltb_spec in Hlt. exists (- q)%Q. split; [done|lra].
Qed.

Lemma ta_rsi_range close :
  Forall (fun x => finite_or_nan x = true) close -> Forall (in_range 0 100) (ta_rsi close).
Proof.
  intros H. unfold ta_rsi. rewrite zip_with_diag.
  pose proof (diff1_finite close H) as Hd.
  eapply Forall_zip_with_2; [| |apply rsi_of_range];
    apply ewm_mean_nonneg; [lra | by apply up_direction_nonneg | lra | by apply down_direction_nonneg].
Qed.

(** ** Williams %R is the stochastic oscillator minus 100 *)

Lemma foldl_num_max_finite x l :
  Forall (fun y => finite_or_nan y = true) (x :: l) -> finite_or_nan (foldl num_max x l) = true.
Proof.
  revert x; induction l as [|y l IH]; intros x H; inversion H as [|? ? Hx Hl]; subst; [done|].
  inversion Hl; subst. apply IH. constructor; [unfold num_max; by case_match | done].
Qed.

Lemma foldl_num_min_finite x l :
  Forall (fun y => finite_or_nan y = true) (x :: l) -> finite_or_nan (foldl num_min x l) = true.
Proof.
  revert x; induction l as [|y l IH]; intros x H; inversion H as [|? ? Hx Hl]; subst; [done|].
  inversion Hl; subst. apply IH. constructor; [unfold num_min; by case_match | done].
Qed.

Lemma rolling_finite w f xs :
  (forall win, Forall (fun y => finite_or_nan y = true) win -> finite_or_nan (f win) = true) ->
  Forall (fun y => finite_or_nan y = true) xs -> Forall (fun y => finite_or_nan y = true) (rolling w f xs).
Proof.
  intros Hf Hxs. apply Forall_lookup. intros i y. unfold rolling. rewrite list_lookup_imap.
  destruct (xs !! i); intros [= <-]. case_match; [done|].
  apply Hf. unfold window_at. by apply Forall_drop, Forall_take.
Qed.

Lemma rolling_max_finite w xs :
  Forall (fun y => finite_or_nan y = true) xs -> Forall (fun y => finite_or_nan y = true) (rolling_max w xs).
Proof.
  apply rolling_finite. intros [|x win] H; [done|]. by apply foldl_num_max_finite.
Qed.

Lemma rolling_min_finite w xs :
  Forall (fun y => finite_or_nan y = true) xs -> Forall (fun y => finite_or_nan y = true) (rolling_min w xs).
Proof.
  apply rolling_finite. intros [|x win] H; [done|]. by apply foldl_num_min_finite.
Qed.

Lemma Qeq_bool_morph a b c : (a == b)%Q -> Qeq_bool a c = Qeq_bool b c.
Proof.
  intros H. destruct (Qeq_bool b c) eqn:E.
  - apply Qeq_bool_iff. apply Qeq_bool_iff in E. by rewrite H.
  - destruct (Qeq_bool a c) eqn:E'; [|done]. apply Qeq_bool_iff in E'.
    rewrite H in E'. apply Qeq_bool_iff in E'. congruence.
Qed.

Lemma Qltb_morph a b c : (a == b)%Q -> Qltb a c = Qltb b c.
Proof.
  intros H. destruct (Qltb b c) eqn:E.
  - apply Qltb_spec. apply Qltb_spec in E. lra.
  - apply Qltb_false. apply Qltb_false in E. lra.
Qed.

Lemma williams_stoch_point h l c :
  finite_or_nan h = true -> finite_or_nan l = true -> finite_or_nan c = true ->
  num_equiv (num_div (num_mul (NFin (-100)) (num_sub h c)) (num_sub h l))
            (num_sub (num_div (num_mul (NFin 100) (num_sub c l)) (num_sub h l)) (NFin 100)).
Proof.
  unfold num_equiv.
  destruct h as [| |h], l as [| |l], c as [| |c]; intros Hh Hl Hc; try discriminate; try reflexivity.
  cbn [num_sub num_neg num_add num_mul num_div].
  destruct (Qeq_bool (h + - l) 0) eqn:E.
  - apply Qeq_bool_iff in E.
    rewrite (Qeq_bool_morph (-100 * (h + - c)) (100 * (c + - l))),
            (Qltb_morph (-100 * (h + - c)) (100 * (c + - l))) by lra.
    destruct (Qeq_bool (100 * (c + - l)) 0); cbn; [done|]. apply eqb_reflx.
  - cbn. apply Qeq_bool_iff. field. intros Hz. apply Qeq_bool_iff in Hz. congruence.
Qed.

(** C24: Williams %R ([ta.momentum.WilliamsRIndicator]) and the stochastic
    oscillator [%K] ([ta.momentum.StochasticOscillator]) read the same
    14-row highs and lows, and [%R = %K - 100] at every row: on rows with a
    NaN both are NaN, on a flat window ([high = low]) both are the same
    infinity or NaN, otherwise the values agree. *)
Theorem williams_r_stoch high low close :
  Forall (fun y => finite_or_nan y = true) high -> Forall (fun y => finite_or_nan y = true) low ->
  Forall (fun y => finite_or_nan y = true) close ->
  Forall2 num_equiv (ta_williams_r high low close)
                    (map (fun k => num_sub k (NFin 100)) (ta_stoch high low close)).
Proof.
  intros Hh Hl Hc. apply Forall2_lookup. intros i.
  unfold ta_williams_r, ta_stoch.
  rewrite list_lookup_fmap, !lookup_zip_with, !list_lookup_fmap, !lookup_zip_with.
  destruct (rolling_max 14 high !! i) as [h|] eqn:Eh, (close !! i) as [c|] eqn:Ec,
    (rolling_min 14 low !! i) as [l|] eqn:El; cbn; constructor.
  apply williams_stoch_point;
    [exact (Forall_lookup_1 _ _ _ _ (rolling_max_finite 14 high Hh) Eh)
    |exact (Forall_lookup_1 _ _ _ _ (rolling_min_finite 14 low Hl) El)
    |exact (Forall_lookup_1 _ _ _ _ Hc Ec)].
Qed.

(** ** The [ta] library meets the interface *)

#[local] Hint Rewrite @length_zip_with : mse_rw.

Lemma ta_rsi_length c : length (ta_rsi c) = length c.
Proof. unfold ta_rsi, series_where. autorewrite with mse_rw. lia. Qed.

Lemma ta_macd_length c : length (ta_macd c) = length c.
Proof. unfold ta_macd, ta_ema. autorewrite with mse_rw. lia. Qed.

Lemma ta_stoch_length h l c :
  length h = length c -> length l = length c -> length (ta_stoch h l c) = length c.
Proof. unfold ta_stoch, rolling_min, rolling_max. autorewrite with mse_rw. lia. Qed.

Lemma ta_cci_length h l c :
  length h = length c -> length l = length c -> length (ta_cci h l c) = length c.
Proof. unfold ta_cci, rolling_mean. autorewrite with mse_rw. lia. Qed.

Lemma ta_williams_r_length h l c :
  length h = length c -> length l = length c -> length (ta_williams_r h l c) = length c.
Proof. unfold ta_williams_r, rolling_min, rolling_max. autorewrite with mse_rw. lia. Qed.

#[export] Instance ta_lib_laws : OscillatorLaws := {|
  osc_rsi_length := ta_rsi_length;
  osc_rsi_range := ta_rsi_range;
  osc_macd_length := ta_macd_length;
  osc_stoch_length := ta_stoch_length;
  osc_cci_length := ta_cci_length;
  osc_williams_r_length := ta_williams_r_length
|}.

(** ** [calculate_indicators] against the interface *)

Lemma signals_lookup last sma20 rsi i l s r :
  last !! i = Some l -> sma20 !! i = Some s -> rsi !! i = Some r ->
  signals last sma20 rsi !! i = Some (signal_rule l s r).
Proof.
  intros Hl Hs Hr. unfold signals, loc_set.
  cbv beta zeta. rewrite !lookup_zip_with, !list_lookup_fmap, Hl, Hs, Hr. cbn.
  reflexivity.
Qed.

Lemma col_at_lookup {A} (d : A) col i x : col !! i = Some x -> col_at d col i = x.
Proof. unfold col_at. by intros ->. Qed.

Lemma lookup_length_eq {A B} (l1 : list A) (l2 : list B) i x :
  length l1 = length l2 -> l2 !! i = Some x -> exists y, l1 !! i = Some y.
Proof. intros Hlen Hx. apply lookup_lt_is_Some_2. rewrite Hlen. by eapply lookup_lt_Some. Qed.

Lemma calculate_indicators_bars `{Oscillators} data : map ir_bar (calculate_indicators data) = data.
Proof.
  apply list_eq. intros i. unfold calculate_indicators. cbv zeta.
  rewrite list_lookup_fmap, list_lookup_imap. by destruct (data !! i).
Qed.

(** [calculate_indicators] against any implementation of the oscillators
    that meets [OscillatorLaws]: it keeps the rows of the frame in order,
    and on a price column without infinities every row's [RSI] is NaN or
    in [0, 100] and its [Signal] is [signal_rule] of its price, its
    [SMA_20] and its [RSI]. *)
Lemma calculate_indicators_rows `{Oscillators} `{!OscillatorLaws} data :
  Forall (fun b => finite_or_nan (bar_last b) = true) data ->
  map ir_bar (calculate_indicators data) = data /\
  Forall (fun r => in_range 0 100 (ir_rsi r) /\
                   ir_signal r = signal_rule (bar_last (ir_bar r)) (ir_sma20 r) (ir_rsi r))
         (calculate_indicators data).
Proof.
  intros Hfin. split; [apply calculate_indicators_bars|]. unfold calculate_indicators. cbv zeta.
  apply Forall_lookup. intros i row. rewrite list_lookup_imap.
    destruct (data !! i) as [b|] eqn:Hb; [|done]. intros [= <-]. cbn [ir_rsi ir_signal ir_bar ir_sma20].
    assert (Hl : map bar_last data !! i = Some (bar_last b)) by (by rewrite list_lookup_fmap, Hb).
    destruct (lookup_length_eq _ _ i _ (osc_rsi_length (map bar_last data)) Hl) as [r Hr].
    destruct (lookup_length_eq _ _ i _ (rolling_length 20 num_mean (map bar_last data)) Hl) as [s Hs].
    rewrite (col_at_lookup _ _ _ _ Hr), (col_at_lookup _ _ _ _ Hs),
            (col_at_lookup _ _ _ _ (signals_lookup _ _ _ _ _ _ _ Hl Hs Hr)).
    split; [|done]. eapply Forall_lookup_1; [|exact Hr]. apply osc_rsi_range. by apply Forall_fmap.
Qed.
