(* ===== verification/Resample.v ===== *)
(** The weekly and monthly bars of [analyze_for_time_period]
    (src/Website/TechnicalAnalysis.py, lines 53-68):
    [data.set_index('Date').resample(rule).agg({'Last Trade Price': 'mean',
    'Max': 'max', 'Min': 'min', 'Volume': 'sum'}).reset_index()].

    pandas cuts the time axis into bins closed on the right and labelled by
    their right end: ['W'] ([W-SUN]) ends every bin on a Sunday, ['ME'] on
    the last day of a month.  A [rule] gives the bin of a day as an integer
    ([bin_index]) and the label of a bin ([bin_label]): a week is
    [(d + 6) / 7] and ends on day [7 k] (day 7 of the proleptic calendar is
    a Sunday); a month is [12 y + m - 1] and ends on [ymd y m
    (days_in_month y m)].  The result has one row per bin from the bin of
    the first date to the bin of the last, empty bins included; rows whose
    date is NaT form a first bin labelled NaT ([_get_time_bins] puts it in
    front), and a frame whose dates are all NaT raises [ValueError]
    ([date_range] of NaT bounds).  Each bin's price is the mean of its
    non-NaN prices, its high and low the extremes of its non-NaN values,
    NaN when there are none, and its volume the sum of its non-NaN volumes
    (0 for an empty bin). *)

From Stdlib Require Import QArith Qabs Lqa.
From S2P Require Import Prelude Dates Numeric Indicators.

Close Scope Q_scope.
Local Open Scope Z_scope.

(** ** Aggregations *)

Definition skipna (xs : list num) : list num := filter (fun x => negb (is_missing x)) xs.

(** ['mean'], ['max'], ['min'], ['sum'] of a group, NaN skipped. *)
Definition agg_mean (xs : list num) : num :=
  match skipna xs with [] => NNaN | v => num_mean v end.
Definition agg_max (xs : list num) : num :=
  match skipna xs with [] => NNaN | x :: r => foldl num_max x r end.
Definition agg_min (xs : list num) : num :=
  match skipna xs with [] => NNaN | x :: r => foldl num_min x r end.
Definition agg_sum (xs : list num) : num := num_sum (skipna xs).

(** The row of one bin. *)
Definition agg_bin (label : option date) (rows : list bar) : bar :=
  Bar label (agg_mean (map bar_last rows)) (agg_max (map bar_max rows))
      (agg_min (map bar_min rows)) (agg_sum (map bar_volume rows)).

(** ** Rules *)

Record rule := Rule { bin_index : date -> Z; bin_label : Z -> date }.

(** ['W']: the week of [d] ends on the Sunday [7 * ((d + 6) / 7)]. *)
Definition rule_W : rule := Rule (fun d => (d + 6) / 7) (fun k => 7 * k).

Definition month_index (d : date) : Z := let '(y, m, _) := ord2ymd d in 12 * y + (m - 1).

Definition month_label (k : Z) : date :=
  let y := k / 12 in let m := k mod 12 + 1 in ymd y m (days_in_month y m).

(** ['ME']: the month of [d] ends on its last day. *)
Definition rule_ME : rule := Rule month_index month_label.

(** The bin of a row: none for NaT. *)
Definition row_bin (r : rule) (b : bar) : option Z := bin_index r <$> bar_date b.

(** The bins [lo .. hi] of a frame, after the NaT bin when there is one. *)
Definition resample_bins (r : rule) (data : list bar) (lo hi : Z) : list bar :=
  let nat_rows := filter (fun b => bool_decide (bar_date b = None)) data in
  (if bool_decide (nat_rows = []) then [] else [agg_bin None nat_rows]) ++
  map (fun j => agg_bin (Some (bin_label r j)) (filter (fun b => bool_decide (row_bin r b = Some j)) data))
      (seqZ lo (hi - lo + 1)).

Definition resample (r : rule) (data : list bar) : result (list bar) :=
  match data with
  | [] => Ok []
  | _ =>
    match omap (row_bin r) data with
    | [] => raise ValueError
    | k :: ks => Ok (resample_bins r data (foldl Z.min k ks) (foldl Z.max k ks))
    end
  end.

(** The total volume of a frame, NaN counted as 0. *)
Definition volume (rows : list bar) : Q := Qsum (map (fun b => obs_val (bar_volume b)) rows).

(** ** Sums of volumes *)

Section QsumLemmas.
Context {A : Type}.
Implicit Types (l : list A) (f g : A -> Q).

Lemma Qsum_map_ext f g l : (forall x, x ∈ l -> f x == g x)%Q -> (Qsum (map f l) == Qsum (map g l))%Q.
Proof.
  induction l as [|x l IH]; intros H; cbn [map Qsum]; [reflexivity|].
  rewrite H, IH by set_solver. reflexivity.
Qed.

Lemma Qsum_map_plus f g l : (Qsum (map (fun x => f x + g x) l) == Qsum (map f l) + Qsum (map g l))%Q.
Proof. induction l as [|x l IH]; cbn [map Qsum]; [ring|]. rewrite IH. ring. Qed.

Lemma Qsum_filter_cons (p : A -> bool) f x l :
  (Qsum (map f (filter p (x :: l))) == (if p x then f x else 0) + Qsum (map f (filter p l)))%Q.
Proof.
  destruct (p x) eqn:E;
    [rewrite filter_cons_True by (rewrite E; simpl; tauto) | rewrite filter_cons_False by (rewrite E; simpl; tauto)];
    cbn [map Qsum]; ring.
Qed.

(** Splitting a sum by a predicate. *)
Lemma Qsum_filter_split (p : A -> bool) f l :
  (Qsum (map f (filter p l)) + Qsum (map f (filter (fun x => negb (p x)) l)) == Qsum (map f l))%Q.
Proof.
  induction l as [|x l IH]; [cbn; ring|].
  rewrite !Qsum_filter_cons. cbn [map Qsum]. rewrite <-IH. destruct (p x); cbn [negb]; ring.
Qed.
End QsumLemmas.

Lemma Qsum_indicator (x : Z) (c : Q) (js : list Z) :
  NoDup js -> (Qsum (map (fun j => if bool_decide (x = j) then c else 0%Q) js) ==
               if bool_decide (x ∈ js) then c else 0)%Q.
Proof.
  induction 1 as [|j js Hj Hnd IH]; cbn [map Qsum]; [reflexivity|]. rewrite IH.
  destruct (decide (x = j)) as [->|Hne].
  - rewrite (bool_decide_false (j ∈ js)) by done. rewrite !bool_decide_true by set_solver. ring.
  - rewrite bool_decide_false by done.
    destruct (decide (x ∈ js)); [rewrite !bool_decide_true by set_solver | rewrite !bool_decide_false by set_solver]; ring.
Qed.

(** The volumes of the bins [js] add up to the volume of the rows that
    have a bin, when every such bin is one of [js]. *)
Lemma Qsum_bins (v : bar -> Q) (key : bar -> option Z) (js : list Z) (l : list bar) :
  NoDup js -> (forall b k, b ∈ l -> key b = Some k -> k ∈ js) ->
  (Qsum (map (fun j => Qsum (map v (filter (fun b => bool_decide (key b = Some j)) l))) js) ==
   Qsum (map v (filter (fun b => bool_decide (key b <> None)) l)))%Q.
Proof.
  intros Hnd. induction l as [|b l IH]; intros Hin.
  - cbn. clear. induction js; cbn; [reflexivity|]. rewrite IHjs. ring.
  - transitivity (Qsum (map (fun j => if bool_decide (key b = Some j) then v b else 0%Q) js) +
                  Qsum (map (fun j => Qsum (map v (filter (fun b => bool_decide (key b = Some j)) l))) js))%Q.
    { rewrite <-Qsum_map_plus. apply Qsum_map_ext. intros j _. apply (Qsum_filter_cons (fun b => bool_decide (key b = Some j))). }
    rewrite IH by set_solver. rewrite Qsum_filter_cons. f_equiv.
    destruct (key b) as [k|] eqn:Hk.
    + transitivity (Qsum (map (fun j => if bool_decide (k = j) then v b else 0%Q) js)).
      { apply Qsum_map_ext. intros j _.
        destruct (decide (k = j)) as [->|?]; [rewrite !bool_decide_true | rewrite !bool_decide_false by congruence]; done. }
      rewrite Qsum_indicator by done.
      rewrite (bool_decide_true (k ∈ js)) by (apply (Hin b k); [set_solver | done]).
      rewrite (bool_decide_true (Some k ≠ None)) by done. reflexivity.
    + rewrite (bool_decide_false (None <> None)) by (intros H; by apply H).
      transitivity (Qsum (map (fun _ => 0%Q) js)).
      { apply Qsum_map_ext. intros j _. by rewrite bool_decide_false. }
      clear. induction js; cbn; [reflexivity|]. rewrite IHjs. ring.
Qed.

Lemma foldl_min_le (a : Z) ks x : x ∈ a :: ks -> foldl Z.min a ks <= x.
Proof.
  revert a x; induction ks as [|y ks IH]; intros a x Hx; cbn [foldl].
  - apply list_elem_of_singleton in Hx. lia.
  - assert (foldl Z.min (Z.min a y) ks <= Z.min a y) by (apply IH; left).
    apply elem_of_cons in Hx as [->|[->|Hx]%elem_of_cons]; [lia | lia | apply IH; by right].
Qed.

Lemma foldl_max_ge (a : Z) ks x : x ∈ a :: ks -> x <= foldl Z.max a ks.
Proof.
  revert a x; induction ks as [|y ks IH]; intros a x Hx; cbn [foldl].
  - apply list_elem_of_singleton in Hx. lia.
  - assert (Z.max a y <= foldl Z.max (Z.max a y) ks) by (apply IH; left).
    apply elem_of_cons in Hx as [->|[->|Hx]%elem_of_cons]; [lia | lia | apply IH; by right].
Qed.

Lemma num_sum_foldl a xs :
  Forall (fun x => exists q, x = NFin q) xs ->
  exists q, foldl num_add (NFin a) xs = NFin q /\ (q == a + Qsum (map obs_val xs))%Q.
Proof.
  intros H. revert a; induction H as [|x xs (c & ->) _ IH]; intros a; cbn [foldl map Qsum].
  - exists a. split; [done | ring].
  - destruct (IH (a + c)%Q) as (q & Hq & Heq). exists q. split; [done|]. rewrite Heq. cbn. ring.
Qed.

Lemma Qsum_obs_missing xs : (Qsum (map obs_val (filter (fun x => negb (negb (is_missing x))) xs)) == 0)%Q.
Proof.
  induction xs as [|x xs IH]; [reflexivity|].
  rewrite (Qsum_filter_cons (fun x => negb (negb (is_missing x)))), IH. destruct x; cbn; ring.
Qed.

(** A bin's volume is the sum of the finite volumes of its rows. *)
(** Without infinities, the values [skipna] keeps are finite. *)
Lemma skipna_fin xs :
  Forall (fun x => finite_or_nan x = true) xs -> Forall (fun x => exists q, x = NFin q) (skipna xs).
Proof.
  intros H. apply Forall_forall. intros x [Hm Hx]%list_elem_of_filter.
  eapply Forall_forall in H; [|exact Hx]. destruct x as [| |c]; simpl in *; try done. by exists c.
Qed.

Lemma agg_sum_val xs :
  Forall (fun x => finite_or_nan x = true) xs ->
  exists q, agg_sum xs = NFin q /\ (q == Qsum (map obs_val xs))%Q.
Proof.
  intros H. unfold agg_sum, num_sum.
  destruct (num_sum_foldl 0 (skipna xs) (skipna_fin xs H)) as (q & Hq & Heq).
  exists q. split; [done|]. rewrite Heq, <-(Qsum_filter_split (fun x => negb (is_missing x)) obs_val xs).
  unfold skipna.
  rewrite Qsum_obs_missing. ring.
Qed.

Lemma agg_bin_volume l rows :
  Forall (fun b => finite_or_nan (bar_volume b) = true) rows ->
  (obs_val (bar_volume (agg_bin l rows)) == volume rows)%Q.
Proof.
  intros H. cbn [agg_bin bar_volume].
  destruct (agg_sum_val (map bar_volume rows)) as (q & -> & Hq); [by apply Forall_fmap|].
  cbn [obs_val]. rewrite Hq. unfold volume. by rewrite map_map.
Qed.

Lemma volume_app l1 l2 : (volume (l1 ++ l2) == volume l1 + volume l2)%Q.
Proof. unfold volume. by rewrite map_app, Qsum_app. Qed.

Lemma Forall_filter_sub {A} (P : A -> Prop) (p : A -> bool) l : Forall P l -> Forall P (filter p l).
Proof. intros H. apply Forall_forall. intros x [_ Hx]%list_elem_of_filter. by eapply Forall_forall in H. Qed.

Lemma resample_bins_volume r data lo hi :
  Forall (fun b => finite_or_nan (bar_volume b) = true) data ->
  (forall b k, b ∈ data -> row_bin r b = Some k -> lo <= k <= hi) ->
  (volume (resample_bins r data lo hi) == volume data)%Q.
Proof.
  intros Hf Hin. unfold resample_bins. rewrite volume_app.
  assert (Hnat : (volume (if bool_decide (filter (fun b => bool_decide (bar_date b = None)) data = []) then []
                          else [agg_bin None (filter (fun b => bool_decide (bar_date b = None)) data)]) ==
                  volume (filter (fun b => bool_decide (bar_date b = None)) data))%Q).
  { case_bool_decide as Hn; [by rewrite Hn|]. unfold volume at 1. cbn [map Qsum].
    rewrite agg_bin_volume by (by apply Forall_filter_sub). ring. }
  rewrite Hnat. unfold volume at 2. rewrite map_map.
  rewrite (Qsum_map_ext _ (fun j => volume (filter (fun b => bool_decide (row_bin r b = Some j)) data)))
    by (intros j _; apply agg_bin_volume, Forall_filter_sub, Hf).
  assert (Hfe : filter (fun b => bool_decide (row_bin r b <> None)) data =
                filter (fun b => negb (bool_decide (bar_date b = None))) data).
  { apply list_filter_iff. intros b. unfold row_bin.
    destruct (bar_date b); cbn; repeat case_bool_decide; naive_solver. }
  unfold volume. rewrite Qsum_bins; [|apply NoDup_seqZ|].
  - rewrite Hfe. apply (Qsum_filter_split (fun b => bool_decide (bar_date b = None))).
  - intros b k Hb Hk. apply elem_of_seqZ. specialize (Hin b k Hb Hk). lia.
Qed.

(** C22: resampling to weeks or months keeps the total volume: the
    ['Volume': 'sum'] column of the bins adds up to the volume of the
    frame (NaN volumes count as 0), the rows with a NaT date included,
    whenever the volumes are finite or NaN and [resample] returns. *)
Theorem resample_volume r data out :
  Forall (fun b => finite_or_nan (bar_volume b) = true) data ->
  resample r data = Ok out -> (volume out == volume data)%Q.
Proof.
  intros Hf Hr. unfold resample in Hr. destruct data as [|b0 data']; [by injection Hr as <-|].
  destruct (omap (row_bin r) (b0 :: data')) as [|k ks] eqn:Hom; [done|]. injection Hr as <-.
  apply resample_bins_volume; [done|]. intros b k' Hb Hk'.
  assert (Hk'in : k' ∈ k :: ks) by (rewrite <-Hom; apply list_elem_of_omap; by exists b).
  split; [by apply foldl_min_le | by apply foldl_max_ge].
Qed.

(** C28: a ['W'] bin is a week ending on Sunday: the label of the bin of
    any day [d] is a Sunday ([weekday = 6]), on or after [d] and less than
    seven days after it. *)
Theorem week_bin_spec d :
  let e := bin_label rule_W (bin_index rule_W d) in weekday e = 6 /\ d <= e < d + 7.
Proof. cbn. unfold weekday. zlia. Qed.

(** C25: an ['ME'] bin is a calendar month labelled by its last day: for
    every valid day [d] in month [m] of year [y], the label of its bin is
    the date [(y, m, days_in_month y m)], which is not before [d]. *)
Theorem month_bin_spec d :
  1 <= d ->
  let '(y, m, _) := ord2ymd d in
  let e := bin_label rule_ME (bin_index rule_ME d) in
  ord2ymd e = (y, m, days_in_month y m) /\ d <= e.
Proof.
  intros Hd. pose proof (ymd_ord2ymd d Hd) as Hv.
  destruct (ord2ymd d) as [[y m] dd] eqn:E. destruct Hv as (Hy & Hm & Hdd & Hymd).
  cbn [bin_label bin_index rule_ME]. unfold month_index. rewrite E. unfold month_label.
  replace ((12 * y + (m - 1)) / 12) with y by zlia.
  replace ((12 * y + (m - 1)) mod 12 + 1) with m by zlia.
  split; [apply ord2ymd_ymd; lia|]. rewrite <-Hymd. unfold ymd. lia.
Qed.

Lemma omap_row_bin_nil r data :
  omap (row_bin r) data = [] <-> Forall (fun b => bar_date b = None) data.
Proof.
  induction data as [|b data IH]; simpl; [split; constructor|].
  destruct (row_bin r b) eqn:Hb; unfold row_bin in Hb; destruct (bar_date b) eqn:Hd; simpl in Hb;
    try discriminate.
  - split; [done|]. intros H; inversion H; congruence.
  - rewrite IH, Forall_cons. naive_solver.
Qed.

(** [resample] raises only [ValueError], and exactly on a frame with rows
    whose dates are all NaT. *)
Lemma resample_Err r data e :
  resample r data = Err e <->
  e = ValueError /\ data <> [] /\ Forall (fun b => bar_date b = None) data.
Proof.
  unfold resample. destruct data as [|b data]; [split; [done | intros (_ & [] & _); done]|].
  rewrite <-(omap_row_bin_nil r). destruct (omap (row_bin r) (b :: data)); split.
  - intros [= <-]. by split_and!.
  - by intros (-> & _).
  - done.
  - by intros (_ & _ & ?).
Qed.

(** ** Prices stay finite *)

(** The ['mean'] of a group without infinities is finite or NaN (NaN for
    a group of NaN only): the count it divides by is not 0. *)
Lemma agg_mean_finite xs :
  Forall (fun x => finite_or_nan x = true) xs -> finite_or_nan (agg_mean xs) = true.
Proof.
  intros H. pose proof (skipna_fin xs H) as Hf. unfold agg_mean.
  destruct (skipna xs) as [|v vs]; [done|]. unfold num_mean, num_sum.
  destruct (num_sum_foldl 0 (v :: vs) Hf) as (q & -> & _). cbn [num_div].
  destruct (Qeq_bool _ 0) eqn:E; [|done]. exfalso.
  apply Qeq_bool_iff in E. unfold Qeq in E. cbn [Qnum Qden inject_Z] in E.
  rewrite length_cons in E. lia.
Qed.

Lemma agg_bin_last l rows :
  Forall (fun b => finite_or_nan (bar_last b) = true) rows -> finite_or_nan (bar_last (agg_bin l rows)) = true.
Proof. intros H. apply agg_mean_finite. by apply Forall_fmap. Qed.

(** Resampling a frame whose prices have no infinity gives bars whose
    prices have none. *)
Lemma resample_last_finite r data out :
  Forall (fun b => finite_or_nan (bar_last b) = true) data -> resample r data = Ok out ->
  Forall (fun b => finite_or_nan (bar_last b) = true) out.
Proof.
  intros Hf Hr. unfold resample in Hr. destruct data as [|b0 data']; [by injection Hr as <-|].
  destruct (omap _ _) as [|k ks]; [done|]. injection Hr as <-. unfold resample_bins.
  apply Forall_app; split.
  - case_bool_decide; [constructor|]. apply Forall_singleton, agg_bin_last, Forall_filter_sub, Hf.
  - apply Forall_fmap, Forall_true. intros j. apply agg_bin_last, Forall_filter_sub, Hf.
Qed.
