(* ===== verification/Technical.v ===== *)
(** [analyze_for_time_period] and [technical_analysis]
    (src/Website/TechnicalAnalysis.py, lines 44-143).

    [technical_analysis] reads the whole [stock_data] table (a full scan of
    a rowid table: insertion order, which is the order of the list), sorts
    it by [issuer_code] then [Date] with the missing values last
    ([sort_values], a stable lexicographic sort: [merge_sort] on
    [row_key_le]), and for every distinct code ([pd.unique], in order of
    first appearance) and every period ['daily'], ['weekly'], ['monthly']
    adds the analyzed frame, with its code and period, to [results].  The
    rows of a code are selected with [stock_data['issuer_code'] == issuer];
    for the NULL code ([None]) this comparison is false on every row, so the
    frame is empty.  [pd.concat(results)] raises [ValueError] when [results]
    is empty, and the table [technical_indicators] is replaced by the
    concatenation, restricted to thirteen columns ([ti_row]).  The
    oscillators are those of any [Oscillators] instance. *)

From Stdlib Require Import QArith String Ascii.
From stdpp Require Import strings sorting.
From S2P Require Import Prelude Dates Numeric Scraper Database Indicators Resample.

Close Scope Q_scope.
Local Open Scope Z_scope.

(** ** [analyze_for_time_period] *)

Definition analyze_for_time_period `{Oscillators} (data : list bar) (period : string)
    : result (list (ind_row * string)) :=
  let tag rows := Ok (map (fun r => (r, period)) (calculate_indicators rows)) in
  if String.eqb period "daily" then tag data
  else if String.eqb period "weekly" then resampled ← resample rule_W data; tag resampled
  else if String.eqb period "monthly" then resampled ← resample rule_ME data; tag resampled
  else raise ValueError.

(** ** [technical_analysis] *)

(** [a <= b] with a missing value after every other one. *)
Definition opt_le {A} (le : A -> A -> bool) (x y : option A) : bool :=
  match x, y with
  | Some a, Some b => le a b
  | Some _, None => true
  | None, Some _ => false
  | None, None => true
  end.

(** Python's order on strings: code point by code point. *)
Definition str_le (a b : string) : bool :=
  match String.compare a b with Gt => false | _ => true end.

(** The order of [sort_values(by=['issuer_code', 'Date'])]. *)
Definition row_key_le (a b : stock_row) : bool :=
  if bool_decide (sr_code a = sr_code b) then opt_le Z.leb (sr_date a) (sr_date b)
  else opt_le str_le (sr_code a) (sr_code b).

Definition row_before (a b : stock_row) : Prop := row_key_le a b = true.

#[export] Instance row_before_dec : RelDecision row_before :=
  fun a b => decide (row_key_le a b = true).

(** [pd.unique]: the distinct values in order of first appearance. *)
Definition pd_unique {A} `{EqDecision A} (l : list A) : list A :=
  foldl (fun acc x => if decide (x ∈ acc) then acc else acc ++ [x]) [] l.

(** [stock_data['issuer_code'] == issuer]: [None == None] is false in a
    pandas comparison. *)
Definition code_matches (issuer : option string) (s : stock_row) : bool :=
  match issuer with Some c => bool_decide (sr_code s = Some c) | None => false end.

(** The columns of a row the indicators read. *)
Definition to_bar (s : stock_row) : bar :=
  Bar (sr_date s) (sr_last s) (sr_max s) (sr_min s) (sr_volume s).

(** A row of [technical_indicators]. *)
Record ti_row := TiRow {
  ti_code : option string;
  ti_date : option date;
  ti_period : string;
  ti_signal : signal;
  ti_sma20 : num; ti_sma50 : num; ti_ema20 : num; ti_ema50 : num;
  ti_rsi : num; ti_macd : num; ti_stoch : num; ti_cci : num; ti_wr : num
}.

(** [results_df[['issuer_code', 'Date', 'time_period', 'Signal', ...]]] *)
Definition select_columns (issuer : option string) (rp : ind_row * string) : ti_row :=
  let '(r, period) := rp in
  TiRow issuer (bar_date (ir_bar r)) period (ir_signal r) (ir_sma20 r) (ir_sma50 r)
        (ir_ema20 r) (ir_ema50 r) (ir_rsi r) (ir_macd r) (ir_stoch r) (ir_cci r) (ir_wr r).

Definition periods : list string := ["daily"; "weekly"; "monthly"].

(** The frames of one issuer, one per period, with its code. *)
Definition analyze_issuer `{Oscillators} (stock_data : list stock_row) (issuer : option string)
    : result (list (list ti_row)) :=
  let issuer_data := map to_bar (filter (code_matches issuer) stock_data) in
  mapM (fun period => analyzed ← analyze_for_time_period issuer_data period;
                      mret (map (select_columns issuer) analyzed)) periods.

Definition technical_analysis `{Oscillators} (stock_table : list stock_row) : result (list ti_row) :=
  let stock_data := merge_sort row_before stock_table in
  let issuers := pd_unique (map sr_code stock_data) in
  results ← mapM (analyze_issuer stock_data) issuers;
  let results := concat results in
  if bool_decide (results = []) then raise ValueError else mret (concat results).

(** The (code, date) keys of the daily rows of the output. *)
Definition daily_keys (rows : list ti_row) : list (option string * option date) :=
  map (fun t => (ti_code t, ti_date t)) (filter (fun t => bool_decide (ti_period t = "daily")) rows).

(** ** Lemmas *)

Lemma pd_unique_acc {A} `{EqDecision A} (acc l : list A) :
  NoDup acc ->
  NoDup (foldl (fun acc x => if decide (x ∈ acc) then acc else acc ++ [x]) acc l) /\
  forall y, y ∈ foldl (fun acc x => if decide (x ∈ acc) then acc else acc ++ [x]) acc l <-> y ∈ acc \/ y ∈ l.
Proof.
  revert acc; induction l as [|x l IH]; intros acc Hnd; simpl; [set_solver|].
  destruct (decide (x ∈ acc)).
  - destruct (IH acc Hnd) as [? Hel]. split; [done|]. set_solver.
  - destruct (IH (acc ++ [x])) as [? Hel]; [apply NoDup_app; split_and!; [done | set_solver | apply NoDup_singleton]|].
    split; [done|]. set_solver.
Qed.

Lemma pd_unique_spec {A} `{EqDecision A} (l : list A) :
  NoDup (pd_unique l) /\ forall y, y ∈ pd_unique l <-> y ∈ l.
Proof. destruct (pd_unique_acc [] l) as [? Hel]; [constructor|]. split; [done|]. set_solver. Qed.

Lemma analyze_Err `{Oscillators} data period e :
  period ∈ periods ->
  analyze_for_time_period data period = Err e <->
  e = ValueError /\ period <> "daily" /\ data <> [] /\ Forall (fun b => bar_date b = None) data.
Proof.
  intros Hp. unfold analyze_for_time_period.
  repeat (apply elem_of_cons in Hp as [->|Hp]; [cbn -[resample calculate_indicators]|]); [..|set_solver].
  - naive_solver.
  - destruct (resample rule_W data) as [out|e'] eqn:Hr; cbn.
    + split; [done|]. intros (-> & _ & Hd).
      assert (resample rule_W data = Err ValueError) by (apply resample_Err; naive_solver). congruence.
    + rewrite resample_Err in Hr. naive_solver.
  - destruct (resample rule_ME data) as [out|e'] eqn:Hr; cbn.
    + split; [done|]. intros (-> & _ & Hd).
      assert (resample rule_ME data = Err ValueError) by (apply resample_Err; naive_solver). congruence.
    + rewrite resample_Err in Hr. naive_solver.
Qed.

Lemma analyze_issuer_Err_inv `{Oscillators} sd issuer e :
  analyze_issuer sd issuer = Err e ->
  e = ValueError /\ map to_bar (filter (code_matches issuer) sd) <> [] /\
  Forall (fun b => bar_date b = None) (map to_bar (filter (code_matches issuer) sd)).
Proof.
  unfold analyze_issuer. intros (p & Hp & Hpe)%mapM_Err.
  destruct (analyze_for_time_period _ p) eqn:Ha; [done|]. injection Hpe as ->.
  apply analyze_Err in Ha as (-> & _ & ?); [|done]. done.
Qed.

(** The analysis of one issuer raises [ValueError] exactly when its frame
    has rows and all their dates are NaT (the weekly resampling fails). *)
Lemma analyze_issuer_Err `{Oscillators} sd issuer e :
  analyze_issuer sd issuer = Err e <->
  e = ValueError /\ map to_bar (filter (code_matches issuer) sd) <> [] /\
  Forall (fun b => bar_date b = None) (map to_bar (filter (code_matches issuer) sd)).
Proof.
  split; [apply analyze_issuer_Err_inv|]. intros (-> & Hne & Hf).
  assert (Hw : analyze_for_time_period (map to_bar (filter (code_matches issuer) sd)) "weekly" = Err ValueError)
    by (apply analyze_Err; [set_solver | done]).
  unfold analyze_issuer.
  destruct (mapM_Err_elem (fun period => analyzed ← analyze_for_time_period
                              (map to_bar (filter (code_matches issuer) sd)) period;
                            mret (map (select_columns issuer) analyzed)) periods "weekly" ValueError)
    as [e' He']; [set_solver | by rewrite Hw |].
  rewrite He'. f_equal. by apply (analyze_issuer_Err_inv sd issuer).
Qed.

Lemma filter_code_None sd : filter (code_matches None) sd = [].
Proof. apply filter_none, Forall_true. intros s []. Qed.

(** The frame of an issuer has rows, all with a NaT date, exactly for a
    code whose rows all have a NULL date. *)
Lemma issuer_frame_all_nat sd issuer :
  map to_bar (filter (code_matches issuer) sd) <> [] /\
  Forall (fun b => bar_date b = None) (map to_bar (filter (code_matches issuer) sd)) <->
  exists c, issuer = Some c /\ (exists s, s ∈ sd /\ sr_code s = Some c) /\
            forall s, s ∈ sd -> sr_code s = Some c -> sr_date s = None.
Proof.
  destruct issuer as [c|]; cbn [code_matches].
  - rewrite Forall_fmap, Forall_forall. split.
    + intros [Hne Hall]. exists c. split; [done|]. split.
      * destruct (filter _ sd) as [|s l] eqn:Hf; [done|].
        assert (Hs : s ∈ filter (fun s => bool_decide (sr_code s = Some c)) sd) by (rewrite Hf; left).
        apply list_elem_of_filter in Hs as [Hc Hs]. exists s. split; [done|]. by apply bool_decide_unpack in Hc.
      * intros s Hs Hc. apply (Hall s), list_elem_of_filter. split; [by apply bool_decide_pack | done].
    + intros (c' & [= <-] & (s & Hs & Hc) & Hall). split.
      * intros Hnil%map_eq_nil. assert (Hin : s ∈ filter (fun s => bool_decide (sr_code s = Some c)) sd)
          by (apply list_elem_of_filter; split; [by apply bool_decide_pack | done]).
        rewrite Hnil in Hin. set_solver.
      * intros s' [Hc' Hs']%list_elem_of_filter. apply Hall; [done|]. by apply bool_decide_unpack in Hc'.
  - rewrite filter_code_None. cbn. naive_solver.
Qed.

Lemma analyze_issuer_length `{Oscillators} sd issuer frames :
  analyze_issuer sd issuer = Ok frames -> length frames = 3%nat.
Proof. intros Hm%mapM_length. done. Qed.

Lemma results_nil `{Oscillators} sd issuers results :
  mapM (analyze_issuer sd) issuers = Ok results -> concat results = [] <-> issuers = [].
Proof.
  intros Hm. pose proof (mapM_length _ _ _ Hm) as Hlen. apply mapM_Ok in Hm.
  destruct issuers as [|i issuers]; [destruct results; done|].
  destruct results as [|frames results]; [done|]. inversion Hm as [|? ? ? ? Hf]; subst.
  apply analyze_issuer_length in Hf. split; [|done]. intros Hc.
  simpl in Hc. apply app_eq_nil in Hc as [-> _]. done.
Qed.

Lemma issuers_nil sd : pd_unique (map sr_code sd) = [] <-> sd = [].
Proof.
  destruct (pd_unique_spec (map sr_code sd)) as [_ Hel]. split; [|by intros ->].
  intros Hnil. destruct sd as [|s sd]; [done|]. exfalso.
  assert (Hin : sr_code s ∈ pd_unique (map sr_code (s :: sd))) by (apply Hel; left).
  rewrite Hnil in Hin. set_solver.
Qed.

(** [technical_analysis] raises only [ValueError], and exactly on an empty
    table ([pd.concat([])]) or when some issuer code has rows and all of
    them have a NULL date (its weekly [resample] fails); otherwise it
    returns the new [technical_indicators] table. *)
Lemma technical_analysis_Err `{Oscillators} tbl e :
  technical_analysis tbl = Err e <->
  e = ValueError /\
  (tbl = [] \/ exists c, (exists s, s ∈ tbl /\ sr_code s = Some c) /\
                         forall s, s ∈ tbl -> sr_code s = Some c -> sr_date s = None).
Proof.
  pose proof (merge_sort_Permutation row_before tbl) as Hperm.
  set (sd := merge_sort row_before tbl) in *.
  assert (Hbad : forall issuer, issuer ∈ pd_unique (map sr_code sd) ->
            (forall e, analyze_issuer sd issuer = Err e <-> e = ValueError /\
              exists c, issuer = Some c /\ (exists s, s ∈ tbl /\ sr_code s = Some c) /\
                        forall s, s ∈ tbl -> sr_code s = Some c -> sr_date s = None)).
  { intros issuer _ e'. rewrite analyze_issuer_Err, issuer_frame_all_nat.
    setoid_rewrite Hperm. done. }
  unfold technical_analysis. fold sd.
  destruct (mapM (analyze_issuer sd) (pd_unique (map sr_code sd))) as [results|e'] eqn:Hm; simpl.
  - assert (Hgood : ~ exists c, (exists s, s ∈ tbl /\ sr_code s = Some c) /\
                       forall s, s ∈ tbl -> sr_code s = Some c -> sr_date s = None).
    { intros (c & (s & Hs & Hc) & Hall).
      assert (Hin : Some c ∈ pd_unique (map sr_code sd)).
      { apply pd_unique_spec, list_elem_of_fmap. exists s. split; [done|]. by rewrite Hperm. }
      destruct (mapM_Err_elem (analyze_issuer sd) _ _ ValueError Hin) as [e'' He''];
        [apply Hbad; [done|]; split; [done|]; exists c; naive_solver | congruence]. }
    assert (Hiff : concat results = [] <-> tbl = []).
    { rewrite (results_nil _ _ _ Hm), issuers_nil. pose proof (Permutation_length Hperm) as Hlen.
      split; intros Hz; apply length_zero_iff_nil; [rewrite <-Hlen | rewrite Hlen]; by rewrite Hz. }
    case_bool_decide as Hc; [apply Hiff in Hc|]; naive_solver.
  - apply mapM_Err in Hm as (issuer & Hi & He). apply (Hbad issuer Hi) in He as [-> Hc].
    split; [intros [= <-]; naive_solver | intros [-> _]; done].
Qed.

(** ** The daily rows *)

Section Blocks.
Context {A K : Type} `{EqDecision K}.
Variables (blk : K -> A -> bool) (owner : A -> option K).
Hypothesis blk_owner : forall x k, blk k x = true <-> owner x = Some k.

Lemma concat_insert_block (x : A) (F : K -> list A) (k0 : K) (ks : list K) :
  NoDup ks -> k0 ∈ ks ->
  concat (map (fun k => if bool_decide (k = k0) then x :: F k else F k) ks) ≡ₚ x :: concat (map F ks).
Proof.
  induction 1 as [|k ks Hk Hnd IH]; intros Hin; [set_solver|]. simpl.
  case_bool_decide as Hkk.
  - subst. assert (Hm : map (fun k => if bool_decide (k = k0) then x :: F k else F k) ks = map F ks).
    { apply map_ext_in. intros k Hk'. rewrite bool_decide_false; [done|].
      intros ->. apply Hk. by apply list_elem_of_In. }
    by rewrite Hm.
  - rewrite IH by set_solver. by rewrite Permutation_middle.
Qed.

(** Splitting a list into the blocks of its owners and concatenating them
    gives back the owned elements, up to order. *)
Lemma concat_blocks (ks : list K) (l : list A) :
  NoDup ks -> (forall x k, x ∈ l -> owner x = Some k -> k ∈ ks) ->
  concat (map (fun k => filter (blk k) l) ks) ≡ₚ filter (fun x => bool_decide (owner x <> None)) l.
Proof.
  intros Hnd. induction l as [|x l IH]; intros Hin.
  - simpl. clear. induction ks; simpl; [done|]. by rewrite IHks.
  - destruct (owner x) as [k0|] eqn:Hx.
    + rewrite filter_cons_True by (apply bool_decide_pack; congruence).
      rewrite <-IH by set_solver. rewrite <-concat_insert_block with (k0 := k0); [|done|by eapply Hin; [left|]].
      assert (Hm : map (fun k => filter (blk k) (x :: l)) ks =
                   map (fun k => if bool_decide (k = k0) then x :: filter (blk k) l else filter (blk k) l) ks).
      { apply map_ext_in. intros k _. destruct (decide (k = k0)) as [->|Hne].
        - rewrite bool_decide_true by done. apply filter_cons_True. apply Is_true_true, blk_owner, Hx.
        - rewrite bool_decide_false by done. apply filter_cons_False.
          intros Hb%Is_true_true. apply blk_owner in Hb. congruence. }
      by rewrite Hm.
    + rewrite filter_cons_False by (intros Hb%bool_decide_unpack; congruence).
      rewrite <-IH by set_solver.
      assert (Hm : map (fun k => filter (blk k) (x :: l)) ks = map (fun k => filter (blk k) l) ks).
      { apply map_ext_in. intros k _. apply filter_cons_False.
        intros Hb%Is_true_true. apply blk_owner in Hb. congruence. }
      by rewrite Hm.
Qed.
End Blocks.

Lemma tag_rows_period `{Oscillators} issuer period rows :
  Forall (fun t => ti_code t = issuer /\ ti_period t = period)
         (map (select_columns issuer) (map (fun r => (r, period)) (calculate_indicators rows))).
Proof. rewrite map_map. apply Forall_fmap, Forall_true. by intros r. Qed.

Lemma analyze_Ok `{Oscillators} data period rows :
  analyze_for_time_period data period = Ok rows ->
  exists frame, rows = map (fun r => (r, period)) (calculate_indicators frame) /\
                (period = "daily" -> frame = data).
Proof.
  unfold analyze_for_time_period.
  destruct (String.eqb_spec period "daily") as [->|Hd]; [intros [= <-]; by exists data|].
  destruct (String.eqb period "weekly"); [|destruct (String.eqb period "monthly"); [|done]];
    match goal with |- context [resample ?r data] => destruct (resample r data) as [f|] end;
    cbn; intros Hr; try done; injection Hr as <-; by exists f.
Qed.

Lemma analyze_issuer_rows `{Oscillators} sd issuer frames :
  analyze_issuer sd issuer = Ok frames ->
  Forall (fun t => ti_code t = issuer) (concat frames) /\
  daily_keys (concat frames) = map (fun s => (issuer, sr_date s)) (filter (code_matches issuer) sd).
Proof.
  unfold analyze_issuer. intros Hm%mapM_Ok.
  inversion Hm as [|p1 f1 ? ? H1 Hm2]; subst. inversion Hm2 as [|p2 f2 ? ? H2 Hm3]; subst.
  inversion Hm3 as [|p3 f3 ? ? H3 Hm4]; subst. inversion Hm4; subst. clear Hm Hm2 Hm3 Hm4.
  destruct (analyze_for_time_period _ "daily") as [rd|] eqn:Ed; [|done]. injection H1 as <-.
  destruct (analyze_for_time_period _ "weekly") as [rw|] eqn:Ew; [|done]. injection H2 as <-.
  destruct (analyze_for_time_period _ "monthly") as [rm|] eqn:Em; [|done]. injection H3 as <-.
  apply analyze_Ok in Ed as (fd & -> & Hfd). rewrite (Hfd eq_refl).
  apply analyze_Ok in Ew as (fw & -> & _). apply analyze_Ok in Em as (fm & -> & _).
  pose proof (tag_rows_period issuer "daily") as Pd.
  pose proof (tag_rows_period issuer "weekly" fw) as Pw. pose proof (tag_rows_period issuer "monthly" fm) as Pm.
  split.
  - cbn [concat]. rewrite !Forall_app. split_and!; [eapply Forall_impl; [apply Pd|]
      | eapply Forall_impl; [apply Pw|] | eapply Forall_impl; [apply Pm|] | done]; naive_solver.
  - unfold daily_keys. cbn [concat]. rewrite !filter_app, app_nil_r.
    rewrite (filter_all _ (map (select_columns issuer) (map _ (calculate_indicators (map to_bar _)))))
      by (eapply Forall_impl; [apply Pd|]; intros t [_ ->]; by apply bool_decide_pack).
    rewrite (filter_none _ (map (select_columns issuer) (map _ (calculate_indicators fw))))
      by (eapply Forall_impl; [apply Pw|]; intros t [_ ->]; by intros ?%bool_decide_unpack).
    rewrite (filter_none _ (map (select_columns issuer) (map _ (calculate_indicators fm))))
      by (eapply Forall_impl; [apply Pm|]; intros t [_ ->]; by intros ?%bool_decide_unpack).
    cbn [app]. rewrite app_nil_r.
    transitivity (map (fun b => (issuer, bar_date b))
      (map ir_bar (calculate_indicators (map to_bar (filter (code_matches issuer) sd))))).
    { rewrite !map_map. by apply map_ext. }
    by rewrite calculate_indicators_bars, map_map.
Qed.

Lemma analyze_issuer_None `{Oscillators} sd : analyze_issuer sd None = Ok [[]; []; []].
Proof. unfold analyze_issuer. rewrite filter_code_None. reflexivity. Qed.

Lemma daily_keys_app l1 l2 : daily_keys (l1 ++ l2) = daily_keys l1 ++ daily_keys l2.
Proof. unfold daily_keys. by rewrite filter_app, map_app. Qed.

Lemma results_rows `{Oscillators} sd issuers results :
  Forall2 (fun i fr => analyze_issuer sd i = Ok fr) issuers results ->
  Forall (fun t => ti_code t <> None) (concat (concat results)) /\
  daily_keys (concat (concat results)) =
    concat (map (fun i => map (fun s => (i, sr_date s)) (filter (code_matches i) sd)) issuers).
Proof.
  induction 1 as [|i fr issuers results Hi _ [IHf IHd]]; [done|]. cbn [concat map].
  rewrite concat_app, daily_keys_app, Forall_app, IHd.
  destruct (analyze_issuer_rows _ _ _ Hi) as [Hc Hd]. rewrite Hd. split; [|done]. split; [|done].
  destruct i as [c|]; [eapply Forall_impl; [exact Hc|]; by intros t ->|].
  rewrite analyze_issuer_None in Hi. by injection Hi as <-.
Qed.

(** The owner of a row for [concat_blocks]: its code, when there is one. *)
Lemma code_matches_owner s k :
  code_matches k s = true <-> (match sr_code s with Some c => Some (Some c) | None => None end) = Some k.
Proof.
  destruct k as [c|]; cbn [code_matches]; [|destruct (sr_code s); naive_solver].
  rewrite bool_decide_eq_true. destruct (sr_code s); naive_solver.
Qed.

Lemma issuer_blocks sd :
  concat (map (fun i => map (fun s => (i, sr_date s)) (filter (code_matches i) sd))
              (pd_unique (map sr_code sd))) ≡ₚ
  map (fun s => (sr_code s, sr_date s)) (filter (fun s => bool_decide (sr_code s <> None)) sd).
Proof.
  destruct (pd_unique_spec (map sr_code sd)) as [Hnd Hel].
  transitivity (map (fun s => (sr_code s, sr_date s))
    (concat (map (fun i => filter (code_matches i) sd) (pd_unique (map sr_code sd))))).
  { rewrite concat_map, map_map. apply reflexive_eq. f_equal. apply map_ext_in. intros i _. apply map_ext_in.
    intros s [Hm _]%list_elem_of_In%list_elem_of_filter. destruct i as [c|]; [|done].
    apply Is_true_true, bool_decide_eq_true in Hm. by rewrite Hm. }
  f_equiv. rewrite (concat_blocks code_matches
    (fun s => match sr_code s with Some c => Some (Some c) | None => None end)); [| |done|].
  - apply reflexive_eq, list_filter_iff. intros s. destruct (sr_code s); naive_solver.
  - intros s k. apply code_matches_owner.
  - intros s k Hs Ho. destruct (sr_code s) eqn:Hc; [|done]. injection Ho as <-.
    apply Hel, list_elem_of_fmap. by exists s.
Qed.

(** C18: the rows with a NULL [issuer_code] are never analyzed: every row
    [technical_analysis] writes has a code, and the daily rows are, up to
    order, the (code, date) pairs of exactly the stored rows whose code is
    not NULL, each once. *)
Theorem technical_analysis_daily `{Oscillators} tbl out :
  technical_analysis tbl = Ok out ->
  Forall (fun t => ti_code t <> None) out /\
  daily_keys out ≡ₚ map (fun s => (sr_code s, sr_date s)) (filter (fun s => bool_decide (sr_code s <> None)) tbl).
Proof.
  pose proof (merge_sort_Permutation row_before tbl) as Hperm.
  unfold technical_analysis. set (sd := merge_sort row_before tbl) in *.
  destruct (mapM (analyze_issuer sd) (pd_unique (map sr_code sd))) as [results|] eqn:Hm; [|done].
  simpl. case_bool_decide; [done|]. intros [= <-].
  apply mapM_Ok in Hm. destruct (results_rows _ _ _ Hm) as [Hc ->]. split; [done|].
  rewrite issuer_blocks. by rewrite Hperm.
Qed.

(** ** Python's order on strings *)

(** ** RSI values are percentages *)

(** Every RSI of the frame of one period is NaN or in [0, 100]. *)
Lemma analyze_rsi_range data period rows :
  Forall (fun b => finite_or_nan (bar_last b) = true) data ->
  analyze_for_time_period data period = Ok rows ->
  Forall (fun rp => in_range 0 100 (ir_rsi rp.1)) rows.
Proof.
  intros Hf Hr. unfold analyze_for_time_period in Hr. cbv zeta in Hr.
  assert (Htag : forall frame, Forall (fun b => finite_or_nan (bar_last b) = true) frame ->
            Forall (fun rp => in_range 0 100 (ir_rsi rp.1)) (map (fun r => (r, period)) (calculate_indicators frame))).
  { intros frame Hfr. apply Forall_fmap.
    eapply Forall_impl; [exact (proj2 (calculate_indicators_rows frame Hfr))|]. by intros r [? _]. }
  destruct (String.eqb period "daily"); [injection Hr as <-; by apply Htag|].
  destruct (String.eqb period "weekly").
  { destruct (resample rule_W data) eqn:E; [|done]. injection Hr as <-.
    apply Htag. by eapply resample_last_finite. }
  destruct (String.eqb period "monthly"); [|done].
  destruct (resample rule_ME data) eqn:E; [|done]. injection Hr as <-.
  apply Htag. by eapply resample_last_finite.
Qed.

Lemma analyze_issuer_rsi sd issuer frames :
  Forall (fun s => finite_or_nan (sr_last s) = true) sd ->
  analyze_issuer sd issuer = Ok frames ->
  Forall (fun fr => Forall (fun t => in_range 0 100 (ti_rsi t)) fr) frames.
Proof.
  intros Hf Hm. unfold analyze_issuer in Hm. apply mapM_Ok in Hm.
  assert (Hd : Forall (fun b => finite_or_nan (bar_last b) = true) (map to_bar (filter (code_matches issuer) sd)))
    by (apply Forall_fmap; by apply Forall_filter_sub).
  induction Hm as [|p fr ps frs Hp _ IH]; [constructor|]. constructor; [|done].
  apply bind_Ok in Hp as (an & Ha & Hfr). injection Hfr as <-.
  apply Forall_fmap. eapply Forall_impl; [exact (analyze_rsi_range _ _ _ Hd Ha)|]. by intros [r per].
Qed.

Lemma str_le_trans a b c : str_le a b = true -> str_le b c = true -> str_le a c = true.
Proof.
  unfold str_le. revert b c. induction a as [|x a IH]; intros [|y b] [|z c]; cbn; try done.
  unfold Ascii.compare.
  destruct (N.compare_spec (N_of_ascii x) (N_of_ascii y));
  destruct (N.compare_spec (N_of_ascii y) (N_of_ascii z));
  destruct (N.compare_spec (N_of_ascii x) (N_of_ascii z)); simpl in *; try done; try lia.
  apply IH.
Qed.

Lemma str_le_refl a : str_le a a = true.
Proof. unfold str_le. pose proof (String.compare_antisym a a) as H. by destruct (String.compare a a). Qed.

Lemma str_le_total a b : str_le a b = true \/ str_le b a = true.
Proof. unfold str_le. rewrite (String.compare_antisym b a). destruct (String.compare a b); simpl; auto. Qed.

(** C20: every RSI value [technical_analysis] writes, for the daily rows
    and for the weekly and monthly bars alike, is NaN or in [0, 100] when
    the stored prices have no infinity: ta's RSI is a percentage, and the
    weekly and monthly means of finite prices are finite. *)
Theorem technical_analysis_rsi_range tbl out :
  Forall (fun s => finite_or_nan (sr_last s) = true) tbl ->
  technical_analysis tbl = Ok out -> Forall (fun t => in_range 0 100 (ti_rsi t)) out.
Proof.
  intros Hf Hr. unfold technical_analysis in Hr.
  apply bind_Ok in Hr as (results & Hm & Hr). case_bool_decide as Hne; [done|]. injection Hr as <-.
  clear Hne. assert (Hsd : Forall (fun s => finite_or_nan (sr_last s) = true) (merge_sort row_before tbl))
    by (by rewrite merge_sort_Permutation).
  apply mapM_Ok in Hm. apply Forall_concat, Forall_concat.
  induction Hm as [|i fr iss frs Hi _ IH]; [constructor|].
  constructor; [exact (analyze_issuer_rsi _ _ _ Hsd Hi) | done].
Qed.
