(* ===== verification/App.v ===== *)
(** The Flask routes of the web front end (src/Website/app.py).

    The database the routes see is [db]: the [stock_data] table and the
    [technical_indicators] table, which does not exist before the first
    analysis.  A response is a status code and a JSON body ([body]): a
    message, a list of records, or a list of codes ([null] for a NULL
    code).  [scrape_data] and [run_analysis] run [main.py] and
    [TechnicalAnalysis.py] as subprocesses with [check=True]: a script that
    raises exits with status 1 and the route answers 500 with the text of
    [CalledProcessError]; [main()] catches every [Exception], so [main.py]
    always exits with status 0; [scrape_data]
    takes the outcome of that run of [main] ([Pipeline]) as its argument.  [get_issuer_codes] is [SELECT DISTINCT
    issuer_code FROM stock_data ORDER BY issuer_code] (SQLite sorts NULL
    first and strings by their bytes).  The two analysis routes run [SELECT
    * FROM technical_indicators WHERE issuer_code = ? AND time_period = ?
    ORDER BY Date DESC LIMIT n]: the Date column holds the text [to_sql]
    wrote for a [Timestamp] ([isoformat_datetime], "YYYY-MM-DD 00:00:00"),
    compared as text, which on valid dates is the date order
    ([date_ge_dates]); NULL dates come last, and rows with equal dates in an
    order SQLite chooses, so [query_analysis] is a relation.  They return
    that text as the "Date" of a record and write every NaN or NULL as
    "No Data".  [home] renders a template and is not modelled. *)

From Stdlib Require Import QArith String Ascii.
From stdpp Require Import strings sorting.
From S2P Require Import Prelude Dates Numeric Scraper Database DateText Orchestrator Issuers Pipeline Indicators Technical.

Close Scope Q_scope.
Local Open Scope Z_scope.

Record db := Db {
  stock_data : list stock_row;
  technical_indicators : option (list ti_row)
}.

Inductive jval :=
| JStr (s : string)
| JFloat (x : num).

Inductive body :=
| BMessage (msg : string)
| BRecords (records : list (list (string * jval)))
| BCodes (codes : list (option string)).

Definition response : Type := Z * body.

(** ** [scrape_data] and [run_analysis] *)

(** [subprocess.run(["python", "main.py"], check=True)]: [main()] catches
    every exception it meets, so the process exits normally whatever the
    outcome [o] of the run. *)
Definition scrape_data (d : db) (o : main_outcome) : response * db :=
  ((200, BMessage "Data scraped successfully."), Db (out_table o) (technical_indicators d)).

Definition run_analysis `{Oscillators} (d : db) : response * db :=
  match technical_analysis (stock_data d) with
  | Ok out => ((200, BMessage "Technical analysis completed successfully."),
               Db (stock_data d) (Some out))
  | Err _ => ((500, BMessage ("Error running technical analysis script: Command '['python', 'TechnicalAnalysis.py']' returned non-zero exit status 1.")), d)
  end.

(** ** [get_issuer_codes] *)

(** SQLite's ascending order on the [issuer_code] column: NULL first. *)
Definition sql_code_le (a b : option string) : bool :=
  match a, b with
  | None, _ => true
  | Some _, None => false
  | Some x, Some y => str_le x y
  end.

Definition sql_code_before (a b : option string) : Prop := sql_code_le a b = true.

#[export] Instance sql_code_before_dec : RelDecision sql_code_before :=
  fun a b => decide (sql_code_le a b = true).

Definition get_issuer_codes (d : db) : response :=
  (200, BCodes (merge_sort sql_code_before (pd_unique (map sr_code (stock_data d))))).

(** ** [fetch_latest_analysis] and [fetch_historical_analysis] *)

Definition valid_periods : list string := ["daily"; "weekly"; "monthly"].

(** Python's truth value of [request.args.get(...)]. *)
Definition truthy (a : option string) : bool :=
  match a with Some s => negb (String.eqb s "") | None => false end.

Definition ti_matches (code period : string) (t : ti_row) : bool :=
  bool_decide (ti_code t = Some code) && String.eqb (ti_period t) period.

(** [ORDER BY Date DESC] on the stored text ([isoformat_datetime]):
    greater texts first, NULL last. *)
Definition date_ge (a b : ti_row) : Prop :=
  match ti_date a, ti_date b with
  | Some x, Some y => str_le (isoformat_datetime y) (isoformat_datetime x) = true
  | Some _, None => True
  | None, Some _ => False
  | None, None => True
  end.

(** The rows SQLite may return: the matching rows in an order of
    non-increasing date, the first [n] of them. *)
Definition query_analysis (rows : list ti_row) (code period : string) (n : nat)
    (out : list ti_row) : Prop :=
  exists sel, sel ≡ₚ filter (ti_matches code period) rows /\ Sorted date_ge sel /\ out = take n sel.

(** [df.fillna("No Data")] *)
Definition fill (x : num) : jval := if is_missing x then JStr "No Data" else JFloat x.

Definition signal_text (s : signal) : string :=
  match s with Hold => "Hold" | Buy => "Buy" | Sell => "Sell" end.

(** [df.to_dict(orient='records')] of one row, after [fillna]. *)
Definition to_record (t : ti_row) : list (string * jval) :=
  [("issuer_code", match ti_code t with Some c => JStr c | None => JStr "No Data" end);
   ("Date", match ti_date t with Some x => JStr (isoformat_datetime x) | None => JStr "No Data" end);
   ("time_period", JStr (ti_period t)); ("Signal", JStr (signal_text (ti_signal t)));
   ("SMA_20", fill (ti_sma20 t)); ("SMA_50", fill (ti_sma50 t));
   ("EMA_20", fill (ti_ema20 t)); ("EMA_50", fill (ti_ema50 t));
   ("RSI", fill (ti_rsi t)); ("MACD", fill (ti_macd t)); ("Stoch", fill (ti_stoch t));
   ("CCI", fill (ti_cci t)); ("Williams %R", fill (ti_wr t))].

Definition nl : string := String (ascii_of_nat 10) EmptyString.

(** The triple-quoted [query] of the analysis routes, its line breaks and
    trailing spaces included, for [LIMIT limit]. *)
Definition analysis_query (limit : string) : string :=
  nl ++ "            SELECT * FROM technical_indicators " ++ nl ++
  "            WHERE issuer_code = ? AND time_period = ? " ++ nl ++
  "            ORDER BY Date DESC LIMIT " ++ limit ++ nl ++ "        ".

(** [str(e)] of the [DatabaseError] [pd.read_sql_query] raises when
    [technical_indicators] does not exist ("Execution failed on sql
    '<query>': " and sqlite3's message), in the route's 500 message. *)
Definition missing_table_message (what query : string) : string :=
  "Error fetching " ++ what ++ " analysis data: Execution failed on sql '" ++ query ++
  "': no such table: technical_indicators".

(** The body of both analysis routes, with the word of their error
    message ("latest" or "historical"), their SQL text and their [LIMIT]. *)
Definition fetch_analysis (what query : string) (n : nat) (d : db)
    (issuer_code time_period : option string) (resp : response) : Prop :=
  match issuer_code, time_period with
  | Some c, Some p =>
      if negb (truthy issuer_code && truthy time_period) then
        resp = (400, BMessage "Missing required parameters.")
      else if negb (bool_decide (p ∈ valid_periods)) then
        resp = (400, BMessage "Invalid time period selected.")
      else
        match technical_indicators d with
        | None => resp = (500, BMessage (missing_table_message what query))
        | Some rows =>
            exists out, query_analysis rows c p n out /\
              resp = if bool_decide (out = []) then (404, BMessage "No data available for the selected criteria.")
                     else (200, BRecords (map to_record out))
        end
  | _, _ => resp = (400, BMessage "Missing required parameters.")
  end.

Definition fetch_latest_analysis := fetch_analysis "latest" (analysis_query "1") 1.
Definition fetch_historical_analysis := fetch_analysis "historical" (analysis_query "100") 100.

(** ** Lemmas *)

#[export] Instance date_ge_trans : Transitive date_ge.
Proof.
  intros a b c. unfold date_ge. destruct (ti_date a), (ti_date b), (ti_date c); try done.
  eauto using str_le_trans.
Qed.

Lemma date_ge_refl t : date_ge t t.
Proof.
  unfold date_ge. destruct (ti_date t); [apply str_le_refl | done].
Qed.

(** On valid dates, the text order of [ORDER BY Date DESC] is the date
    order. *)
Lemma date_ge_dates t u x y :
  date_min <= x <= date_max -> date_min <= y <= date_max ->
  ti_date t = Some x -> ti_date u = Some y -> date_ge t u -> y <= x.
Proof.
  intros Hx Hy Ht Hu. unfold date_ge, str_le. rewrite Ht, Hu, isoformat_datetime_compare by done.
  destruct (Z.compare_spec y x); [lia | lia | done].
Qed.

(** The dates of [technical_indicators], checked row by row. *)
Lemma ti_dates_Forall rows :
  Forall (fun t => from_option (fun x => date_min <= x <= date_max) True (ti_date t)) rows ->
  forall t x, t ∈ rows -> ti_date t = Some x -> date_min <= x <= date_max.
Proof. rewrite Forall_forall. intros H t x Ht Hx. specialize (H t Ht). by rewrite Hx in H. Qed.

#[export] Instance sql_code_before_trans : Transitive sql_code_before.
Proof.
  intros [a|] [b|] [c|]; unfold sql_code_before; cbn; try done. apply str_le_trans.
Qed.

#[export] Instance sql_code_before_total : Total sql_code_before.
Proof. intros [a|] [b|]; unfold sql_code_before; cbn; auto. apply str_le_total. Qed.

(** C19: the [/run_analysis] route answers 500 exactly when the analysis
    script fails, which happens exactly on an empty [stock_data] table or
    when some issuer code has rows that all have a NULL date; it answers 200
    otherwise, and then [technical_indicators] holds what
    [technical_analysis] computed.  [stock_data] is never changed. *)
Theorem run_analysis_spec `{Oscillators} d :
  stock_data (run_analysis d).2 = stock_data d /\
  ((run_analysis d).1.1 = 500 <->
     stock_data d = [] \/ exists c, (exists s, s ∈ stock_data d /\ sr_code s = Some c) /\
       forall s, s ∈ stock_data d -> sr_code s = Some c -> sr_date s = None) /\
  ((run_analysis d).1.1 = 200 <->
     exists out, technical_analysis (stock_data d) = Ok out /\ technical_indicators (run_analysis d).2 = Some out).
Proof.
  unfold run_analysis. destruct (technical_analysis (stock_data d)) as [out|e] eqn:E; cbn.
  - split; [done|]. split; [|naive_solver]. split; [done|].
    intros Hc. assert (Hv : technical_analysis (stock_data d) = Err ValueError) by (apply technical_analysis_Err; auto).
    congruence.
  - apply technical_analysis_Err in E as [-> Hc]. split; [done|]. naive_solver.
Qed.

(** In a strongly sorted list, an element is related to every later one. *)
Lemma StronglySorted_lookup {A} (R : relation A) l i j x y :
  StronglySorted R l -> (i < j)%nat -> l !! i = Some x -> l !! j = Some y -> R x y.
Proof.
  intros Hs; revert i j; induction Hs as [|a l Hs IH Hall]; intros i j Hij Hi Hj; [done|].
  destruct i as [|i], j as [|j]; simplify_eq/=; [lia | | lia |].
  - by eapply Forall_lookup_1 in Hall.
  - apply (IH i j); [lia | done | done].
Qed.

(** With both parameters non-empty and a valid period, the analysis
    routes answer from the query alone. *)
Lemma fetch_analysis_valid what query n d c p resp :
  c <> "" -> p ∈ valid_periods ->
  fetch_analysis what query n d (Some c) (Some p) resp <->
  match technical_indicators d with
  | None => resp = (500, BMessage (missing_table_message what query))
  | Some rows =>
      exists out, query_analysis rows c p n out /\
        resp = if bool_decide (out = []) then (404, BMessage "No data available for the selected criteria.")
               else (200, BRecords (map to_record out))
  end.
Proof.
  intros Hc Hv. assert (Hp : p <> "") by (intros ->; unfold valid_periods in Hv; set_solver).
  unfold fetch_analysis, truthy.
  rewrite (proj2 (String.eqb_neq c "") Hc), (proj2 (String.eqb_neq p "") Hp). cbn.
  by rewrite bool_decide_true.
Qed.

Lemma query_rows rows c p sel t :
  sel ≡ₚ filter (ti_matches c p) rows -> t ∈ sel -> t ∈ rows.
Proof. intros Hperm Ht. rewrite Hperm in Ht. by apply list_elem_of_filter in Ht as [_ Ht]. Qed.

(** C23: [/fetch_latest_analysis] ([LIMIT 1]) and
    [/fetch_historical_analysis] ([LIMIT 100]), with both parameters: 400
    when one is empty or the period is not one of the three; 500 when
    [technical_indicators] does not exist yet; otherwise, on a table of
    valid dates, the records of the first [min(n, N)] of the [N] rows with
    that code and period, in an order where a row never has an earlier date
    than a row after it (NULL dates last): the latest rows.  404 when there
    is none. *)
Theorem fetch_analysis_spec what query n d c p resp :
  fetch_analysis what query n d (Some c) (Some p) resp ->
  ((c = "" \/ p = "") -> resp = (400, BMessage "Missing required parameters.")) /\
  (c <> "" -> p <> "" -> p ∉ valid_periods -> resp = (400, BMessage "Invalid time period selected.")) /\
  (c <> "" -> p ∈ valid_periods -> technical_indicators d = None ->
     resp = (500, BMessage (missing_table_message what query))) /\
  (c <> "" -> p ∈ valid_periods -> forall rows, technical_indicators d = Some rows ->
     (forall t x, t ∈ rows -> ti_date t = Some x -> date_min <= x <= date_max) ->
     exists out rest, out ++ rest ≡ₚ filter (ti_matches c p) rows /\
       length out = Nat.min n (length (filter (ti_matches c p) rows)) /\
       (forall i j t u y, (i < j)%nat -> (out ++ rest) !! i = Some t -> (out ++ rest) !! j = Some u ->
          ti_date u = Some y -> exists x, ti_date t = Some x /\ y <= x) /\
       resp = if bool_decide (out = []) then (404, BMessage "No data available for the selected criteria.")
              else (200, BRecords (map to_record out))).
Proof.
  intros Hr. split_and!.
  - unfold fetch_analysis, truthy in Hr. intros [->| ->]; cbn in Hr; [done|]. by rewrite andb_false_r in Hr.
  - unfold fetch_analysis, truthy in Hr. intros Hc Hp Hv.
    rewrite (proj2 (String.eqb_neq c "") Hc), (proj2 (String.eqb_neq p "") Hp) in Hr.
    cbn in Hr. by rewrite bool_decide_false in Hr.
  - intros Hc Hv Hnone. apply fetch_analysis_valid in Hr; [|done..]. by rewrite Hnone in Hr.
  - intros Hc Hv rows Hrows Hwf. apply fetch_analysis_valid in Hr; [|done..]. rewrite Hrows in Hr.
    destruct Hr as (out & (sel & Hperm & Hsorted & ->) & ->).
    exists (take n sel), (drop n sel). rewrite take_drop.
    split_and!; [done | by rewrite length_take, Hperm | | done].
    apply Sorted_StronglySorted in Hsorted; [|apply date_ge_trans].
    intros i j t u y Hij Ht Hu Hy.
    pose proof (StronglySorted_lookup _ _ _ _ _ _ Hsorted Hij Ht Hu) as Hge.
    destruct (ti_date t) as [x|] eqn:Hx; [|unfold date_ge in Hge; by rewrite Hx, Hy in Hge].
    exists x. split; [done|].
    apply (date_ge_dates t u x y); [| |done..];
      [apply (Hwf t) | apply (Hwf u)]; try done; eapply query_rows; eauto using list_elem_of_lookup_2.
Qed.

(** [/get_issuer_codes] answers 200 with the distinct issuer codes of
    [stock_data], each once, in SQLite's ascending order; when some row has
    a NULL code, the list starts with [null]. *)
Theorem get_issuer_codes_spec d :
  exists codes, get_issuer_codes d = (200, BCodes codes) /\
    NoDup codes /\ Sorted sql_code_before codes /\
    (forall c, c ∈ codes <-> exists s, s ∈ stock_data d /\ sr_code s = c) /\
    ((exists s, s ∈ stock_data d /\ sr_code s = None) -> head codes = Some None).
Proof.
  eexists. split; [reflexivity|].
  destruct (pd_unique_spec (map sr_code (stock_data d))) as [Hnd Hel].
  pose proof (merge_sort_Permutation sql_code_before (pd_unique (map sr_code (stock_data d)))) as Hp.
  pose proof (Sorted_merge_sort sql_code_before (pd_unique (map sr_code (stock_data d)))) as Hs.
  assert (Hin : forall c, c ∈ merge_sort sql_code_before (pd_unique (map sr_code (stock_data d))) <->
                          exists s, s ∈ stock_data d /\ sr_code s = c).
  { intros c. rewrite Hp, Hel, list_elem_of_fmap. naive_solver. }
  split_and!; [by rewrite Hp | done | done |].
  intros Hnone. apply Hin in Hnone.
  apply Sorted_StronglySorted in Hs; [|apply _].
  destruct (merge_sort _ _) as [|h rest]; [set_solver|]. cbn.
  inversion Hs as [|? ? _ Hall]; subst.
  apply elem_of_cons in Hnone as [<-|Hr]; [done|].
  eapply Forall_forall in Hall; [|exact Hr]. destruct h; [done|done].
Qed.
