(* ===== verification/Examples.v ===== *)
(** Concrete runs: a small remote site and date coercion, and the theorems
    of the components applied to them.  The remote serves, for every
    request, the rows of a fixed list of trading days that fall inside the
    requested window, except for the code "FAIL", whose requests fail.
    It also holds the theorem [main_rerun_persists], which needs such a
    concrete remote: two runs of [main] on the same day where the second
    stores a row the first missed.  The dates-as-text section runs
    [get_last_date_sql] and [strptime_ymd] on concrete tables and texts. *)

From Stdlib Require Import QArith String Ascii.
From stdpp Require Import strings relations.
From S2P Require Import Prelude Dates Numeric Scraper Database Orchestrator Issuers Pipeline SampleData DateText.

Close Scope Q_scope.
Local Open Scope Z_scope.

(** Dates in the demo table are ordinals in integer cells. *)
#[export] Instance ordinal_dates : DateCoercion :=
  fun c => match c with CInt z => Ok (Some z) | CNaN => Ok None | _ => raise ParserError end.

Definition demo_days : list date := [ymd 2024 1 10; ymd 2024 1 11; ymd 2024 1 15].

Definition demo_row (d : date) : list cell :=
  [CInt d; CStr "1,234.50"; CStr "1,300.00"; CStr "1,200.00"; CStr "1,250.10"; CStr "0.5";
   CInt 100; CStr "123,450"; CStr "123,450"].

Definition demo_header : list string :=
  ["Date"; "Last Trade Price"; "Max"; "Min"; "Avg. Price"; "%chg."; "Volume";
   "Turnover in BEST (denars)"; "Total turnover (denars)"].

#[export] Instance demo_remote : Remote :=
  fun code a b =>
    if String.eqb code "FAIL" then RespFailed ClientError
    else RespTable demo_header (map demo_row (filter (fun d => (a <=? d) && (d <=? b)) demo_days)).

(** Closes a comparison of concrete dates by computation. *)
Ltac concrete := vm_compute; repeat split; try (intros ?; discriminate); try reflexivity.

(** ** Windows *)

Lemma windows_cover_witness :
  ymd 2023 1 1 <= ymd 2024 3 1 < ymd 2025 6 19 /\
  exists w, w ∈ windows (ymd 2023 1 1) (ymd 2025 6 19) /\ w.1 <= ymd 2024 3 1 <= w.2.
Proof. split; [concrete | apply windows_cover; concrete]. Defined.

(** Membership and other decidable facts of concrete lists. *)
Ltac decide_concrete := apply (bool_decide_unpack _); vm_compute; exact I.

Lemma windows_within_witness :
  (ymd 2023 1 1 + 366, ymd 2023 1 1 + 731) ∈ windows (ymd 2023 1 1) (ymd 2025 6 19) /\
  ymd 2023 1 1 <= ymd 2023 1 1 + 366 <= ymd 2023 1 1 + 731 /\
  ymd 2023 1 1 + 731 <= ymd 2025 6 19 /\ ymd 2023 1 1 + 731 - (ymd 2023 1 1 + 366) <= 365.
Proof.
  assert (Hin : (ymd 2023 1 1 + 366, ymd 2023 1 1 + 731) ∈ windows (ymd 2023 1 1) (ymd 2025 6 19))
    by decide_concrete.
  split; [exact Hin | exact (windows_within _ _ _ Hin)].
Defined.

Lemma windows_contiguous_witness :
  windows (ymd 2023 1 1) (ymd 2025 6 19) !! 0%nat = Some (ymd 2023 1 1, ymd 2024 1 1) /\
  windows (ymd 2023 1 1) (ymd 2025 6 19) !! 1%nat = Some (ymd 2024 1 2, ymd 2025 1 1) /\
  ymd 2024 1 2 = ymd 2024 1 1 + 1 /\ (0%nat = 0%nat -> ymd 2023 1 1 = ymd 2023 1 1).
Proof.
  assert (H0 : windows (ymd 2023 1 1) (ymd 2025 6 19) !! 0%nat = Some (ymd 2023 1 1, ymd 2024 1 1))
    by (vm_compute; reflexivity).
  assert (H1 : windows (ymd 2023 1 1) (ymd 2025 6 19) !! 1%nat = Some (ymd 2024 1 2, ymd 2025 1 1))
    by (vm_compute; reflexivity).
  split; [exact H0|]. split; [exact H1|]. exact (windows_contiguous _ _ 0 _ _ H0 H1).
Defined.

(** The span of the spec's example: 900 days, three requests. *)
Example windows_spec_example :
  windows (ymd 2023 1 1) (ymd 2025 6 19) =
    [(ymd 2023 1 1, ymd 2024 1 1); (ymd 2024 1 2, ymd 2025 1 1); (ymd 2025 1 2, ymd 2025 6 19)].
Proof. vm_compute. reflexivity. Qed.

(** A span of exactly 366 days: the last day is never requested. *)
Example windows_gap_example :
  windows (ymd 2023 1 1) (ymd 2023 1 1 + 366) = [(ymd 2023 1 1, ymd 2023 1 1 + 365)].
Proof. vm_compute. reflexivity. Qed.

(** ** The window loop *)

Lemma scrape_historical_data_windows_witness :
  date_min <= ymd 2024 1 1 /\ ymd 2024 1 15 + 365 <= date_max /\
  scrape_historical_data "ALK" (ymd 2024 1 1) (ymd 2024 1 15) =
    match omap (window_part "ALK") (windows (ymd 2024 1 1) (ymd 2024 1 15)) with
    | [] => None
    | parts => Some (concat parts)
    end.
Proof.
  assert (Hs : date_min <= ymd 2024 1 1) by concrete.
  assert (He : ymd 2024 1 15 + 365 <= date_max) by concrete.
  split; [exact Hs|]. split; [exact He|]. exact (scrape_historical_data_windows _ _ _ Hs He).
Defined.

Lemma scrape_historical_data_overflow_witness :
  date_max - 365 < date_max - 100 < date_max /\
  scrape_historical_data "ALK" (date_max - 100) date_max = None.
Proof.
  assert (H : date_max - 365 < date_max - 100 < date_max) by concrete.
  split; [exact H | exact (scrape_historical_data_overflow _ _ _ H)].
Defined.

(** ** Storage *)

Definition demo_price (d : date) : price_row :=
  PriceRow (Some d) (NFin (Qmake 2469 2)) (NFin 1300%Q) (NFin 1200%Q) (NFin 100%Q) (NFin 123450%Q).

Definition demo_table : list stock_row :=
  [to_stock_row (Some "ALK") (demo_price (ymd 2024 1 10))].

Lemma demo_table_wf : table_wf demo_table.
Proof.
  intros r d Hr Hd. apply list_elem_of_singleton in Hr as ->. injection Hd as <-. concrete.
Qed.

Lemma save_data_spec_witness :
  pk_unique demo_table /\
  save_data demo_table [demo_price (ymd 2024 1 11)] "ALK" =
    let rows := map (to_stock_row (stored_code "ALK")) [demo_price (ymd 2024 1 11)] in
    if decide (pk_unique (demo_table ++ rows)) then Ok (demo_table ++ rows)
    else raise IntegrityError.
Proof.
  assert (H : pk_unique demo_table) by decide_concrete.
  split; [exact H | exact (save_data_spec _ _ _ H)].
Defined.

Lemma save_data_pk_unique_witness :
  pk_unique demo_table /\
  save_data demo_table [demo_price (ymd 2024 1 11)] "ALK" =
    Ok (demo_table ++ [to_stock_row (Some "ALK") (demo_price (ymd 2024 1 11))]) /\
  pk_unique (demo_table ++ [to_stock_row (Some "ALK") (demo_price (ymd 2024 1 11))]).
Proof.
  assert (H : pk_unique demo_table) by decide_concrete.
  assert (Hs : save_data demo_table [demo_price (ymd 2024 1 11)] "ALK" =
    Ok (demo_table ++ [to_stock_row (Some "ALK") (demo_price (ymd 2024 1 11))]))
    by (vm_compute; reflexivity).
  split; [exact H|]. split; [exact Hs | exact (save_data_pk_unique _ _ _ _ H Hs)].
Defined.

(** Saving the stored day again collides and changes nothing. *)
Example save_data_collision :
  save_data demo_table [demo_price (ymd 2024 1 11); demo_price (ymd 2024 1 10)] "ALK" =
    raise IntegrityError.
Proof. vm_compute. reflexivity. Qed.

Lemma check_data_currency_spec_witness :
  table_wf demo_table /\ date_min + 3650 <= ymd 2024 1 15 <= date_max /\
  exists info, check_data_currency demo_table (ymd 2024 1 15) ["ALK"; "KMB"] = Ok info /\
    NoDup info.*1 /\
    forall c, dict_get c info =
      if decide (c ∈ ["ALK"; "KMB"]) then currency_expect demo_table (ymd 2024 1 15) c else None.
Proof.
  assert (Ht : date_min + 3650 <= ymd 2024 1 15 <= date_max) by concrete.
  split; [exact demo_table_wf|]. split; [exact Ht|].
  exact (check_data_currency_spec _ _ _ demo_table_wf Ht).
Defined.

(** ** Dates as text *)

(** ALK stored on 2024-01-10 and 2023-12-31, a NULL-code row, and a KMB row
    with no date. *)
Definition text_table : list stock_row :=
  demo_table ++ [to_stock_row (Some "ALK") (demo_price (ymd 2023 12 31));
                 to_stock_row None (demo_price (ymd 2024 5 1));
                 to_stock_row (Some "KMB") (PriceRow None NNaN NNaN NNaN NNaN NNaN)].

Lemma text_table_wf : table_wf text_table.
Proof. apply table_wf_Forall. repeat constructor; concrete. Qed.

Lemma get_last_date_sql_refines_witness :
  table_wf text_table /\ get_last_date_sql text_table "ALK" = Ok (get_last_date text_table "ALK").
Proof. split; [exact text_table_wf | exact (get_last_date_sql_refines _ _ text_table_wf)]. Defined.

(** The latest ALK text is "2024-01-10"; "2023-12-31" is earlier as text
    too.  KMB has a row but no date: [MAX] is NULL and the code reads it as
    "no data". *)
Example get_last_date_sql_text_table :
  get_last_date_sql text_table "ALK" = Ok (Some (ymd 2024 1 10)) /\
  get_last_date_sql text_table "KMB" = Ok None.
Proof. vm_compute. split; reflexivity. Qed.

Lemma strptime_isoformat_witness :
  date_min <= ymd 2024 2 29 <= date_max /\ strptime_ymd (isoformat (ymd 2024 2 29)) = Ok (ymd 2024 2 29).
Proof.
  assert (H : date_min <= ymd 2024 2 29 <= date_max) by concrete.
  split; [exact H | exact (strptime_isoformat _ H)].
Defined.

Lemma isoformat_compare_witness :
  date_min <= ymd 2023 12 31 <= date_max /\ date_min <= ymd 2024 1 10 <= date_max /\
  String.compare (isoformat (ymd 2023 12 31)) (isoformat (ymd 2024 1 10)) =
    Z.compare (ymd 2023 12 31) (ymd 2024 1 10).
Proof.
  assert (H1 : date_min <= ymd 2023 12 31 <= date_max) by concrete.
  assert (H2 : date_min <= ymd 2024 1 10 <= date_max) by concrete.
  split; [exact H1|]. split; [exact H2 | exact (isoformat_compare _ _ H1 H2)].
Defined.

(** [strptime] also accepts unpadded fields and a space before a one-digit
    day, and raises on a day the month lacks or on text after the date. *)
Example strptime_forms :
  strptime_ymd "2024-1-5" = Ok (ymd 2024 1 5) /\ strptime_ymd "2024-01- 5" = Ok (ymd 2024 1 5) /\
  strptime_ymd "2023-02-29" = raise ValueError /\ strptime_ymd "2024-01-31 " = raise ValueError.
Proof. vm_compute. repeat split. Qed.

(** The spec's example: last stored 2024-01-10, today 2024-01-15. *)
Example check_data_currency_example :
  check_data_currency demo_table (ymd 2024 1 15) ["ALK"; "KMB"; "ALK"] =
    Ok [("ALK", ymd 2024 1 11); ("KMB", ymd 2024 1 15 - 3650)].
Proof. vm_compute. reflexivity. Qed.

Lemma save_data_null_code_witness :
  "None" ∈ null_strings /\
  save_data demo_table [demo_price (ymd 2024 1 11)] "None" =
    Ok (demo_table ++ map (to_stock_row None) [demo_price (ymd 2024 1 11)]) /\
  get_last_date (demo_table ++ map (to_stock_row None) [demo_price (ymd 2024 1 11)]) "None" =
    get_last_date demo_table "None".
Proof.
  assert (H : "None" ∈ null_strings) by decide_concrete.
  split; [exact H | exact (save_data_null_code _ _ _ H)].
Defined.

(** ** The worker pool *)

Definition demo_today : date := ymd 2024 1 15.

Definition demo_info : list (string * option date) :=
  [("ALK", Some (ymd 2024 1 11)); ("KMB", Some (demo_today - 3650)); ("FAIL", Some (demo_today - 3650))].

(** Two workers: worker 0 takes ALK, worker 1 takes KMB and finishes first,
    then worker 0 finishes ALK and takes FAIL; both then find the queue
    empty. *)
Definition demo_final : pool := Eval vm_compute in
  Pool [] [Finished; Finished]
    (update_seq demo_today demo_table [demo_info !!! 1%nat; demo_info !!! 0%nat; demo_info !!! 2%nat]).1
    (update_seq demo_today demo_table [demo_info !!! 1%nat; demo_info !!! 0%nat; demo_info !!! 2%nat]).2
    [demo_info !!! 1%nat; demo_info !!! 0%nat; demo_info !!! 2%nat].

Ltac normalize_pool :=
  match goal with |- rtc _ ?x _ => let x' := eval vm_compute in x in change x with x' end.
Ltac take i := normalize_pool; eapply rtc_l; [apply (step_take _ i); reflexivity|].
Ltac finish i :=
  normalize_pool;
  match goal with |- rtc _ (Pool ?q ?ws ?tbl ?errs ?lg) _ =>
    let it := eval vm_compute in (match ws !! i with Some (Busy it) => it | _ => ("", None) end) in
    let r := eval vm_compute in (scrape_issuer demo_today (tbl, errs) it) in
    eapply rtc_l;
      [apply (step_finish demo_today i it q ws tbl errs lg r.1 r.2);
         [reflexivity | vm_compute; reflexivity] |]
  end.
Ltac empty i := normalize_pool; eapply rtc_l; [apply (step_empty _ i); reflexivity|].

Lemma demo_run : update_data_run demo_today [] demo_table demo_info 2 demo_final.
Proof.
  split; [|repeat constructor].
  take 0%nat. take 1%nat. finish 1%nat. finish 0%nat. take 0%nat. finish 0%nat.
  empty 0%nat. empty 1%nat. normalize_pool. apply rtc_refl.
Qed.

(** A code whose every request fails is reported as having no data: the
    failures are swallowed by [scrape_table]. *)
Example demo_final_outcome :
  errors demo_final = [NoData "FAIL"] /\ length (table demo_final) = 6%nat.
Proof. split; reflexivity. Qed.

Lemma update_data_exactly_once_witness :
  update_data_run demo_today [] demo_table demo_info 2 demo_final /\ 1 <= 2 /\ demo_info <> [] /\
  queue demo_final = [] /\ log demo_final ≡ₚ [] ++ demo_info.
Proof.
  assert (Hc : 1 <= 2) by lia. assert (Hi : demo_info <> []) by discriminate.
  split; [exact demo_run|]. split; [exact Hc|]. split; [exact Hi|].
  exact (update_data_exactly_once demo_today [] demo_table demo_info 2 demo_final demo_run Hc Hi).
Defined.

Lemma update_data_no_workers_witness :
  0 <= 0 /\
  update_data_run demo_today [] demo_table demo_info 0 (update_init [] demo_table demo_info 0) /\
  update_init [] demo_table demo_info 0 = update_init [] demo_table demo_info 0 /\
  queue (update_init [] demo_table demo_info 0) = [] ++ demo_info /\
  table (update_init [] demo_table demo_info 0) = demo_table /\
  errors (update_init [] demo_table demo_info 0) = [].
Proof.
  assert (Hc : 0 <= 0) by lia.
  assert (Hr : update_data_run demo_today [] demo_table demo_info 0 (update_init [] demo_table demo_info 0))
    by (split; [apply rtc_refl | constructor]).
  split; [exact Hc|]. split; [exact Hr|].
  exact (update_data_no_workers demo_today [] demo_table demo_info 0 _ Hc Hr).
Defined.

Lemma demo_codes : NoDup ([] ++ demo_info).*1.
Proof. decide_concrete. Qed.

Lemma demo_pk : pk_unique demo_table.
Proof. decide_concrete. Qed.

Lemma update_data_isolation_witness :
  update_data_run demo_today [] demo_table demo_info 2 demo_final /\
  table demo_final ≡ₚ demo_table ++
    concat (map (fun it => (item_effect demo_today demo_table it).1) ([] ++ demo_info)) /\
  errors demo_final ≡ₚ
    concat (map (fun it => (item_effect demo_today demo_table it).2) ([] ++ demo_info)).
Proof.
  split; [exact demo_run|].
  exact (update_data_isolation demo_today [] demo_table demo_info 2 demo_final demo_run
           ltac:(lia) ltac:(discriminate) demo_codes demo_pk).
Defined.

Lemma update_data_refines_seq_witness :
  update_data_run demo_today [] demo_table demo_info 2 demo_final /\
  table demo_final ≡ₚ (update_seq demo_today demo_table ([] ++ demo_info)).1 /\
  errors demo_final ≡ₚ (update_seq demo_today demo_table ([] ++ demo_info)).2.
Proof.
  split; [exact demo_run|].
  exact (update_data_refines_seq demo_today [] demo_table demo_info 2 demo_final demo_run
           ltac:(lia) ltac:(discriminate) demo_codes demo_pk).
Defined.

(** ** Issuer discovery *)

Definition demo_pages : TablePages :=
  {| table_pages := [Ok (Some [["ALK"; "x"]; ["KMB"]; []; [""; "y"]; ["ALK"]]);
                     Err RequestException;
                     Ok (Some [["RZUS"]; ["MPT1"]; ["KMB"]]);
                     Ok None] |}.

Example demo_pages_codes :
  get_issuer_codes demo_pages = Ok ["ALK"; "KMB"; "RZUS"; "MPT1"] /\
  extractor_get_issuer_codes demo_pages = Ok ["ALK"; "KMB"; "RZUS"].
Proof. split; vm_compute; reflexivity. Qed.

Lemma extractor_contract_witness :
  extractor_get_issuer_codes demo_pages = Ok ["ALK"; "KMB"; "RZUS"] /\
  exists raw, get_issuer_codes demo_pages = Ok raw /\ ["ALK"; "KMB"; "RZUS"] `sublist_of` raw /\
    forall c, c ∈ ["ALK"; "KMB"; "RZUS"] <-> c ∈ raw /\ has_digit c = false.
Proof.
  assert (H : extractor_get_issuer_codes demo_pages = Ok ["ALK"; "KMB"; "RZUS"])
    by (vm_compute; reflexivity).
  split; [exact H | exact (extractor_contract demo_pages _ H)].
Defined.

Lemma dropdown_strategy_codes_witness :
  None ∈ [Some "ALK"; None] /\
  dropdown_strategy {| dropdown := Ok (Some [Some "ALK"; None]) |} = raise KeyError.
Proof.
  assert (H : None ∈ [Some "ALK"; None]) by decide_concrete.
  split; [exact H | exact (proj1 (dropdown_strategy_codes _) H)].
Defined.

Lemma clean_numeric_decimal_witness :
  list_ascii_of_string (remove_char " " (remove_char "," "1,234.50")) =
    ["1"; "2"; "3"; "4"]%char ++ ["."; "5"; "0"]%char /\
  clean_numeric (CStr "1,234.50") =
    Ok (NFin (dec_value (digits_value ["1"; "2"; "3"; "4"; "5"; "0"]%char) (-2))).
Proof.
  assert (H : list_ascii_of_string (remove_char " " (remove_char "," "1,234.50")) =
    ["1"; "2"; "3"; "4"]%char ++ ["."; "5"; "0"]%char) by (vm_compute; reflexivity).
  split; [exact H|].
  exact (clean_numeric_decimal "1,234.50" ["1"; "2"; "3"; "4"]%char (Some ["5"; "0"]%char)
    ltac:(discriminate) ltac:(repeat constructor) ltac:(repeat constructor) H).
Defined.

Lemma clean_numeric_blank_witness :
  Forall (fun c => c = ","%char \/ is_space c = true) (list_ascii_of_string " , ") /\
  clean_numeric (CStr " , ") = raise ValueError.
Proof.
  assert (H : Forall (fun c => c = ","%char \/ is_space c = true) (list_ascii_of_string " , "))
    by (repeat constructor; (left; reflexivity) || (right; reflexivity)).
  split; [exact H | exact (clean_numeric_blank _ H)].
Defined.

(** ** Two runs of [main] on the same day

    ALK was last stored 367 days before [demo_today], so the first run asks
    for [demo_today - 366 .. demo_today]: a span of exactly 366 days, whose
    only window ends the day before [demo_today].  The first run stores the
    10th and the 11th of January 2024 and misses the 15th; the second run
    resumes on the 12th and stores the 15th. *)

Definition idem_page : DropdownPage := {| dropdown := Ok (Some [Some "ALK"]) |}.

Definition idem_table : list stock_row :=
  [to_stock_row (Some "ALK") (demo_price (demo_today - 367))].

Definition idem_seq1 : main_outcome := Eval vm_compute in
  main_seq idem_page demo_today idem_table.

Definition idem_seq2 : main_outcome := Eval vm_compute in
  main_seq idem_page demo_today (out_table idem_seq1).

(** [main] is not idempotent: every pair of runs of [main] on the same
    day, against the same remote data, with any interleaving of the
    workers, stores a new row in the second run (and neither run reports an
    error), because the first run's last window stopped the day before
    [today]. *)
Theorem main_rerun_persists o1 o2 :
  main_run idem_page demo_today idem_table o1 ->
  main_run idem_page demo_today (out_table o1) o2 ->
  out_errors o1 = [] /\ out_errors o2 = [] /\
  length (out_table o2) = S (length (out_table o1)).
Proof.
  intros H1 H2.
  assert (Hu0 : pk_unique idem_table) by decide_concrete.
  destruct (main_run_seq _ _ _ _ H1 Hu0) as (Ht1 & He1 & _).
  change (main_seq idem_page demo_today idem_table) with idem_seq1 in Ht1, He1.
  assert (Hu1 : pk_unique (out_table o1)) by (rewrite Ht1; decide_concrete).
  destruct (main_run_seq _ _ _ _ H2 Hu1) as (Ht2 & He2 & _).
  destruct (main_seq_perm idem_page demo_today _ _ Ht1) as (Hp2 & Hpe2 & _).
  change (main_seq idem_page demo_today (out_table idem_seq1)) with idem_seq2 in Hp2, Hpe2.
  rewrite Hp2 in Ht2. rewrite Hpe2 in He2.
  apply Permutation_length in Ht1, Ht2. rewrite Ht1, Ht2.
  split_and!; [by apply Permutation_nil_r in He1 | by apply Permutation_nil_r in He2 | done].
Qed.

Definition idem_info1 : list (string * date) := Eval vm_compute in
  match check_data_currency idem_table demo_today ["ALK"] with Ok i => i | Err _ => [] end.

Definition idem_pool1 : pool := Eval vm_compute in
  Pool [] [Finished] (out_table idem_seq1) (out_errors idem_seq1) (work_items idem_info1).

Definition idem_info2 : list (string * date) := Eval vm_compute in
  match check_data_currency (table idem_pool1) demo_today ["ALK"] with Ok i => i | Err _ => [] end.

Definition idem_pool2 : pool := Eval vm_compute in
  Pool [] [Finished] (out_table idem_seq2) (out_errors idem_seq2) (work_items idem_info2).

(** One worker takes ALK, finishes it and finds the queue empty. *)
Lemma idem_run1 :
  main_run idem_page demo_today idem_table (MainOutcome (table idem_pool1) (errors idem_pool1) None).
Proof.
  apply (main_update _ _ _ ["ALK"] idem_info1 idem_pool1);
    [vm_compute; reflexivity | vm_compute; reflexivity | discriminate |].
  split; [|repeat constructor].
  take 0%nat. finish 0%nat. empty 0%nat. normalize_pool. apply rtc_refl.
Qed.

Lemma idem_run2 :
  main_run idem_page demo_today (table idem_pool1)
    (MainOutcome (table idem_pool2) (errors idem_pool2) None).
Proof.
  apply (main_update _ _ _ ["ALK"] idem_info2 idem_pool2);
    [vm_compute; reflexivity | vm_compute; reflexivity | discriminate |].
  split; [|repeat constructor].
  take 0%nat. finish 0%nat. empty 0%nat. normalize_pool. apply rtc_refl.
Qed.

Lemma main_rerun_persists_witness :
  main_run idem_page demo_today idem_table (MainOutcome (table idem_pool1) (errors idem_pool1) None) /\
  main_run idem_page demo_today (table idem_pool1)
    (MainOutcome (table idem_pool2) (errors idem_pool2) None) /\
  errors idem_pool1 = [] /\ errors idem_pool2 = [] /\
  length (table idem_pool2) = S (length (table idem_pool1)).
Proof.
  split; [exact idem_run1|]. split; [exact idem_run2|].
  exact (main_rerun_persists _ _ idem_run1 idem_run2).
Defined.

Lemma main_refines_seq_witness :
  main_run idem_page demo_today idem_table (MainOutcome (table idem_pool1) (errors idem_pool1) None) /\
  pk_unique idem_table /\
  table idem_pool1 ≡ₚ out_table (main_seq idem_page demo_today idem_table) /\
  errors idem_pool1 ≡ₚ out_errors (main_seq idem_page demo_today idem_table) /\
  None = out_exception (main_seq idem_page demo_today idem_table).
Proof.
  assert (Hu : pk_unique idem_table) by decide_concrete.
  split; [exact idem_run1|]. split; [exact Hu|].
  exact (main_refines_seq idem_page demo_today _ _ idem_run1 Hu).
Defined.

Lemma main_pk_unique_witness :
  main_run idem_page demo_today idem_table (MainOutcome (table idem_pool1) (errors idem_pool1) None) /\
  pk_unique idem_table /\ pk_unique (table idem_pool1).
Proof.
  assert (Hu : pk_unique idem_table) by decide_concrete.
  split; [exact idem_run1|]. split; [exact Hu|].
  exact (main_pk_unique idem_page demo_today _ _ idem_run1 Hu).
Defined.

(** ALK stored up to today, and up to yesterday. *)
Definition current_table : list stock_row :=
  [to_stock_row (Some "ALK") (demo_price demo_today)].

Definition daily_table : list stock_row :=
  [to_stock_row (Some "ALK") (demo_price (demo_today - 1))].

Definition daily_info : list (string * date) := Eval vm_compute in
  match check_data_currency daily_table demo_today ["ALK"] with Ok i => i | Err _ => [] end.

Definition daily_pool : pool := Eval vm_compute in
  Pool [] [Finished] daily_table [NoData "ALK"] (work_items daily_info).

Lemma daily_run :
  main_run idem_page demo_today daily_table (MainOutcome daily_table [NoData "ALK"] None).
Proof.
  change daily_table with (table daily_pool) at 2.
  change [NoData "ALK"] with (errors daily_pool).
  apply (main_update _ _ _ ["ALK"] daily_info daily_pool);
    [vm_compute; reflexivity | vm_compute; reflexivity | discriminate |].
  split; [|repeat constructor].
  take 0%nat. finish 0%nat. empty 0%nat. normalize_pool. apply rtc_refl.
Qed.

Lemma single_table_wf d : date_min <= d <= date_max ->
  table_wf [to_stock_row (Some "ALK") (demo_price d)].
Proof. intros Hd r d' Hr Hd'. apply list_elem_of_singleton in Hr as ->. by injection Hd' as <-. Qed.

Lemma main_up_to_date_noop_witness :
  extractor_get_issuer_codes idem_page = Ok ["ALK"] /\ table_wf current_table /\
  date_min + 3650 <= demo_today <= date_max /\
  (forall c, c ∈ ["ALK"] -> exists l, get_last_date current_table c = Some l /\ demo_today <= l) /\
  main_run idem_page demo_today current_table (MainOutcome current_table [] None) /\
  MainOutcome current_table [] None = MainOutcome current_table [] None.
Proof.
  assert (Hc : extractor_get_issuer_codes idem_page = Ok ["ALK"]) by (vm_compute; reflexivity).
  assert (Ht : date_min + 3650 <= demo_today <= date_max) by concrete.
  assert (Hwf : table_wf current_table) by (apply single_table_wf; concrete).
  assert (Hcur : forall c, c ∈ ["ALK"] -> exists l, get_last_date current_table c = Some l /\ demo_today <= l).
  { intros c ->%list_elem_of_singleton. exists demo_today. split; [vm_compute; reflexivity | lia]. }
  assert (Hrun : main_run idem_page demo_today current_table (MainOutcome current_table [] None)).
  { apply (main_up_to_date _ _ _ ["ALK"]); vm_compute; reflexivity. }
  split; [exact Hc|]. split; [exact Hwf|]. split; [exact Ht|]. split; [exact Hcur|].
  split; [exact Hrun|].
  exact (main_up_to_date_noop idem_page demo_today _ _ _ Hc Hwf Ht Hcur Hrun).
Defined.

Lemma main_daily_no_data_witness :
  extractor_get_issuer_codes idem_page = Ok ["ALK"] /\ ["ALK"] <> [] /\
  table_wf daily_table /\ pk_unique daily_table /\ date_min + 3650 <= demo_today <= date_max /\
  (forall c, c ∈ ["ALK"] -> get_last_date daily_table c = Some (demo_today - 1)) /\
  main_run idem_page demo_today daily_table (MainOutcome daily_table [NoData "ALK"] None) /\
  daily_table ≡ₚ daily_table /\ NoDup [NoData "ALK"] /\
  forall e, e ∈ [NoData "ALK"] <-> exists c, c ∈ ["ALK"] /\ e = NoData c.
Proof.
  assert (Hc : extractor_get_issuer_codes idem_page = Ok ["ALK"]) by (vm_compute; reflexivity).
  assert (Hne : ["ALK"] <> []) by discriminate.
  assert (Ht : date_min + 3650 <= demo_today <= date_max) by concrete.
  assert (Hwf : table_wf daily_table) by (apply single_table_wf; concrete).
  assert (Hu : pk_unique daily_table) by decide_concrete.
  assert (Hy : forall c, c ∈ ["ALK"] -> get_last_date daily_table c = Some (demo_today - 1)).
  { intros c ->%list_elem_of_singleton. vm_compute; reflexivity. }
  split; [exact Hc|]. split; [exact Hne|]. split; [exact Hwf|]. split; [exact Hu|].
  split; [exact Ht|]. split; [exact Hy|]. split; [exact daily_run|].
  exact (main_daily_no_data idem_page demo_today _ _ _ Hc Hne Hwf Hu Ht Hy daily_run).
Defined.

(** ** The printed sample *)

Definition kmb_row : stock_row :=
  StockRow (Some "KMB") (Some (ymd 2024 1 10)) (NFin 1%Q) (NFin 1%Q) (NFin 1%Q) (NFin 0%Q) NNaN.

Definition sample_table : list stock_row :=
  [StockRow (Some "ALK") (Some (ymd 2024 1 10)) (NFin (Qmake 2469 2)) (NFin 1300%Q) (NFin 1200%Q)
     (NFin 100%Q) (NFin (Qmake 12345678 1000)); kmb_row].

Example sample_printed :
  fetch_sample_data sample_table None 100 =
    [SampleRow (Some "ALK") (Some "2024-01-10") (CStr "1,234.50") (CStr "1,300.00")
       (CStr "1,200.00") (CStr "100.00") (CStr "12,345.68")].
Proof. vm_compute. reflexivity. Qed.

Lemma sample_result_rows_witness :
  sample_result sample_table (Some "KMB") 5 (map format_row [kmb_row]) /\
  ((0 <= 5 -> (length (map format_row [kmb_row]) <= Z.to_nat 5)%nat) /\
   forall s, s ∈ map format_row [kmb_row] ->
     exists r, r ∈ sample_table /\ sample_where (Some "KMB") r = true /\
       sample_code s = sr_code r /\ sample_date s = isoformat <$> sr_date r /\
       Forall2 (fun c x => clean_numeric c = Ok (round2 x)) (sample_values s) (row_values r)).
Proof.
  assert (H : sample_result sample_table (Some "KMB") 5 (map format_row [kmb_row])).
  { exists [kmb_row]. split; [decide_concrete | split; reflexivity]. }
  split; [exact H | exact (sample_result_rows _ _ _ _ H)].
Defined.
