(* ===== verification/TechnicalExamples.v ===== *)
(** Concrete runs of the technical analysis: a small price table, its
    weekly bars, the indicators [ta_lib] computes on it, and the theorems
    of [Indicators], [Resample] and [Technical] applied to them.  It also
    holds the concrete cases behind the findings: an oversold RSI that the
    price/SMA rule overrides, a table whose only rows have a NULL code or a
    NULL date, and the empty table. *)

From Stdlib Require Import QArith String.
From stdpp Require Import strings sorting.
From S2P Require Import Prelude Dates Numeric Database Orchestrator Pipeline Indicators Resample Technical App.

Close Scope Q_scope.
Local Open Scope Z_scope.

(** ** The weighted mean of [ewm] *)

Definition ewm_series : list num := [NFin 10; NNaN; NFin 13; NFin 12].

Lemma ewm_mean_weighted_witness :
  (0 < span_alpha 20 < 1)%Q /\ Forall (fun x => finite_or_nan x = true) ewm_series /\
  Forall2 num_equiv (ewm_mean (span_alpha 20) true 0 ewm_series)
                    (imap (fun t _ => ewm_ref (span_alpha 20) (take (S t) ewm_series)) ewm_series).
Proof.
  assert (Ha : (0 < span_alpha 20 < 1)%Q) by (split; reflexivity).
  assert (Hf : Forall (fun x => finite_or_nan x = true) ewm_series) by repeat constructor.
  split; [exact Ha | split; [exact Hf | exact (ewm_mean_weighted _ _ Ha Hf)]].
Defined.

(** ** Williams %R and the stochastic oscillator *)

Definition zs (l : list Z) : list num := map (fun z => NFin (inject_Z z)) l.

Definition osc_high : list num := zs [12; 13; 13; 14; 15; 15; 14; 16; 17; 17; 16; 18; 18; 19; 20; 20].
Definition osc_low : list num := NNaN :: zs [11; 12; 12; 13; 14; 13; 15; 16; 15; 15; 17; 17; 18; 19; 18].
Definition osc_close : list num := zs [11; 13; 12; 14; 14; 14; 13; 16; 16; 16; 15; 17; 18; 18; 19; 20].

Lemma williams_r_stoch_witness :
  Forall (fun y => finite_or_nan y = true) osc_high /\ Forall (fun y => finite_or_nan y = true) osc_low /\
  Forall (fun y => finite_or_nan y = true) osc_close /\
  Forall2 num_equiv (ta_williams_r osc_high osc_low osc_close)
                    (map (fun k => num_sub k (NFin 100)) (ta_stoch osc_high osc_low osc_close)).
Proof.
  assert (Hh : Forall (fun y => finite_or_nan y = true) osc_high) by repeat constructor.
  assert (Hl : Forall (fun y => finite_or_nan y = true) osc_low) by repeat constructor.
  assert (Hc : Forall (fun y => finite_or_nan y = true) osc_close) by repeat constructor.
  split_and!; [exact Hh | exact Hl | exact Hc | exact (williams_r_stoch _ _ _ Hh Hl Hc)].
Defined.

(** ** A price frame *)

Definition px (d : date) (last hi lo vol : Z) : bar :=
  Bar (Some d) (NFin (inject_Z last)) (NFin (inject_Z hi)) (NFin (inject_Z lo)) (NFin (inject_Z vol)).

Definition frame : list bar :=
  [px (ymd 2024 1 26) 100 101 99 10; px (ymd 2024 1 29) 102 103 100 20;
   px (ymd 2024 1 31) 101 102 100 5; px (ymd 2024 2 5) 99 101 98 7;
   Bar None NNaN NNaN NNaN (NFin 3)].



(** The weekly bars of [frame]: the NaT row first, then the weeks ending
    on Sunday January 28, February 4 and February 11 2024. *)
Definition weekly_frame : list bar :=
  Eval vm_compute in match resample rule_W frame with Ok o => o | Err _ => [] end.

Example weekly_frame_labels :
  map bar_date weekly_frame = [None; Some (ymd 2024 1 28); Some (ymd 2024 2 4); Some (ymd 2024 2 11)].
Proof. vm_compute. reflexivity. Qed.

Lemma resample_volume_witness :
  Forall (fun b => finite_or_nan (bar_volume b) = true) frame /\
  resample rule_W frame = Ok weekly_frame /\ (volume weekly_frame == volume frame)%Q.
Proof.
  assert (Hf : Forall (fun b => finite_or_nan (bar_volume b) = true) frame) by repeat constructor.
  assert (Hr : resample rule_W frame = Ok weekly_frame) by (vm_compute; reflexivity).
  split_and!; [exact Hf | exact Hr | exact (resample_volume _ _ _ Hf Hr)].
Defined.

Lemma month_bin_spec_witness :
  1 <= ymd 2024 2 10 /\
  let '(y, m, _) := ord2ymd (ymd 2024 2 10) in
  let e := bin_label rule_ME (bin_index rule_ME (ymd 2024 2 10)) in
  ord2ymd e = (y, m, days_in_month y m) /\ ymd 2024 2 10 <= e.
Proof.
  assert (H : 1 <= ymd 2024 2 10) by (vm_compute; congruence).
  split; [exact H | exact (month_bin_spec _ H)].
Defined.

(** ** [technical_analysis] on a table *)

Definition srow (code : option string) (d : option date) (last vol : Z) : stock_row :=
  StockRow code d (NFin (inject_Z last)) (NFin (inject_Z last)) (NFin (inject_Z last))
           (NFin (inject_Z vol)) NNaN.

Definition ta_table : list stock_row :=
  [srow (Some "KMB") (Some (ymd 2024 1 29)) 100 10; srow None (Some (ymd 2024 1 29)) 50 1;
   srow (Some "ALK") (Some (ymd 2024 1 30)) 20 4; srow (Some "KMB") (Some (ymd 2024 1 26)) 98 6].

Definition ta_out : list ti_row :=
  Eval vm_compute in match technical_analysis ta_table with Ok o => o | Err _ => [] end.

Lemma technical_analysis_daily_witness :
  technical_analysis ta_table = Ok ta_out /\
  Forall (fun t => ti_code t <> None) ta_out /\
  daily_keys ta_out ≡ₚ map (fun s => (sr_code s, sr_date s))
                           (filter (fun s => bool_decide (sr_code s <> None)) ta_table).
Proof.
  assert (H : technical_analysis ta_table = Ok ta_out) by (vm_compute; reflexivity).
  split; [exact H | exact (technical_analysis_daily _ _ H)].
Defined.

Lemma technical_analysis_rsi_range_witness :
  Forall (fun s => finite_or_nan (sr_last s) = true) ta_table /\ technical_analysis ta_table = Ok ta_out /\
  Forall (fun t => in_range 0 100 (ti_rsi t)) ta_out.
Proof.
  assert (Hf : Forall (fun s => finite_or_nan (sr_last s) = true) ta_table) by repeat constructor.
  assert (H : technical_analysis ta_table = Ok ta_out) by (vm_compute; reflexivity).
  split; [exact Hf|]. split; [exact H | exact (technical_analysis_rsi_range _ _ Hf H)].
Defined.

(** The daily rows are sorted by code, then date; the row with the NULL
    code is not among them. *)
Example ta_out_daily :
  daily_keys ta_out =
    [(Some "ALK", Some (ymd 2024 1 30)); (Some "KMB", Some (ymd 2024 1 26));
     (Some "KMB", Some (ymd 2024 1 29))].
Proof. vm_compute. reflexivity. Qed.

(** ** The findings *)

(** An RSI of 10 (oversold: the "Buy" rule) on a row whose price is below
    its 20-row mean ends as "Sell": the price/SMA assignments come last. *)
Example signal_rsi_overridden : signal_rule (NFin 90) (NFin 100) (NFin 10) = Sell.
Proof. reflexivity. Qed.

(** The empty table: [pd.concat([])] raises. *)
Example technical_analysis_empty : technical_analysis [] = Err ValueError.
Proof. reflexivity. Qed.

(** A code whose only row has a NULL date: the weekly resampling raises and
    the whole analysis fails. *)
Example technical_analysis_nat_code :
  technical_analysis [srow (Some "KMB") None 100 10; srow (Some "ALK") (Some (ymd 2024 1 30)) 20 4] =
    Err ValueError.
Proof. vm_compute. reflexivity. Qed.

(** ** The web routes on that table *)

Definition web_db : db := Db ta_table (Some ta_out).

(** The daily rows of KMB, latest first. *)
Definition kmb_desc : list ti_row := reverse (filter (ti_matches "KMB" "daily") ta_out).

Definition kmb_latest_resp : response :=
  Eval vm_compute in (200, BRecords (map to_record (take 1 kmb_desc))).

Definition kmb_hist_resp : response :=
  Eval vm_compute in (200, BRecords (map to_record (take 100 kmb_desc))).

Lemma ta_out_dates : forall t x, t ∈ ta_out -> ti_date t = Some x -> date_min <= x <= date_max.
Proof. apply ti_dates_Forall. repeat constructor; vm_compute; intros; discriminate. Qed.

Lemma kmb_desc_query n : query_analysis ta_out "KMB" "daily" n (take n kmb_desc).
Proof.
  exists kmb_desc. split_and!.
  - apply reverse_Permutation.
  - repeat constructor; vm_compute; congruence.
  - reflexivity.
Qed.

(** [/fetch_latest_analysis] answers the row of 2024-01-29, the later of
    the two KMB days. *)
Example fetch_latest_kmb :
  fetch_latest_analysis web_db (Some "KMB") (Some "daily") kmb_latest_resp /\
  kmb_latest_resp = (200, BRecords (map to_record (filter (fun t => bool_decide (ti_date t = Some (ymd 2024 1 29)))
                                                    (filter (ti_matches "KMB" "daily") ta_out)))).
Proof. split; [exists (take 1 kmb_desc); split; [apply kmb_desc_query | reflexivity] | vm_compute; reflexivity]. Qed.

Lemma fetch_analysis_spec_witness :
  (forall t x, t ∈ ta_out -> ti_date t = Some x -> date_min <= x <= date_max) /\
  fetch_historical_analysis web_db (Some "KMB") (Some "daily") kmb_hist_resp /\
  (("KMB" = "" \/ "daily" = "") -> kmb_hist_resp = (400, BMessage "Missing required parameters.")) /\
  ("KMB" <> "" -> "daily" <> "" -> "daily" ∉ valid_periods ->
     kmb_hist_resp = (400, BMessage "Invalid time period selected.")) /\
  ("KMB" <> "" -> "daily" ∈ valid_periods -> technical_indicators web_db = None ->
     kmb_hist_resp = (500, BMessage (missing_table_message "historical" (analysis_query "100")))) /\
  ("KMB" <> "" -> "daily" ∈ valid_periods -> forall rows, technical_indicators web_db = Some rows ->
     (forall t x, t ∈ rows -> ti_date t = Some x -> date_min <= x <= date_max) ->
     exists out rest, out ++ rest ≡ₚ filter (ti_matches "KMB" "daily") rows /\
       length out = Nat.min 100 (length (filter (ti_matches "KMB" "daily") rows)) /\
       (forall i j t u y, (i < j)%nat -> (out ++ rest) !! i = Some t -> (out ++ rest) !! j = Some u ->
          ti_date u = Some y -> exists x, ti_date t = Some x /\ y <= x) /\
       kmb_hist_resp = if bool_decide (out = []) then (404, BMessage "No data available for the selected criteria.")
                       else (200, BRecords (map to_record out))).
Proof.
  assert (H : fetch_historical_analysis web_db (Some "KMB") (Some "daily") kmb_hist_resp).
  { exists (take 100 kmb_desc). split; [apply kmb_desc_query | reflexivity]. }
  split; [exact ta_out_dates|]. split; [exact H | exact (fetch_analysis_spec _ _ _ _ _ _ _ H)].
Defined.

(** [/scrape_data] answers 200 even when [main] met an exception: here the
    issuer list could not be fetched. *)
Example scrape_data_hides_error :
  (scrape_data web_db (MainOutcome ta_table [] (Some RequestException))).1 =
    (200, BMessage "Data scraped successfully.").
Proof. reflexivity. Qed.

(** [/get_issuer_codes] on a table with a NULL code: [null] comes first. *)
Example get_issuer_codes_null_first :
  get_issuer_codes web_db = (200, BCodes [None; Some "ALK"; Some "KMB"]).
Proof. vm_compute. reflexivity. Qed.

(** [/run_analysis] on an empty table fails with 500. *)
Example run_analysis_empty :
  (run_analysis (Db [] None)).1 =
    (500, BMessage "Error running technical analysis script: Command '['python', 'TechnicalAnalysis.py']' returned non-zero exit status 1.").
Proof. reflexivity. Qed.
